(** * Cloud connectivity core: message correlation, object-model codec, OTA

    A shallow embedding of [aliyunIot.py] and [quecthing.py] and the
    properties the specification states about them.

    Part I embeds the code, one module per Python class, keeping the
    names of the source (private methods keep their leading double
    underscore).  Part II defines the vocabulary of the properties and
    the sample objects they are tried on.  Part III states and proves the
    properties, C1 to C10.  Part IV states and proves further properties
    of the code, X1 to X28: edge cases, invariants, round trips and the
    way the operations compose.

    Conventions of the embedding:
    - Python integers are [Z]; [str] of an integer is its decimal spelling.
    - A Python dict whose iteration order matters is an association list in
      iteration order, written to with [dict_set]; a dict that is only
      looked up is a [gmap].
    - An exception is a [Raise] in the [result] monad.
    - Calls into the platform (transport, flash, file system, restart) are
      recorded in an event log, in call order.  What a call returns, and
      for the unpack stage of AliOTA whether it raises, is a parameter of
      the method that makes it.
    - An asynchronous writer (timer callback, inbound message callback) is
      an event of a trace; the events of one trace element are delivered
      while the caller sleeps or blocks. *)

From Stdlib Require Import ZArith List String Ascii Lia Bool.
From stdpp Require Import gmap strings list fin_maps pretty.
From Equations Require Import Equations.
Import ListNotations.
Open Scope string_scope.
Open Scope list_scope.
Open Scope Z_scope.

#[global] Set Warnings "-register-all".

(** * Part I: the embedding *)

Module Py.

(** The exceptions the modelled code can raise. *)
Inductive exn : Type :=
| StopIteration
| AttributeError
| KeyError
| ValueError
| UnicodeError
| OSError.

(** What a call comes to: it returns, it raises, or it is still blocked
    when the modelled trace of asynchronous events ends. *)
Inductive result (A : Type) : Type :=
| Ok (a : A)
| Raise (e : exn)
| Blocked.
Arguments Ok {A} a.
Arguments Raise {A} e.
Arguments Blocked {A}.

#[export] Instance result_ret : MRet result := fun _ a => Ok a.
#[export] Instance result_bind : MBind result :=
  fun _ _ f c =>
    match c with Ok a => f a | Raise e => Raise e | Blocked => Blocked end.

(** Code that reads and writes the fields of [self]: a result together
    with the object's state, which an exception leaves as it was when
    raised. *)
Definition M (S A : Type) : Type := S -> result A * S.

Definition ret {S A} (a : A) : M S A := fun s => (Ok a, s).

Definition bind {S A B} (c : M S A) (f : A -> M S B) : M S B :=
  fun s =>
    match c s with
    | (Ok a, s') => f a s'
    | (Raise e, s') => (Raise e, s')
    | (Blocked, s') => (Blocked, s')
    end.

Notation "'let*' x ':=' c 'in' k" := (bind c (fun x => k))
  (at level 10, x name, c at level 100, k at level 200).

Definition raise {S A} (e : exn) : M S A := fun s => (Raise e, s).
Definition gets {S A} (f : S -> A) : M S A := fun s => (Ok (f s), s).
Definition modify {S} (f : S -> S) : M S unit := fun s => (Ok tt, f s).

(** [try: c except Exception as e: h e] *)
Definition try_except {S A} (c : M S A) (h : exn -> M S A) : M S A :=
  fun s =>
    match c s with
    | (Raise e, s') => h e s'
    | r => r
    end.

(** [for x in l: body x] *)
Fixpoint for_each {S A} (l : list A) (body : A -> M S unit) : M S unit :=
  match l with
  | [] => ret tt
  | x :: l' => let* _ := body x in for_each l' body
  end.

(** [[f x for x in l]] *)
Fixpoint comprehension {S A B} (l : list A) (f : A -> M S B) : M S (list B) :=
  match l with
  | [] => ret []
  | x :: l' => let* y := f x in let* ys := comprehension l' f in ret (y :: ys)
  end.

(** Python values, as far as the posted records use them.  Records are
    JSON-style objects, so dictionary keys are strings. *)
Inductive pyval : Type :=
| PyNone
| PyBool (b : bool)
| PyInt (z : Z)
| PyStr (s : string)
| PyList (l : list pyval)
| PyDict (d : list (string * pyval)).

(** Truth value of [v] in a condition, [if v] / [if not v]. *)
Definition truthy (v : pyval) : bool :=
  match v with
  | PyNone => false
  | PyBool b => b
  | PyInt z => negb (z =? 0)
  | PyStr s => negb (String.eqb s EmptyString)
  | PyList l => match l with [] => false | _ => true end
  | PyDict d => match d with [] => false | _ => true end
  end.

(** [str(n)] for an integer [n]. *)
Definition str (n : Z) : string := pretty n.

Section dict.
Context {K V : Type} `{EqDecision K}.

(** [d.get(k)] *)
Fixpoint dict_get (k : K) (d : list (K * V)) : option V :=
  match d with
  | [] => None
  | (k', v) :: d' => if decide (k' = k) then Some v else dict_get k d'
  end.

(** [d[k] = v]: overwrite in place, or append a new entry. *)
Fixpoint dict_set (k : K) (v : V) (d : list (K * V)) : list (K * V) :=
  match d with
  | [] => [(k, v)]
  | (k', v') :: d' =>
      if decide (k' = k) then (k, v) :: d' else (k', v') :: dict_set k v d'
  end.

(** [d.keys()] *)
Definition dict_keys (d : list (K * V)) : list K := fst <$> d.

End dict.

(** ** Text helpers used by the archive reader *)

(** [s.rstrip("\0")] *)
Fixpoint rstrip_nul (s : string) : string :=
  match s with
  | EmptyString => EmptyString
  | String c s' =>
      match rstrip_nul s' with
      | EmptyString => if Ascii.eqb c zero then EmptyString else String c EmptyString
      | r => String c r
      end
  end.

(** [data.decode("ascii")]: every byte must be below 128. *)
Fixpoint decode_ascii (data : list Byte.byte) : result string :=
  match data with
  | [] => Ok EmptyString
  | b :: data' =>
      if (128 <=? Z.of_N (Byte.to_N b))
      then Raise UnicodeError
      else s ← decode_ascii data'; Ok (String (ascii_of_byte b) s)
  end.

Definition is_space (c : ascii) : bool :=
  let n := nat_of_ascii c in
  ((n =? 32) || ((9 <=? n) && (n <=? 13)))%nat.

Fixpoint lstrip_space (s : string) : string :=
  match s with
  | String c s' => if is_space c then lstrip_space s' else s
  | EmptyString => EmptyString
  end.

(** [s.rstrip()] on whitespace. *)
Fixpoint rstrip_space (s : string) : string :=
  match s with
  | EmptyString => EmptyString
  | String c s' =>
      match rstrip_space s' with
      | EmptyString => if is_space c then EmptyString else String c EmptyString
      | r => String c r
      end
  end.

Definition octal_digit (c : ascii) : option Z :=
  let n := Z.of_nat (nat_of_ascii c) in
  if (48 <=? n) && (n <=? 55) then Some (n - 48) else None.

(** Value of a run of octal digits, most significant first. *)
Fixpoint octal_digits (acc : Z) (s : string) : option Z :=
  match s with
  | EmptyString => Some acc
  | String c s' =>
      match octal_digit c with
      | Some d => octal_digits (8 * acc + d) s'
      | None => None
      end
  end.

(** The digits of a literal without its digit-group underscores.  An
    underscore may stand between two digits only: not first, not last,
    and not next to another one.  [after_digit] says whether the
    character before was a digit; [None] is a misplaced underscore or a
    literal without a digit. *)
Fixpoint ungroup (after_digit : bool) (s : string) : option string :=
  match s with
  | EmptyString => if after_digit then Some EmptyString else None
  | String c r =>
      if Ascii.eqb c "_"
      then if after_digit then ungroup false r else None
      else option_map (String c) (ungroup true r)
  end.

(** [int(s, 8)]: surrounding whitespace, an optional sign, an optional
    [0o]/[0O] prefix (one underscore may follow it), then octal digits,
    at least one, with single underscores between them; anything else is
    a [ValueError]. *)
Definition int_base8 (s : string) : result Z :=
  let s1 := rstrip_space (lstrip_space s) in
  let '(neg, s2) :=
    match s1 with
    | String "-" r => (true, r)
    | String "+" r => (false, r)
    | _ => (false, s1)
    end in
  let s3 :=
    match s2 with
    | String "0" (String "o" (String "_" r)) => r
    | String "0" (String "O" (String "_" r)) => r
    | String "0" (String "o" r) => r
    | String "0" (String "O" r) => r
    | _ => s2
    end in
  match ungroup false s3 with
  | Some digits =>
      match octal_digits 0 digits with
      | Some n => Ok (if neg then - n else n)
      | None => Raise ValueError
      end
  | None => Raise ValueError
  end.

End Py.
Export Py.

(** ** usr.modules.common *)

Module Common.

(** [numiter] (usr.modules.common) is not among the sources: the methods
    that draw ids take the iterator as parameters, a fresh iterator and
    its [next].  The counter below is one iterator to run them with in
    examples: it yields 1, 2, ..., [_max] and is then exhausted; its
    state is the last number yielded. *)
Definition numiter : Z := 0.

(** [next(it)] for the counter up to [_max]; [None] is
    [StopIteration]. *)
Definition numiter_next (_max : Z) (num : Z) : option (Z * Z) :=
  if num <? _max then Some (num + 1, num + 1) else None.

(** The two domains of an object model, the keys of [items]. *)
Inductive om_type : Type := events | properties.

#[export] Instance om_type_eq_dec : EqDecision om_type.
Proof. solve_decision. Defined.

Section object_model.
(** The type of wire identifiers: numbers for QuecObjectModel, the empty
    string for AliObjectModel. *)
Context {I : Type}.

(** A nested field and an item, with the keys the class docstrings of
    AliObjectModel and QuecObjectModel show: [name], [id], [perm],
    [struct_info]. *)
Record om_field : Type := {
  field_name : string;
  field_id : I;
  field_struct : list string }.

Record om_item : Type := {
  item_name : string;
  item_id : I;
  item_perm : string;
  struct_info : gmap string om_field }.

(** Modelled from the spec: [CloudObjectModel] (usr.modules.common) is
    not among the sources.  [items] maps each domain to its items by
    semantic key. *)
Record CloudObjectModel : Type := { items : om_type -> gmap string om_item }.

Definition empty_model : CloudObjectModel := {| items := fun _ => ∅ |}.

(** Modelled from the spec: "register(domain, key, wireId, permission):
    insert/overwrite; last write wins". *)
Definition set_item (om_ty : om_type) (om_key : string) (om_key_id : I)
    (om_key_perm : string) (m : CloudObjectModel) : bool * CloudObjectModel :=
  let om_data := {| item_name := om_key; item_id := om_key_id;
                    item_perm := om_key_perm; struct_info := ∅ |} in
  (true, {| items := fun t => if decide (t = om_ty)
                              then <[om_key := om_data]> (items m t)
                              else items m t |}).

(** Modelled from the spec: "registerNestedField(domain, key, fieldKey,
    fieldWireId, fieldStruct): attaches a field mapping; caller must
    ensure the parent exists". *)
Definition set_item_struct (om_ty : om_type) (om_key struct_key : string)
    (struct_key_id : I) (struct_key_struct : list string)
    (m : CloudObjectModel) : bool * CloudObjectModel :=
  match items m om_ty !! om_key with
  | None => (false, m)
  | Some it =>
      let fld := {| field_name := struct_key; field_id := struct_key_id;
                    field_struct := struct_key_struct |} in
      let it' := {| item_name := item_name it; item_id := item_id it;
                    item_perm := item_perm it;
                    struct_info := <[struct_key := fld]> (struct_info it) |} in
      (true, {| items := fun t => if decide (t = om_ty)
                                  then <[om_key := it']> (items m t)
                                  else items m t |})
  end.

End object_model.
Arguments om_field : clear implicits.
Arguments om_item : clear implicits.
Arguments CloudObjectModel : clear implicits.

End Common.
Export Common.

(** ** quecthing.py: class QuecObjectModel *)

Module QuecObjectModel.

(** [items] is inherited from CloudObjectModel; [items_id] maps a wire id
    back to the key registered with it. *)
Record t : Type := {
  om : CloudObjectModel Z;
  items_id : gmap Z string }.

Definition new : t := {| om := empty_model; items_id := ∅ |}.

Definition __set_items_id (om_key : string) (om_key_id : Z) (m : t) : bool * t :=
  (true, {| om := om m; items_id := <[om_key_id := om_key]> (items_id m) |}).

Definition set_item (om_ty : om_type) (om_key : string) (om_key_id : Z)
    (om_key_perm : string) (m : t) : bool * t :=
  let '(ok, base) := Common.set_item om_ty om_key om_key_id om_key_perm (om m) in
  if ok
  then let '(_, m') := __set_items_id om_key om_key_id
                         {| om := base; items_id := items_id m |} in
       (true, m')
  else (false, m).

(** [set_item_struct] is inherited unchanged. *)
Definition set_item_struct (om_ty : om_type) (om_key struct_key : string)
    (struct_key_id : Z) (struct_key_struct : list string) (m : t) : bool * t :=
  let '(ok, base) :=
    Common.set_item_struct om_ty om_key struct_key struct_key_id struct_key_struct (om m) in
  (ok, {| om := base; items_id := items_id m |}).

(** The registrations [init] performs while it walks the schema file. *)
Inductive registration : Type :=
| SetItem (om_ty : om_type) (om_key : string) (om_key_id : Z) (om_key_perm : string)
| SetItemStruct (om_ty : om_type) (om_key struct_key : string)
    (struct_key_id : Z) (struct_key_struct : list string).

Definition register (m : t) (r : registration) : t :=
  match r with
  | SetItem ty k i p => snd (set_item ty k i p m)
  | SetItemStruct ty k sk si ss => snd (set_item_struct ty k sk si ss m)
  end.

Definition registered (rs : list registration) : t := fold_left register rs new.

End QuecObjectModel.

(** ** quecthing.py: class QuecThing *)

Module QuecThing.

(** Keys and values of the wire form: a sub-key translated to a field id
    is a number, one passed through is still its name. *)
Inductive wire_key : Type := WireId (i : Z) | WireName (s : string).

#[global] Instance wire_key_eq_dec : EqDecision wire_key.
Proof. solve_decision. Defined.

Inductive wire_val : Type :=
| WireRaw (v : pyval)
| WireStruct (nv : list (wire_key * pyval)).

(** Calls into the platform ([quecIot], [SOTA], the observers), as logged.
    [WriteUpdateData a n] is [write_update_data(updateFile)] for the block
    [updateFile = mcuFWDataRead(a, n)]. *)
Inductive call : Type :=
| PhymodelReport (k_id : Z) (v : wire_val)
| LocReportOutside (v : pyval)
| LocReportInside (v : pyval)
| OtaAction (action : Z)
| McuFWDataRead (start_addr readsize : Z)
| WriteUpdateData (start_addr readsize : Z)
| CheckMd5 (md5_value : string)
| FileUpdate
| SotaSetFlag
| NotifyPowerRestart.

(** What runs asynchronously to a caller blocked in [__get_post_res]: the
    timer callback, and [__event_cb] handing a publish result (event 4)
    to [__put_post_res]. *)
Inductive async : Type := TimerCb | PutPostRes (res : bool).

(** The fields of a QuecThing, the log of platform calls, and the
    asynchronous events still to come. *)
#[projections(primitive)]
Record state : Type := {
  object_model : option QuecObjectModel.t;
  file_size : Z;
  md5_value : string;
  post_result_wait_queue : list bool;
  log : list call;
  future : list async }.

Definition set_queue (q : list bool) (s : state) : state :=
  {| object_model := object_model s; file_size := file_size s;
     md5_value := md5_value s; post_result_wait_queue := q;
     log := log s; future := future s |}.

Definition set_future (f : list async) (s : state) : state :=
  {| object_model := object_model s; file_size := file_size s;
     md5_value := md5_value s;
     post_result_wait_queue := post_result_wait_queue s;
     log := log s; future := f |}.

Definition add_log (c : call) (s : state) : state :=
  {| object_model := object_model s; file_size := file_size s;
     md5_value := md5_value s;
     post_result_wait_queue := post_result_wait_queue s;
     log := log s ++ [c]; future := future s |}.

(** [Queue(maxsize=16)]: [put] appends unless the queue is full, [get]
    takes the oldest entry. *)
Definition maxsize : nat := 16.

Definition queue_put {A} (x : A) (q : list A) : list A :=
  if (length q <? maxsize)%nat then q ++ [x] else q.

Definition queue_get {A} (q : list A) : list A := tail q.

Definition __put_post_res {A} (res : A) (q : list A) : list A :=
  let q1 := if (16 <=? length q)%nat then queue_get q else q in
  queue_put res q1.

Definition __quec_timer_cb (q : list bool) : list bool := __put_post_res false q.

Definition deliver (ev : async) (q : list bool) : list bool :=
  match ev with
  | TimerCb => __quec_timer_cb q
  | PutPostRes res => __put_post_res res q
  end.

(** [self.__post_result_wait_queue.get()]: blocks while the queue is empty. *)
Fixpoint blocking_get (q : list bool) (f : list async) : result bool * list bool * list async :=
  match q with
  | res :: q' => (Ok res, q', f)
  | [] =>
      match f with
      | [] => (Blocked, q, f)
      | ev :: f' => blocking_get (deliver ev q) f'
      end
  end.

Section methods.
(** What the platform answers to a call, given the calls made before it. *)
Variable platform : list call -> call -> bool.

Definition invoke (c : call) : M state bool :=
  fun s => (Ok (platform (log s) c), add_log c s).

(** The timer is started before and stopped after the blocking [get]; its
    expiry in between is a [TimerCb] of the trace. *)
Definition __get_post_res : M state bool :=
  fun s =>
    let '(res, q, f) := blocking_get (post_result_wait_queue s) (future s) in
    (res, set_future f (set_queue q s)).

(** The translation of a composite value: [nv] after the loop over
    [v.items()].  An entry of [struct_info] is a non-empty dict, so
    [struct_info.get(ik)] is true exactly when [ik] is registered. *)
Definition encode_struct (struct_info : gmap string (om_field Z))
    (v : list (string * pyval)) : list (wire_key * pyval) :=
  fold_left (fun nv '(ik, iv) =>
               match struct_info !! ik with
               | Some fld => dict_set (WireId (field_id fld)) iv nv
               | None => dict_set (WireName ik) iv nv
               end) v [].

(** [None] is the [False] the source returns for an unknown key, [Some
    (k_id, v)] the dict [{k_id: v}].  An item is a non-empty dict, so
    [items[...].get(k)] is true exactly when [k] is declared;
    [struct_info] is always a dict. *)
Definition __data_format (k : string) (v : pyval) : M state (option (Z * wire_val)) :=
  fun s =>
    match object_model s with
    | None => (Raise AttributeError, s)
    | Some m =>
        let found :=
          match items (QuecObjectModel.om m) events !! k with
          | Some it => Some (item_id it, struct_info it)
          | None =>
              match items (QuecObjectModel.om m) properties !! k with
              | Some it => Some (item_id it, struct_info it)
              | None => None
              end
          end in
        match found with
        | None => (Ok None, s)
        | Some (k_id, struct_info) =>
            let v' := match v with
                      | PyDict d => WireStruct (encode_struct struct_info d)
                      | _ => WireRaw v
                      end in
            (Ok (Some (k_id, v')), s)
        end
    end.

(** [for k, v in data.items(): if not v: del data[k]]; on the target
    platform (MicroPython) deleting while iterating is tolerated. *)
Definition __rm_empty_data (data : list (string * pyval)) : list (string * pyval) :=
  filter (fun kv => truthy (snd kv) = true) data.

(** The loop of [post_data] over [data.items()], from the entry [items]
    on; [res] is the variable of the source.  The assignments [v = {}]
    rebind the loop variable only and are kept as [let]. *)
Fixpoint post_data_loop (items : list (string * pyval)) (res : bool) : M state bool :=
  match items with
  | [] => ret res
  | (k, v) :: rest =>
      let await : M state bool :=
        let* res := __get_post_res in
        if res
        then let v := PyDict [] in post_data_loop rest res
        else ret false in
      let* om_data := __data_format k v in
      match om_data with
      | Some (k_id, wv) =>
          match v with
          | PyNone => post_data_loop rest res
          | _ =>
              let* phymodelReport_res := invoke (PhymodelReport k_id wv) in
              if phymodelReport_res then await else ret false
          end
      | None =>
          if decide (k = "gps") then
            let* locReportOutside_res := invoke (LocReportOutside v) in
            if locReportOutside_res then await else ret false
          else if decide (k = "non_gps") then
            let* locReportInside_res := invoke (LocReportInside v) in
            if locReportInside_res then await else ret false
          else let v := PyDict [] in post_data_loop rest res
      end
  end.

(** Returns the result and the caller's dictionary as the call leaves it. *)
Definition post_data (data : list (string * pyval)) : M state (bool * list (string * pyval)) :=
  let* res := post_data_loop data true in
  ret (res, __rm_empty_data data).

Definition ota_action (action : Z) : M state bool :=
  if decide (action ∈ [0; 1; 2; 3]) then invoke (OtaAction action) else ret false.

Definition __sota_download_info (size : Z) (md5 : string) (s : state) : state :=
  {| object_model := object_model s; file_size := size; md5_value := md5;
     post_result_wait_queue := post_result_wait_queue s;
     log := log s; future := future s |}.

(** The branch taken when [download_size == self.__file_size]. *)
Definition sota_update_start : M state unit :=
  let* _ := ota_action 3 in
  let* md5 := gets (fun s => md5_value s) in
  let* ok := invoke (CheckMd5 md5) in
  if ok
  then let* updated := invoke FileUpdate in
       if updated then let* _ := invoke SotaSetFlag in ret tt else ret tt
  else ret tt.

(** The [while need_download_size != 0] loop. *)
Equations? sota_loop (start_addr need_download_size download_size : Z) (s : state)
  : result unit * state by wf (Z.abs_nat need_download_size) lt :=
sota_loop start_addr need_download_size download_size s
  with decide (need_download_size = 0) => {
  | left _ => (Ok tt, s)
  | right _ =>
      let readsize := if 4096 >? need_download_size then need_download_size else 4096 in
      let s1 := add_log (McuFWDataRead start_addr readsize) s in
      let s2 := add_log (WriteUpdateData start_addr readsize) s1 in
      if decide (download_size + readsize = file_size s2)
      then sota_update_start s2
      else sota_loop (start_addr + readsize) (need_download_size - readsize)
             (download_size + readsize) (snd (ota_action 2 s2)) }.
Proof. destruct (4096 >? need_download_size) eqn:E; lia. Qed.

Definition __sota_upgrade_start (start_addr need_download_size : Z) : M state unit :=
  let* _ := sota_loop start_addr need_download_size 0 in
  let* _ := invoke NotifyPowerRestart in
  ret tt.

End methods.
End QuecThing.

(** ** aliyunIot.py: class AliOTA *)

Module AliOTA.

(** One file of an OTA plan: [{"size": ..., "url": ..., "md5": ...}]. *)
Record ota_file_info : Type := { size : Z; url : string; md5 : string }.

(** One entry of [file_list] in [__upgrade]. *)
Record manifest_entry : Type := { file_name : string; file_size : Z }.

(** Calls that leave the object, as logged. *)
Inductive event : Type :=
| AppFotaDownload (url path : string)
| Rename (src dst : string)
| OtaDeviceProgress (step : Z) (desc module : string)
| Mkdirs (path : string)
| OpenWb (path : string)
| FileWrite (path : string) (data : list Byte.byte)
| UpdateDownloadStat (src dst : string) (size : Z)
| Remove (path : string)
| SetUpdateFlag
| PowerRestart.

Definition __ota_file : string := "/usr/sotaFile.tar.gz".
Definition __updater_dir : string := "/usr/.updater/usr/".

Section methods.
(** The type of the object handed to the constructor as [ali]. *)
Context {Cloud : Type}.
(** [app_fota.download(url, path)]: the return code and the bytes stored. *)
Variable fetch : string -> Z * list Byte.byte.
(** [hexlify(md5(data).digest()).decode("ascii")] *)
Variable md5_hexdigest : list Byte.byte -> string.
(** The bytes [uzlib.DecompIO(f, -15)] yields for the rest of a file. *)
Variable inflate : list Byte.byte -> list Byte.byte.
(** [str(e)] of a caught exception. *)
Variable exn_text : exn -> string.
(** What a call of the unpack stage to the file system or to the updater
    raises, if it raises, given the calls made before it. *)
Variable outcome : list event -> event -> option exn.

(** The fields of an AliOTA; [ota_content] is what [__ota_file] holds,
    [file_hash] the bytes fed to the hash object ([None]: no hash object
    yet), [events] the log. *)
#[projections(primitive)]
Record state : Type := {
  files : list ota_file_info;
  module : string;
  version : string;
  ali : option Cloud;
  mcu_name : string;
  firmware_name : string;
  file_hash : option (list Byte.byte);
  ota_content : list Byte.byte;
  events : list event }.

Definition __init__ (ali : option Cloud) (mcu_name firmware_name : string) : state :=
  {| files := []; module := ""; version := ""; ali := ali;
     mcu_name := mcu_name; firmware_name := firmware_name;
     file_hash := None; ota_content := []; events := [] |}.

Definition set_ota_info (module version : string) (files : list ota_file_info)
    (s : state) : state :=
  {| files := files; module := module; version := version; ali := ali s;
     mcu_name := mcu_name s; firmware_name := firmware_name s;
     file_hash := file_hash s; ota_content := ota_content s;
     events := events s |}.

Definition emit (e : event) : M state unit :=
  modify (fun s =>
    {| files := files s; module := module s; version := version s;
       ali := ali s; mcu_name := mcu_name s; firmware_name := firmware_name s;
       file_hash := file_hash s; ota_content := ota_content s;
       events := events s ++ [e] |}).

Definition store (data : list Byte.byte) : M state unit :=
  modify (fun s =>
    {| files := files s; module := module s; version := version s;
       ali := ali s; mcu_name := mcu_name s; firmware_name := firmware_name s;
       file_hash := Some data; ota_content := data; events := events s |}).

(** A call of the unpack stage: it is logged, and it returns or raises
    as [outcome] has it. *)
Definition attempt (e : event) : M state unit :=
  fun s =>
    match outcome (events s) e with
    | Some x => (Raise x, snd (emit e s))
    | None => emit e s
    end.

(** [self.__ali.ota_device_progress(step, desc, module=self.__module)]:
    an attribute lookup on [None] raises. *)
Definition ota_device_progress (step : Z) (desc : string) : M state unit :=
  fun s =>
    match ali s with
    | Some _ => emit (OtaDeviceProgress step desc (module s)) s
    | None => (Raise AttributeError, s)
    end.

Definition __get_file_size (data : list Byte.byte) : result Z :=
  size ← decode_ascii data;
  let size := rstrip_nul size in
  if decide (String.length size = 0%nat) then Ok 0 else int_base8 size.

Definition __get_file_name (name : list Byte.byte) : result string :=
  file_name ← decode_ascii name;
  Ok (rstrip_nul file_name).

Definition __check_md5 (cloud_md5 : string) : M state bool :=
  fun s =>
    match file_hash s with
    | None => (Raise AttributeError, s)
    | Some hashed =>
        let file_md5 := md5_hexdigest hashed in
        let msg := "DMP Calc MD5 Value: " +:+ cloud_md5 +:+
                   ", Device Calc MD5 Value: " +:+ file_md5 in
        if decide (cloud_md5 ≠ file_md5)
        then (let* _ := ota_device_progress (-3) ("MD5 Verification Failed. " +:+ msg) in
              ret false) s
        else (Ok true, s)
    end.

(** The hash object is fed the file line by line, that is, all of it. *)
Definition __download (url : string) : M state bool :=
  let* _ := emit (AppFotaDownload url __ota_file) in
  let '(res, data) := fetch url in
  if decide (res = 0)
  then let* _ := emit (Rename ("/usr/.updater" +:+ __ota_file) __ota_file) in
       let* _ := store data in
       ret true
  else let* _ := ota_device_progress (-2) "Download File Failed." in
       ret false.

(** [data[i:j]] *)
Definition slice {A} (i j : nat) (data : list A) : list A :=
  firstn (j - i) (skipn i data).

(** [unzipFp.read(n)]: the bytes read and the rest of the stream. *)
Definition read {A} (n : nat) (stream : list A) : list A * list A :=
  (firstn n stream, skipn n stream).

(** The [while last_size > 0] loop that copies one file entry;
    [read_size] starts at [0x200] and stays positive.  A write that
    raises ends the loop.  Returns where the stream stands, beside the
    result and the state. *)
Equations? copy_loop (path : string) (read_size : positive) (last_size : Z)
    (stream : list Byte.byte) (s : state) : result unit * (list Byte.byte * state)
  by wf (Z.to_nat last_size) lt :=
copy_loop path read_size last_size stream s with decide (last_size > 0) => {
  | right _ => (Ok tt, (stream, s))
  | left _ =>
      let read_size :=
        if Z.pos read_size <=? last_size then read_size else Z.to_pos last_size in
      let data := read (Pos.to_nat read_size) stream in
      match fst (attempt (FileWrite path (fst data)) s) with
      | Ok _ =>
          copy_loop path read_size (last_size - Z.pos read_size) (snd data)
            (snd (attempt (FileWrite path (fst data)) s))
      | Raise e => (Raise e, (snd data, snd (attempt (FileWrite path (fst data)) s)))
      | Blocked => (Blocked, (snd data, snd (attempt (FileWrite path (fst data)) s)))
      end }.
Proof. destruct (Z.pos read_size <=? last_size) eqn:E; lia. Qed.

Lemma copy_loop_rest path read_size last_size stream s :
  (length (fst (snd (copy_loop path read_size last_size stream s))) <= length stream)%nat.
Proof.
  funelim (copy_loop path read_size last_size stream s); [|done].
  cbv zeta. unfold read in *. cbn [fst snd] in *.
  destruct (fst (attempt _ s)); cbn [fst snd].
  - etransitivity; [by apply H|]. rewrite length_skipn. lia.
  - rewrite length_skipn. lia.
  - rewrite length_skipn. lia.
Qed.

(** The [while True] loop of [__upgrade] over the decompressed stream;
    [read(0x200)] returns no data exactly when the stream is used up.
    A call that raises ends the loop.  Returns [file_list]. *)
Equations? unpack_loop (stream : list Byte.byte) (file_list : list manifest_entry)
    (s : state) : result (list manifest_entry) * state
  by wf (length stream) lt :=
unpack_loop [] file_list s := (Ok file_list, s);
unpack_loop (b :: rest) file_list s
  with __get_file_size (slice 124 135 (fst (read 512 (b :: rest)))) => {
  | Raise e => (Raise e, s)
  | Blocked => (Blocked, s)
  | Ok size with __get_file_name (firstn 100 (fst (read 512 (b :: rest)))) => {
    | Raise e => (Raise e, s)
    | Blocked => (Blocked, s)
    | Ok name =>
        if decide (size = 0)
        then if decide (String.length name ≠ 0%nat)
             then match fst (attempt (Mkdirs (__updater_dir +:+ name)) s) with
                  | Ok _ =>
                      unpack_loop (snd (read 512 (b :: rest))) file_list
                        (snd (attempt (Mkdirs (__updater_dir +:+ name)) s))
                  | Raise e => (Raise e, snd (attempt (Mkdirs (__updater_dir +:+ name)) s))
                  | Blocked => (Blocked, snd (attempt (Mkdirs (__updater_dir +:+ name)) s))
                  end
             else (Ok file_list, s)
        else
          match fst (attempt (OpenWb (__updater_dir +:+ name)) s) with
          | Ok _ =>
              match fst (copy_loop (__updater_dir +:+ name) 512 size
                           (snd (read 512 (b :: rest)))
                           (snd (attempt (OpenWb (__updater_dir +:+ name)) s))) with
              | Ok _ =>
                  unpack_loop
                    (fst (snd (copy_loop (__updater_dir +:+ name) 512 size
                                 (snd (read 512 (b :: rest)))
                                 (snd (attempt (OpenWb (__updater_dir +:+ name)) s)))))
                    (file_list ++ [{| file_name := "/usr/" +:+ name; file_size := size |}])
                    (snd (snd (copy_loop (__updater_dir +:+ name) 512 size
                                 (snd (read 512 (b :: rest)))
                                 (snd (attempt (OpenWb (__updater_dir +:+ name)) s)))))
              | Raise e =>
                  (Raise e,
                   snd (snd (copy_loop (__updater_dir +:+ name) 512 size
                               (snd (read 512 (b :: rest)))
                               (snd (attempt (OpenWb (__updater_dir +:+ name)) s)))))
              | Blocked =>
                  (Blocked,
                   snd (snd (copy_loop (__updater_dir +:+ name) 512 size
                               (snd (read 512 (b :: rest)))
                               (snd (attempt (OpenWb (__updater_dir +:+ name)) s)))))
              end
          | Raise e => (Raise e, snd (attempt (OpenWb (__updater_dir +:+ name)) s))
          | Blocked => (Blocked, snd (attempt (OpenWb (__updater_dir +:+ name)) s))
          end } }.
Proof.
  - cbn. rewrite length_skipn. lia.
  - match goal with
    | |- context [copy_loop ?p ?r ?l ?st ?s0] =>
        pose proof (copy_loop_rest p r l st s0) as Hrest
    end.
    unfold read in *. cbn [fst snd] in *. rewrite length_skipn in Hrest.
    cbn [length] in *. lia.
Qed.

(** [__upgrade]: the archive is opened and the staging directory made
    before the [try]; what is raised there leaves [__upgrade], what is
    raised inside the [try] is reported and gives [False]. *)
Definition __upgrade : M state bool :=
  let* content := gets (fun s => ota_content s) in
  let unzipFp := inflate (skipn 10 content) in
  let* _ := attempt (Mkdirs __updater_dir) in
  try_except
    (let* file_list := unpack_loop unzipFp [] in
     let* _ := for_each file_list (fun e =>
                 attempt (UpdateDownloadStat ("/usr/.updater" +:+ file_name e)
                            (file_name e) (file_size e))) in
     let* _ := attempt (Remove __ota_file) in
     ret true)
    (fun e =>
       let err_msg := "Unpack Error: " +:+ exn_text e in
       let* _ := ota_device_progress (-4) err_msg in
       ret false).

(** The [for file in self.__files] loop of [__start_sota]. *)
Fixpoint sota_files (fs : list ota_file_info) : M state unit :=
  match fs with
  | [] => ret tt
  | file :: rest =>
      let* downloaded := __download (url file) in
      if downloaded
      then let* checked := __check_md5 (md5 file) in
           if checked
           then let* upgraded := __upgrade in
                if upgraded then sota_files rest else ret tt
           else ret tt
      else ret tt
  end.

Definition __start_sota : M state unit :=
  let* fs := gets (fun s => files s) in
  let* _ := sota_files fs in
  let* _ := emit SetUpdateFlag in
  emit PowerRestart.

End methods.
End AliOTA.

(** ** aliyunIot.py: class AliYunIot *)

Module AliYunIot.

(** One entry of [params]: [{"value": ..., "time": ...}]. *)
Record param : Type := { value : pyval; time : Z }.

(** [params] of a property post is a dict of entries by key, [params] of
    an event post the entry of that event. *)
Inductive params : Type :=
| PropertyParams (d : list (string * param))
| EventParams (p : param).

(** The envelope [{"id", "version", "sys": {"ack"}, "params", "method"}];
    what [ujson.dumps] makes of it is not modelled, the transport is
    handed the envelope. *)
Record publish_data : Type := {
  pd_id : string;
  pd_version : string;
  pd_sys_ack : Z;
  pd_params : params;
  pd_method : string }.

(** The transport client [aLiYun]: what it was asked to publish. *)
Record aLiYun : Type := { sent : list (string * publish_data) }.

(** The dict [__data_format] returns. *)
Record format_res : Type := {
  event : list publish_data;
  property : list publish_data;
  msg_ids : list string;
  event_topic : list (string * string) }.

(** What runs asynchronously to a caller polling in [__get_post_res]: the
    timer callback, and [__ali_sub_cb] handing the result of a reply to
    [__put_post_res]. *)
Inductive async : Type := TimerCb | PutPostRes (msg_id : string) (res : bool).

#[global] Instance async_eq_dec : EqDecision async.
Proof. solve_decision. Defined.

Section session.
(** [numiter] of usr.modules.common is not among the sources: a fresh
    iterator [numiter] and [next], [None] for [StopIteration]. *)
Context {It : Type}.
Variable numiter : It.
Variable next : It -> option (Z * It).
(** Product key and device key; they hold no braces. *)
Variables pk dk : string.
(** [utime.mktime(utime.localtime())] as read while a key is formatted. *)
Variable utime_now : string -> Z.

(** The fields of an AliYunIot, and the asynchronous events still to
    come: one list for every [utime.sleep_ms(50)] of the poll loop. *)
#[projections(primitive)]
Record state : Type := {
  object_model : option (CloudObjectModel string);
  ali : option aLiYun;
  post_res : gmap string bool;
  breack_flag : bool;
  id_iter : It;
  ota : @AliOTA.state aLiYun;
  future : list (list async) }.

Definition __init__ (mcu_name firmware_name : string) : state :=
  let ali := None in
  {| object_model := None; ali := ali; post_res := ∅; breack_flag := false;
     id_iter := numiter;
     ota := AliOTA.__init__ ali mcu_name firmware_name;
     future := [] |}.

Definition ica_topic_property_post : string :=
  "/sys/" +:+ pk +:+ "/" +:+ dk +:+ "/thing/event/property/post".

(** [self.ica_topic_event_post.format(event)] *)
Definition ica_topic_event_post (event : string) : string :=
  "/sys/" +:+ pk +:+ "/" +:+ dk +:+ "/thing/event/" +:+ event +:+ "/post".

Definition set_id_iter (it : It) (s : state) : state :=
  {| object_model := object_model s; ali := ali s; post_res := post_res s;
     breack_flag := breack_flag s; id_iter := it; ota := ota s;
     future := future s |}.

Definition set_post_res (m : gmap string bool) (s : state) : state :=
  {| object_model := object_model s; ali := ali s; post_res := m;
     breack_flag := breack_flag s; id_iter := id_iter s; ota := ota s;
     future := future s |}.

Definition set_breack_flag (b : bool) (s : state) : state :=
  {| object_model := object_model s; ali := ali s; post_res := post_res s;
     breack_flag := b; id_iter := id_iter s; ota := ota s;
     future := future s |}.

Definition set_future (f : list (list async)) (s : state) : state :=
  {| object_model := object_model s; ali := ali s; post_res := post_res s;
     breack_flag := breack_flag s; id_iter := id_iter s; ota := ota s;
     future := f |}.

Definition set_ali (c : option aLiYun) (s : state) : state :=
  {| object_model := object_model s; ali := c; post_res := post_res s;
     breack_flag := breack_flag s; id_iter := id_iter s; ota := ota s;
     future := future s |}.

(** The lock makes concurrent calls take turns, so calls are modelled one
    after the other. *)
Definition __get_id : M state string :=
  fun s =>
    match next (id_iter s) with
    | Some (msg_id, it) => (Ok (str msg_id), set_id_iter it s)
    | None =>
        match next numiter with
        | Some (msg_id, it) => (Ok (str msg_id), set_id_iter it s)
        | None => (Raise StopIteration, set_id_iter numiter s)
        end
    end.

Definition __put_post_res (msg_id : string) (res : bool) (s : state) : state :=
  set_post_res (<[msg_id := res]> (post_res s)) s.

Definition __ali_timer_cb (s : state) : state := set_breack_flag true s.

Definition deliver (s : state) (ev : async) : state :=
  match ev with
  | TimerCb => __ali_timer_cb s
  | PutPostRes msg_id res => __put_post_res msg_id res s
  end.

(** The [while self.__post_res.get(msg_id) is None] loop; the events of
    the next trace element are delivered during the sleep. *)
Fixpoint poll_loop (msg_id : string) (f : list (list async)) (s : state)
    : result unit * state :=
  match post_res s !! msg_id with
  | Some _ => (Ok tt, set_future f s)
  | None =>
      if breack_flag s
      then (Ok tt, set_future f (__put_post_res msg_id false s))
      else match f with
           | [] => (Blocked, set_future [] s)
           | evs :: f' => poll_loop msg_id f' (fold_left deliver evs s)
           end
  end.

Definition __get_post_res (msg_id : string) : M state bool :=
  let* _ := (fun s => poll_loop msg_id (future s) s) in
  let* _ := modify (set_breack_flag false) in
  fun s =>
    match post_res s !! msg_id with
    | Some res => (Ok res, set_post_res (delete msg_id (post_res s)) s)
    | None => (Raise KeyError, s)
    end.

(** [self.__object_model.items]: an attribute lookup on [None] raises. *)
Definition object_model_items : M state (CloudObjectModel string) :=
  fun s =>
    match object_model s with
    | Some m => (Ok m, s)
    | None => (Raise AttributeError, s)
    end.

(** The loop of [__data_format] over [data.items()]; returns
    [(property_params, event_params)]. *)
Fixpoint format_params (data : list (string * pyval))
    (property_params event_params : list (string * param))
    : M state (list (string * param) * list (string * param)) :=
  match data with
  | [] => ret (property_params, event_params)
  | (k, v) :: rest =>
      let* m := object_model_items in
      match items m properties !! k with
      | Some _ =>
          format_params rest
            (dict_set k {| value := v; time := utime_now k * 1000 |} property_params)
            event_params
      | None =>
          match items m events !! k with
          | Some _ =>
              format_params rest property_params
                (dict_set k {| value := PyDict []; time := utime_now k * 1000 |}
                   event_params)
          | None => format_params rest property_params event_params
          end
      end
  end.

(** The loop over [event_params.keys()], here over the entries, each key
    with [event_params[event]]. *)
Fixpoint format_events (event_params : list (string * param)) (res : format_res)
    : M state format_res :=
  match event_params with
  | [] => ret res
  | (ev, p) :: rest =>
      let topic := ica_topic_event_post ev in
      let* msg_id := __get_id in
      let publish_data :=
        {| pd_id := msg_id; pd_version := "1.0"; pd_sys_ack := 1;
           pd_params := EventParams p;
           pd_method := "thing.event." +:+ ev +:+ ".post" |} in
      format_events rest
        {| event := event res ++ [publish_data];
           property := property res;
           msg_ids := msg_ids res ++ [msg_id];
           event_topic := dict_set msg_id topic (event_topic res) |}
  end.

Definition __data_format (data : list (string * pyval)) : M state format_res :=
  let res := {| event := []; property := []; msg_ids := []; event_topic := [] |} in
  let* formatted := format_params data [] [] in
  let property_params := fst formatted in
  let event_params := snd formatted in
  let* res :=
    match property_params with
    | [] => ret res
    | _ =>
        let* msg_id := __get_id in
        let publish_data :=
          {| pd_id := msg_id; pd_version := "1.0"; pd_sys_ack := 1;
             pd_params := PropertyParams property_params;
             pd_method := "thing.event.property.post" |} in
        ret {| event := event res;
               property := property res ++ [publish_data];
               msg_ids := msg_ids res ++ [msg_id];
               event_topic := event_topic res |}
    end in
  format_events event_params res.

(** [self.__ali.publish(topic, ujson.dumps(item), qos=0)]; the value it
    returns is not used by [post_data]. *)
Definition publish (topic : string) (item : publish_data) : M state unit :=
  fun s =>
    match ali s with
    | Some c => (Ok tt, set_ali (Some {| sent := sent c ++ [(topic, item)] |}) s)
    | None => (Raise AttributeError, s)
    end.

(** The body of the [try] of [post_data], up to and including the list
    [pub_res] of awaited results. *)
Definition publish_and_await (data : list (string * pyval)) : M state (list bool) :=
  let* publish_data := __data_format data in
  let* _ := for_each (property publish_data)
              (fun item => publish ica_topic_property_post item) in
  let* _ := for_each (event publish_data)
              (fun item =>
                 match dict_get (pd_id item) (event_topic publish_data) with
                 | Some topic => publish topic item
                 | None => raise KeyError
                 end) in
  comprehension (msg_ids publish_data) __get_post_res.

Definition post_data (data : list (string * pyval)) : M state bool :=
  try_except
    (let* pub_res := publish_and_await data in
     ret (if decide (false ∈ pub_res) then false else true))
    (fun _ => ret false).

End session.
End AliYunIot.

(** ** quecthing.py: class QuecObjectModel, deleting an item *)

Module QuecObjectModelDelete.
Import QuecObjectModel.

Section del.
(** [CloudObjectModel.del_item] (usr.modules.common) is not among the
    sources: what it returns, and the items it leaves. *)
Variable super_del_item : om_type -> string -> CloudObjectModel Z -> bool * CloudObjectModel Z.

(** Both domains are keys of [items], and an item is a non-empty dict, so
    the two tests come to whether [om_key] is declared;
    [self.items_id.pop(om_key_id)] raises [KeyError] when the id is no
    key of [items_id]. *)
Definition __del_items_id (om_ty : om_type) (om_key : string) : M t bool :=
  fun m =>
    match items (om m) om_ty !! om_key with
    | Some it =>
        match items_id m !! item_id it with
        | Some _ => (Ok true, {| om := om m;
                                 items_id := delete (item_id it) (items_id m) |})
        | None => (Raise KeyError, m)
        end
    | None => (Ok true, m)
    end.

Definition del_item (om_ty : om_type) (om_key : string) : M t bool :=
  fun m =>
    let '(ok, base) := super_del_item om_ty om_key (om m) in
    let m1 := {| om := base; items_id := items_id m |} in
    if ok
    then (let* _ := __del_items_id om_ty om_key in ret true) m1
    else (Ok false, m1).

End del.
End QuecObjectModelDelete.

(** ** aliyunIot.py: class AliYunIot, connecting *)

Module AliYunConnect.
Import AliYunIot.

(** Calls to the transport client [aLiYun], as logged: the constructor
    and the methods [init], [close] and [get_status] use. *)
Inductive client_call : Type :=
| NewClient (pk : string) (ps dk : option string) (ds server : string)
| SetMqtt (client_id : string) (keepAlive : Z)
| SetCallback
| Subscribe (topic : string)
| Start
| Disconnect
| GetAliyunSta.

Section connect.
Context {It : Type}.
(** The product key and the device key that [__init__] formats the topics
    with; they hold no braces. *)
Variables topic_pk topic_dk : string.
(** What the client returns to a call, given the calls made before it. *)
Variable client : list client_call -> client_call -> Z.
(** [d.keys()]: the keys of a dict in the order the dict yields them. *)
Variable keys : gmap string (om_item string) -> list string.

(** The fields of an AliYunIot that connecting reads and writes, beside
    those of [AliYunIot.state], and the log of the calls to the client. *)
#[projections(primitive)]
Record session : Type := {
  core : @AliYunIot.state It;
  pk : string;
  ps : option string;
  dk : option string;
  ds : string;
  server : string;
  client_id : string;
  burning_method : Z;
  life_time : Z;
  calls : list client_call }.

Definition set_core (c : @AliYunIot.state It) (s : session) : session :=
  {| core := c; pk := pk s; ps := ps s; dk := dk s; ds := ds s; server := server s;
     client_id := client_id s; burning_method := burning_method s;
     life_time := life_time s; calls := calls s |}.

Definition set_ps_dk (ps dk : option string) (s : session) : session :=
  {| core := core s; pk := pk s; ps := ps; dk := dk; ds := ds s; server := server s;
     client_id := client_id s; burning_method := burning_method s;
     life_time := life_time s; calls := calls s |}.

Definition add_call (c : client_call) (s : session) : session :=
  {| core := core s; pk := pk s; ps := ps s; dk := dk s; ds := ds s; server := server s;
     client_id := client_id s; burning_method := burning_method s;
     life_time := life_time s; calls := calls s ++ [c] |}.

Definition ica_topic_property_post_reply : string :=
  "/sys/" +:+ topic_pk +:+ "/" +:+ topic_dk +:+ "/thing/event/property/post_reply".

Definition ica_topic_property_set : string :=
  "/sys/" +:+ topic_pk +:+ "/" +:+ topic_dk +:+ "/thing/service/property/set".

(** [self.ica_topic_event_post_reply.format(event)] *)
Definition ica_topic_event_post_reply (event : string) : string :=
  "/sys/" +:+ topic_pk +:+ "/" +:+ topic_dk +:+ "/thing/event/" +:+ event +:+ "/post_reply".

Definition ota_topic_device_upgrade : string :=
  "/ota/device/upgrade/" +:+ topic_pk +:+ "/" +:+ topic_dk.

Definition ota_topic_firmware_get_reply : string :=
  "/sys/" +:+ topic_pk +:+ "/" +:+ topic_dk +:+ "/thing/ota/firmware/get_reply".

Definition ota_topic_file_download_reply : string :=
  "/sys/" +:+ topic_pk +:+ "/" +:+ topic_dk +:+ "/thing/file/download_reply".

Definition rrpc_topic_request : string :=
  "/sys/" +:+ topic_pk +:+ "/" +:+ topic_dk +:+ "/rrpc/request/+".

(** [self.__ali.method(...)]: an attribute lookup on [None] raises. *)
Definition on_client (c : client_call) : M session Z :=
  fun s =>
    match ali (core s) with
    | Some _ => (Ok (client (calls s) c), add_call c s)
    | None => (Raise AttributeError, s)
    end.

(** [if object_model and isinstance(object_model, AliObjectModel)]: the
    argument is an AliObjectModel, or it is not ([None]). *)
Definition set_object_model (object_model : option (CloudObjectModel string))
    : M session bool :=
  match object_model with
  | Some m =>
      let* _ := modify (fun s =>
        set_core {| AliYunIot.object_model := Some m; ali := ali (core s);
                    post_res := post_res (core s);
                    breack_flag := breack_flag (core s);
                    id_iter := id_iter (core s); ota := ota (core s);
                    future := future (core s) |} s) in
      ret true
  | None => ret false
  end.

Definition get_status : M session bool :=
  try_except
    (let* sta := on_client GetAliyunSta in ret (sta =? 0))
    (fun _ => ret false).

Definition close : M session bool :=
  let* _ := try_except (let* _ := on_client Disconnect in ret tt) (fun _ => ret tt) in
  ret true.

(** [if self.__ali.subscribe(topic, qos=0) == -1: log.error(...)] *)
Definition subscribe (topic : string) : M session unit :=
  let* _ := on_client (Subscribe topic) in ret tt.

Definition __ali_subscribe_topic : M session unit :=
  let* _ := subscribe (ica_topic_property_post topic_pk topic_dk) in
  let* _ := subscribe ica_topic_property_post_reply in
  let* _ := subscribe ica_topic_property_set in
  let* m := (fun s => match object_model (core s) with
                      | Some m => (Ok m, s)
                      | None => (Raise AttributeError, s)
                      end) in
  let* _ := for_each (keys (items m events))
              (fun tsl_event_identifier =>
                 let* _ := subscribe (ica_topic_event_post topic_pk topic_dk
                                        tsl_event_identifier) in
                 subscribe (ica_topic_event_post_reply tsl_event_identifier)) in
  let* _ := subscribe ota_topic_device_upgrade in
  let* _ := subscribe ota_topic_firmware_get_reply in
  let* _ := subscribe ota_topic_file_download_reply in
  subscribe rrpc_topic_request.

(** [init(enforce)]; the calls of [get_status] made for the debug log are
    calls like the others. *)
Definition init (enforce : bool) : M session bool :=
  let* connected :=
    (fun s => match enforce, ali (core s) with
              | false, Some _ => (let* _ := get_status in get_status) s
              | _, _ => (Ok false, s)
              end) in
  if connected then ret true
  else
    let* _ := (fun s => match ali (core s) with
                        | Some _ => (let* _ := close in ret tt) s
                        | None => (Ok tt, s)
                        end) in
    let* _ := modify (fun s =>
                if decide (burning_method s = 0) then set_ps_dk (ps s) None s
                else if decide (burning_method s = 1) then set_ps_dk None (dk s) s
                else s) in
    let* _ := modify (fun s =>
                add_call (NewClient (pk s) (ps s) (dk s) (ds s) (server s))
                  (set_core (set_ali (Some {| sent := [] |}) (core s)) s)) in
    let* client_id := gets (fun s => client_id s) in
    let* life_time := gets (fun s => life_time s) in
    let* setMqttres := on_client (SetMqtt client_id life_time) in
    if decide (setMqttres ≠ -1)
    then
      let* _ := on_client SetCallback in
      let* _ := __ali_subscribe_topic in
      let* _ := on_client Start in
      let* _ := get_status in
      get_status
    else
      let* _ := modify (fun s => set_core (set_ali None (core s)) s) in
      ret false.

End connect.
End AliYunConnect.

(** ** quecthing.py: class QuecThing, connecting *)

Module QuecThingConnect.

(** Calls to the platform ([quecIot], [utime]) that [init] makes, as
    logged. *)
Inductive quec_call : Type :=
| GetWorkState
| GetConnmode
| QuecIotInit
| SetEventCB
| SetProductinfo (pk ps : string)
| SetDkDs (dk ds : string)
| SetServer (mode : Z) (server : string)
| SetLifetime (life_time : Z)
| SetMcuVersion (mcu_name mcu_version : string)
| SetConnmode (mode : Z)
| GetDkDs
| SleepMs (ms : Z)
| Sleep (seconds : Z).

Section connect.
(** What [quecIot] returns to a call, given the calls made before it; and
    what [getDkDs] returns: the pair of keys, or a false value. *)
Variable quecIot : list quec_call -> quec_call -> Z.
Variable getDkDs : list quec_call -> option (string * string).

(** The fields of a QuecThing that [init] reads and writes, and the log
    of the calls. *)
#[projections(primitive)]
Record session : Type := {
  pk : string;
  ps : string;
  dk : string;
  ds : string;
  server : string;
  life_time : Z;
  mcu_name : string;
  mcu_version : string;
  calls : list quec_call }.

Definition add_call (c : quec_call) (s : session) : session :=
  {| pk := pk s; ps := ps s; dk := dk s; ds := ds s; server := server s;
     life_time := life_time s; mcu_name := mcu_name s; mcu_version := mcu_version s;
     calls := calls s ++ [c] |}.

Definition set_dk_ds (dk ds : string) (s : session) : session :=
  {| pk := pk s; ps := ps s; dk := dk; ds := ds; server := server s;
     life_time := life_time s; mcu_name := mcu_name s; mcu_version := mcu_version s;
     calls := calls s |}.

Definition call (c : quec_call) : M session Z :=
  fun s => (Ok (quecIot (calls s) c), add_call c s).

(** [quecIot.getWorkState() == 8 and quecIot.getConnmode() == 1] *)
Definition connected : M session bool :=
  let* state := call GetWorkState in
  if decide (state = 8)
  then let* mode := call GetConnmode in ret (bool_decide (mode = 1))
  else ret false.

(** [while quecIot.getWorkState() != 8 and count < 10], with [left] for
    [10 - count]. *)
Fixpoint wait_loop (left : nat) : M session unit :=
  let* state := call GetWorkState in
  if decide (state ≠ 8)
  then match left with
       | O => ret tt
       | S left' => let* _ := call (SleepMs 200) in wait_loop left'
       end
  else ret tt.

(** [while count < 3], with [left] for [3 - count]. *)
Fixpoint dkds_loop (count : Z) (left : nat) : M session unit :=
  match left with
  | O => ret tt
  | S left' =>
      let* dkds := (fun s => (Ok (getDkDs (calls s)), add_call GetDkDs s)) in
      match dkds with
      | Some (dk, ds) => modify (set_dk_ds dk ds)
      | None => let* _ := call (Sleep (count + 1)) in dkds_loop (count + 1) left'
      end
  end.

(** [init(enforce)]; the calls made for the debug log are calls like the
    others. *)
Definition init (enforce : bool) : M session bool :=
  let* _ := call GetWorkState in
  let* _ := call GetConnmode in
  let* already := if enforce then ret false else connected in
  if already then ret true
  else
    let* _ := call QuecIotInit in
    let* _ := call SetEventCB in
    let* _ := (fun s => call (SetProductinfo (pk s) (ps s)) s) in
    let* _ := (fun s =>
                 if negb (String.eqb (dk s) "") || negb (String.eqb (ds s) "")
                 then call (SetDkDs (dk s) (ds s)) s
                 else (Ok 0, s)) in
    let* _ := (fun s => call (SetServer 1 (server s)) s) in
    let* _ := (fun s => call (SetLifetime (life_time s)) s) in
    let* _ := (fun s => call (SetMcuVersion (mcu_name s) (mcu_version s)) s) in
    let* _ := call (SetConnmode 1) in
    let* _ := wait_loop 10 in
    let* _ := (fun s =>
                 if String.eqb (ds s) "" && negb (String.eqb (dk s) "")
                 then dkds_loop 0 3 s
                 else (Ok tt, s)) in
    let* _ := call GetWorkState in
    let* _ := call GetConnmode in
    connected.

End connect.
End QuecThingConnect.

(** * Part II: vocabulary of the properties *)

Module Vocabulary.

(** [n] draws from an iterator: the numbers drawn and the iterator left,
    or [None] when it is exhausted before. *)
Fixpoint draw {It} (next : It -> option (Z * It)) (n : nat) (it : It)
    : option (list Z * It) :=
  match n with
  | O => Some ([], it)
  | S n' =>
      match next it with
      | None => None
      | Some (v, it') =>
          match draw next n' it' with
          | None => None
          | Some (vs, it'') => Some (v :: vs, it'')
          end
      end
  end.

(** [n] calls of [__get_id], one after the other; the ids in call order. *)
Definition get_ids {It} (numiter : It) (next : It -> option (Z * It)) (n : nat)
    : M (@AliYunIot.state It) (list string) :=
  comprehension (replicate n tt) (fun _ => AliYunIot.__get_id numiter next).



(** A result for [msg_id] is recorded by one of the events [evs]. *)
Definition records (msg_id : string) (evs : list AliYunIot.async) : Prop :=
  exists res, AliYunIot.PutPostRes msg_id res ∈ evs.

(** The number of sleeps of the trace during which the timer expires. *)
Definition timeouts (f : list (list AliYunIot.async)) : nat :=
  length (filter (fun evs => AliYunIot.TimerCb ∈ evs) f).

(** A session as [AliYunIot(...)] builds it, with a fresh id iterator. *)
Definition fresh_session : @AliYunIot.state Z := AliYunIot.__init__ numiter "mcu" "fw".

(** The item [QuecThing.__data_format] encodes a key with: the event of
    that name, else the property of that name. *)
Definition declared (m : CloudObjectModel Z) (k : string) : option (om_item Z) :=
  match items m events !! k with
  | Some it => Some it
  | None => items m properties !! k
  end.

(** The wire key of a sub-key: the id of its registered field, else the
    sub-key itself. *)
Definition wire_key_of (struct_info : gmap string (om_field Z)) (ik : string)
    : QuecThing.wire_key :=
  match struct_info !! ik with
  | Some fld => QuecThing.WireId (field_id fld)
  | None => QuecThing.WireName ik
  end.

(** Filling a dict by the assignments [d[tr k] = v], for [(k, v)] in [l]. *)
Definition assign_all {K0 K V} `{EqDecision K} (tr : K0 -> K)
    (l : list (K0 * V)) (acc : list (K * V)) : list (K * V) :=
  fold_left (fun nv '(k, v) => dict_set (tr k) v nv) l acc.

(** No two registrations give one wire id to two keys. *)
Definition ids_unambiguous (rs : list QuecObjectModel.registration) : Prop :=
  forall ty1 ty2 k1 k2 i p1 p2,
    QuecObjectModel.SetItem ty1 k1 i p1 ∈ rs ->
    QuecObjectModel.SetItem ty2 k2 i p2 ∈ rs ->
    k1 = k2.

(** The fields of a record that [AliYunIot.__data_format] posts as
    properties: those with a declared property key. *)
Definition property_fields (m : CloudObjectModel string) (data : list (string * pyval))
    : list (string * pyval) :=
  filter (fun kv => is_Some (items m properties !! kv.1)) data.

(** The fields it posts as events: those with a declared event key that
    is not also a declared property key. *)
Definition event_fields (m : CloudObjectModel string) (data : list (string * pyval))
    : list (string * pyval) :=
  filter (fun kv => items m properties !! kv.1 = None
                    /\ is_Some (items m events !! kv.1)) data.

(** The fields with a declared event key. *)
Definition declared_event_fields (m : CloudObjectModel string)
    (data : list (string * pyval)) : list (string * pyval) :=
  filter (fun kv => is_Some (items m events !! kv.1)) data.

(** The entry of [params] for a property field, and for an event field. *)
Definition property_param (utime_now : string -> Z) (kv : string * pyval)
    : string * AliYunIot.param :=
  (kv.1, {| AliYunIot.value := kv.2; AliYunIot.time := utime_now kv.1 * 1000 |}).

Definition event_param (utime_now : string -> Z) (kv : string * pyval)
    : string * AliYunIot.param :=
  (kv.1, {| AliYunIot.value := PyDict []; AliYunIot.time := utime_now kv.1 * 1000 |}).

(** The property post with id [msg_id] for the entries [property_params]. *)
Definition property_post (msg_id : string)
    (property_params : list (string * AliYunIot.param)) : AliYunIot.publish_data :=
  {| AliYunIot.pd_id := msg_id; AliYunIot.pd_version := "1.0";
     AliYunIot.pd_sys_ack := 1;
     AliYunIot.pd_params := AliYunIot.PropertyParams property_params;
     AliYunIot.pd_method := "thing.event.property.post" |}.

(** The event post with id [msg_id] for an entry of [event_params], with
    the topic it goes to. *)
Definition event_post (pk dk : string) (msg_id : string)
    (entry : string * AliYunIot.param) : string * AliYunIot.publish_data :=
  (AliYunIot.ica_topic_event_post pk dk entry.1,
   {| AliYunIot.pd_id := msg_id; AliYunIot.pd_version := "1.0";
      AliYunIot.pd_sys_ack := 1;
      AliYunIot.pd_params := AliYunIot.EventParams entry.2;
      AliYunIot.pd_method := "thing.event." +:+ entry.1 +:+ ".post" |}).

(** What [format_events] makes of [res] when it adds the messages [emsgs],
    each with its topic. *)
Definition with_events (res : AliYunIot.format_res)
    (emsgs : list (string * AliYunIot.publish_data)) : AliYunIot.format_res :=
  {| AliYunIot.event := AliYunIot.event res ++ emsgs.*2;
     AliYunIot.property := AliYunIot.property res;
     AliYunIot.msg_ids := AliYunIot.msg_ids res ++ (AliYunIot.pd_id <$> emsgs.*2);
     AliYunIot.event_topic :=
       assign_all (fun msg_id : string => msg_id)
         ((fun tm => (AliYunIot.pd_id tm.2, tm.1)) <$> emsgs)
         (AliYunIot.event_topic res) |}.

(** The event posts [msgs] as [post_data] publishes them: each on the
    topic that [event_topic] holds for its id. *)
Definition published_events (event_topic : list (string * string))
    (msgs : list AliYunIot.publish_data) : list (string * AliYunIot.publish_data) :=
  (fun msg => (default "" (dict_get (AliYunIot.pd_id msg) event_topic), msg)) <$> msgs.

(** The sizes of the blocks handed to [write_update_data], and of the
    blocks asked of [mcuFWDataRead], in call order. *)
Definition written_blocks (l : list QuecThing.call) : list Z :=
  omap (fun c => match c with QuecThing.WriteUpdateData _ n => Some n | _ => None end) l.

Definition read_blocks (l : list QuecThing.call) : list Z :=
  omap (fun c => match c with QuecThing.McuFWDataRead _ n => Some n | _ => None end) l.

Definition total (bs : list Z) : Z := foldr Z.add 0 bs.

(** Every block is [min(4096, remaining)], the remaining count starting
    at [remaining]. *)
Fixpoint blocks_ok (remaining : Z) (bs : list Z) : Prop :=
  match bs with
  | [] => True
  | b :: bs' => b = Z.min 4096 remaining /\ blocks_ok (remaining - b) bs'
  end.

(** ** Sample objects *)

(** The object model of the docstring of [QuecThing.__data_format], with
    the property [energy] of the docstring of [QuecObjectModel]. *)
Definition quec_model : QuecObjectModel.t :=
  QuecObjectModel.registered
    [QuecObjectModel.SetItem properties "energy" 4 "rw";
     QuecObjectModel.SetItem events "sos_alert" 6 "r";
     QuecObjectModel.SetItemStruct events "sos_alert" "local_time" 19 []].

(** A QuecThing with that model, [q] in its buffer and [f] still to come. *)
Definition quec_thing (q : list bool) (f : list QuecThing.async) : QuecThing.state :=
  {| QuecThing.object_model := Some quec_model; QuecThing.file_size := 0;
     QuecThing.md5_value := ""; QuecThing.post_result_wait_queue := q;
     QuecThing.log := []; QuecThing.future := f |}.

(** The object model of the specification's example: the property [p1]
    and the event [ev1]. *)
Definition ali_model : CloudObjectModel string :=
  (Common.set_item events "ev1" "" ""
     (Common.set_item properties "p1" "" "" empty_model).2).2.

(** An object model that declares the property [p1], and [x] both as a
    property and as an event. *)
Definition overlap_model : CloudObjectModel string :=
  (Common.set_item events "x" "" ""
     (Common.set_item properties "x" "" ""
        (Common.set_item properties "p1" "" "" empty_model).2).2).2.

(** A connected session with the object model [m], nothing published
    yet, and [f] still to come. *)
Definition ali_session (m : CloudObjectModel string) (f : list (list AliYunIot.async))
    : @AliYunIot.state Z :=
  {| AliYunIot.object_model := Some m;
     AliYunIot.ali := Some {| AliYunIot.sent := [] |};
     AliYunIot.post_res := ∅; AliYunIot.breack_flag := false;
     AliYunIot.id_iter := numiter;
     AliYunIot.ota := AliOTA.__init__ None "mcu" "fw";
     AliYunIot.future := f |}.

(** An AliOTA after the calls [es] have been logged. *)
Definition logged {Cloud} (s : @AliOTA.state Cloud) (es : list AliOTA.event)
    : @AliOTA.state Cloud :=
  {| AliOTA.files := AliOTA.files s; AliOTA.module := AliOTA.module s;
     AliOTA.version := AliOTA.version s; AliOTA.ali := AliOTA.ali s;
     AliOTA.mcu_name := AliOTA.mcu_name s;
     AliOTA.firmware_name := AliOTA.firmware_name s;
     AliOTA.file_hash := AliOTA.file_hash s;
     AliOTA.ota_content := AliOTA.ota_content s;
     AliOTA.events := AliOTA.events s ++ es |}.

(** An AliOTA after a download has stored [data]. *)
Definition stored {Cloud} (s : @AliOTA.state Cloud) (data : list Byte.byte)
    : @AliOTA.state Cloud :=
  {| AliOTA.files := AliOTA.files s; AliOTA.module := AliOTA.module s;
     AliOTA.version := AliOTA.version s; AliOTA.ali := AliOTA.ali s;
     AliOTA.mcu_name := AliOTA.mcu_name s;
     AliOTA.firmware_name := AliOTA.firmware_name s;
     AliOTA.file_hash := Some data; AliOTA.ota_content := data;
     AliOTA.events := AliOTA.events s |}.

(** An OTA plan with one image of 100 bytes whose declared checksum is
    not the digest of the bytes received. *)
Definition image : list Byte.byte := replicate 100 Byte.x00.
Definition image_digest : string := "6d0bb00954ceb7fbee436bb55a8397a9".
Definition declared_md5 : string := "00000000000000000000000000000000".

Definition plan : list AliOTA.ota_file_info :=
  [{| AliOTA.size := 100; AliOTA.url := "https://ota.example/mcu.bin";
      AliOTA.md5 := declared_md5 |}].

(** The AliOTA of a session as [AliYunIot.__init__] builds it, after the
    cloud has announced [plan] for the companion microcontroller. *)
Definition announced_ota : @AliOTA.state AliYunIot.aLiYun :=
  AliOTA.set_ota_info "mcu" "2.1.0" plan (AliYunIot.ota fresh_session).

(** The same AliOTA, had the constructor been handed an object [c]. *)
Definition announced_ota_with (c : AliYunIot.aLiYun) : @AliOTA.state AliYunIot.aLiYun :=
  AliOTA.set_ota_info "mcu" "2.1.0" plan (AliOTA.__init__ (Some c) "mcu" "fw").

(** A 512-byte archive header: the name in bytes 0..99, the size field in
    bytes 124..134, zero bytes elsewhere. *)
Definition archive_header (name size_field : string) : list Byte.byte :=
  let name_bytes := list_byte_of_string name in
  let size_bytes := list_byte_of_string size_field in
  name_bytes ++ replicate (124 - length name_bytes) Byte.x00
  ++ size_bytes ++ replicate (512 - 124 - length size_bytes) Byte.x00.

(** The archive of the specification: a directory, a file of five bytes,
    and the end marker. *)
Definition sample_archive : list Byte.byte :=
  archive_header "sub/" "00000000000"
  ++ archive_header "sub/a.txt" "00000000005" ++ list_byte_of_string "hello"
  ++ replicate 512 Byte.x00.

(** An AliOTA whose downloaded file is a 10-byte header followed by
    [sample_archive], stored uncompressed. *)
Definition downloaded_ota : @AliOTA.state AliYunIot.aLiYun :=
  {| AliOTA.files := []; AliOTA.module := "mcu"; AliOTA.version := "2.1.0";
     AliOTA.ali := None; AliOTA.mcu_name := "mcu"; AliOTA.firmware_name := "fw";
     AliOTA.file_hash := None;
     AliOTA.ota_content := replicate 10 Byte.x00 ++ sample_archive;
     AliOTA.events := [] |}.

(** ** Archive streams *)

(** An entry of an archive stream as the unpack loop meets it: the bytes
    of its header, the name and the size that the fields of the header
    hold, and the bytes between the header and the next one. *)
Record member : Type := {
  member_header : list Byte.byte;
  member_name : string;
  member_size : Z;
  member_body : list Byte.byte }.

Definition member_bytes (m : member) : list Byte.byte :=
  member_header m ++ member_body m.

(** A well-formed entry: a header of 512 bytes whose size field and name
    field decode to the size and the name, and behind it as many bytes as
    the size says; an entry with size zero, a directory, has a name. *)
Definition well_formed (m : member) : Prop :=
  length (member_header m) = 512%nat
  /\ AliOTA.__get_file_size (AliOTA.slice 124 135 (member_header m)) = Ok (member_size m)
  /\ AliOTA.__get_file_name (firstn 100 (member_header m)) = Ok (member_name m)
  /\ Z.of_nat (length (member_body m)) = member_size m
  /\ (member_size m = 0 -> member_name m ≠ "").

(** The end of an archive stream: nothing is left to read, or what is
    read next is an entry with size zero and an empty name. *)
Definition closes (rest : list Byte.byte) : Prop :=
  rest = []
  \/ (AliOTA.__get_file_size (AliOTA.slice 124 135 (firstn 512 rest)) = Ok 0
      /\ AliOTA.__get_file_name (firstn 100 (firstn 512 rest)) = Ok "").

(** [data] cut into pieces of [n] bytes, the last one shorter when [n]
    does not divide the length. *)
Fixpoint chunked_fuel {A} (fuel n : nat) (data : list A) : list (list A) :=
  match fuel with
  | O => []
  | S fuel' =>
      match data with
      | [] => []
      | _ => firstn n data :: chunked_fuel fuel' n (skipn n data)
      end
  end.

Definition chunked {A} (n : nat) (data : list A) : list (list A) :=
  chunked_fuel (length data) n data.

(** The calls the unpack loop makes for an entry: a directory is made; a
    file is opened and its bytes written in pieces of 512. *)
Definition member_calls (m : member) : list AliOTA.event :=
  let path := AliOTA.__updater_dir +:+ member_name m in
  if decide (member_size m = 0) then [AliOTA.Mkdirs path]
  else AliOTA.OpenWb path :: (AliOTA.FileWrite path <$> chunked 512 (member_body m)).

(** The records the unpack loop adds to the manifest for an entry. *)
Definition member_records (m : member) : list AliOTA.manifest_entry :=
  if decide (member_size m = 0) then []
  else [{| AliOTA.file_name := "/usr/" +:+ member_name m;
           AliOTA.file_size := member_size m |}].

(** The registration of a manifest record with the updater. *)
Definition registration_of (e : AliOTA.manifest_entry) : AliOTA.event :=
  AliOTA.UpdateDownloadStat ("/usr/.updater" +:+ AliOTA.file_name e)
    (AliOTA.file_name e) (AliOTA.file_size e).

(** The calls of [__upgrade] for the entries [ms], in order: the staging
    directory, the entries, the registration of the manifest, and the
    removal of the downloaded archive. *)
Definition unpack_calls (ms : list member) : list AliOTA.event :=
  AliOTA.Mkdirs AliOTA.__updater_dir
  :: concat (member_calls <$> ms)
  ++ (registration_of <$> concat (member_records <$> ms))
  ++ [AliOTA.Remove AliOTA.__ota_file].

(** None of the calls [calls], made in this order after the calls
    [base], raises. *)
Fixpoint succeed (outcome : list AliOTA.event -> AliOTA.event -> option exn)
    (base calls : list AliOTA.event) : Prop :=
  match calls with
  | [] => True
  | e :: rest => outcome base e = None /\ succeed outcome (base ++ [e]) rest
  end.

(** A file system and an updater whose calls all return. *)
Definition all_return : list AliOTA.event -> AliOTA.event -> option exn :=
  fun _ _ => None.

(** A file system on which the staging directory cannot be opened as a
    file: [open] of it raises. *)
Definition directory_not_opened : list AliOTA.event -> AliOTA.event -> option exn :=
  fun _ e =>
    match e with
    | AliOTA.OpenWb path =>
        if String.eqb path AliOTA.__updater_dir then Some OSError else None
    | _ => None
    end.

(** An archive whose only entry has five bytes and no name, and an AliOTA
    with an object to report to that has downloaded it. *)
Definition unnamed_archive : list Byte.byte :=
  archive_header "" "00000000005" ++ list_byte_of_string "hello"
  ++ replicate 512 Byte.x00.

Definition unnamed_ota : @AliOTA.state AliYunIot.aLiYun :=
  {| AliOTA.files := []; AliOTA.module := "mcu"; AliOTA.version := "2.1.0";
     AliOTA.ali := Some {| AliYunIot.sent := [] |};
     AliOTA.mcu_name := "mcu"; AliOTA.firmware_name := "fw";
     AliOTA.file_hash := None;
     AliOTA.ota_content := replicate 10 Byte.x00 ++ unnamed_archive;
     AliOTA.events := [] |}.

End Vocabulary.
Import Vocabulary.

(** ** Vocabulary of the further properties *)

Module Notions.

(** The result that the events [evs] leave recorded for [msg_id]: that of
    the last event recording one, [acc] when there is none. *)
Definition recorded (msg_id : string) (acc : option bool) (evs : list AliYunIot.async)
    : option bool :=
  fold_left (fun acc ev =>
               match ev with
               | AliYunIot.PutPostRes id res => if decide (id = msg_id) then Some res else acc
               | AliYunIot.TimerCb => acc
               end) evs acc.

(** A sleep of the poll loop during which the timer does not expire and
    no result is recorded for [msg_id]. *)
Definition quiet (msg_id : string) (evs : list AliYunIot.async) : Prop :=
  (AliYunIot.TimerCb ∉ evs) /\ ~ records msg_id evs.

(** The wire value [QuecThing.__data_format] makes of [v] for the item
    [it]. *)
Definition wire_form (it : om_item Z) (v : pyval) : QuecThing.wire_val :=
  match v with
  | PyDict d => QuecThing.WireStruct (QuecThing.encode_struct (struct_info it) d)
  | _ => QuecThing.WireRaw v
  end.

(** An entry that [QuecThing.post_data] passes over without a call to
    the platform: a declared key whose value is [None], or a key that is
    neither declared nor one of the two location keys. *)
Definition skipped (m : QuecObjectModel.t) (kv : string * pyval) : Prop :=
  match declared (QuecObjectModel.om m) kv.1 with
  | Some _ => kv.2 = PyNone
  | None => kv.1 ≠ "gps" /\ kv.1 ≠ "non_gps"
  end.

(** The buffer after the results [rs] have been handed to
    [__put_post_res], one after the other. *)
Definition put_all {A} (rs : list A) (q : list A) : list A :=
  fold_left (fun q res => QuecThing.__put_post_res res q) rs q.

(** The blocks handed to [write_update_data], and those asked of
    [mcuFWDataRead], each with its address and its size, in call order. *)
Definition written (l : list QuecThing.call) : list (Z * Z) :=
  omap (fun c => match c with QuecThing.WriteUpdateData a n => Some (a, n) | _ => None end) l.

Definition asked (l : list QuecThing.call) : list (Z * Z) :=
  omap (fun c => match c with QuecThing.McuFWDataRead a n => Some (a, n) | _ => None end) l.

(** Every block starts where the one before it ends, the first at
    [start_addr]. *)
Fixpoint contiguous (start_addr : Z) (bs : list (Z * Z)) : Prop :=
  match bs with
  | [] => True
  | (a, n) :: bs' => a = start_addr /\ contiguous (start_addr + n) bs'
  end.

(** A run of [k] NUL characters. *)
Fixpoint nuls (k : nat) : string :=
  match k with
  | O => ""
  | S k' => String zero (nuls k')
  end.

(** The character of an octal digit, and the spelling of [n] in [width]
    octal digits, most significant first, padded with zeros. *)
Definition octal_char (d : Z) : ascii := ascii_of_nat (Z.to_nat (48 + d)).

Fixpoint octal_field_acc (width : nat) (n : Z) (acc : string) : string :=
  match width with
  | O => acc
  | S w => octal_field_acc w (n / 8) (String (octal_char (n mod 8)) acc)
  end.

Definition octal_field (width : nat) (n : Z) : string := octal_field_acc width n "".

(** A string of octal digits. *)
Definition octal_chars (s : string) : Prop :=
  Forall (fun c => In c ["0"; "1"; "2"; "3"; "4"; "5"; "6"; "7"]%char)
    (list_ascii_of_string s).

(** A name as an archive header can hold it: at most 100 characters, all
    of them ASCII and none of them NUL. *)
Definition plain_name (name : string) : Prop :=
  (String.length name <= 100)%nat
  /\ Forall (fun c => (0 < nat_of_ascii c < 128)%nat) (list_ascii_of_string name).

(** The entries of an archive, and the bytes of each: a header, and for
    a file its content right behind the header. *)
Inductive entry : Type :=
| Dir (name : string)
| File (name : string) (content : list Byte.byte).

Definition entry_bytes (e : entry) : list Byte.byte :=
  match e with
  | Dir name => archive_header name (octal_field 11 0)
  | File name content =>
      archive_header name (octal_field 11 (Z.of_nat (length content))) ++ content
  end.

(** An archive: the entries one after the other, then the end marker, a
    header of zero bytes. *)
Definition archive (es : list entry) : list Byte.byte :=
  concat (entry_bytes <$> es) ++ replicate 512 Byte.x00.

(** An entry the unpack loop reads back as it was written: a directory
    with a non-empty name, or a file with a non-empty name and a
    non-empty content of less than [8^11] bytes. *)
Definition unpackable (e : entry) : Prop :=
  match e with
  | Dir name => plain_name name /\ name ≠ ""
  | File name content =>
      plain_name name /\ name ≠ "" /\ (0 < length content)%nat
      /\ Z.of_nat (length content) < 8 ^ 11
  end.

(** The calls the unpack loop makes for an entry, and the record it adds
    to the manifest. *)
Definition entry_events (e : entry) : list AliOTA.event :=
  match e with
  | Dir name => [AliOTA.Mkdirs (AliOTA.__updater_dir +:+ name)]
  | File name content =>
      AliOTA.OpenWb (AliOTA.__updater_dir +:+ name)
      :: (AliOTA.FileWrite (AliOTA.__updater_dir +:+ name) <$> chunked 512 content)
  end.

Definition entry_manifest (e : entry) : list AliOTA.manifest_entry :=
  match e with
  | Dir _ => []
  | File name content =>
      [{| AliOTA.file_name := "/usr/" +:+ name;
          AliOTA.file_size := Z.of_nat (length content) |}]
  end.

(** An entry as the unpack loop meets it in the archive written. *)
Definition member_of (e : entry) : member :=
  match e with
  | Dir name =>
      {| member_header := archive_header name (octal_field 11 0);
         member_name := name; member_size := 0; member_body := [] |}
  | File name content =>
      {| member_header :=
           archive_header name (octal_field 11 (Z.of_nat (length content)));
         member_name := name; member_size := Z.of_nat (length content);
         member_body := content |}
  end.

(** The calls of [__upgrade] for the archive of the entries [es]. *)
Definition archive_calls (es : list entry) : list AliOTA.event :=
  AliOTA.Mkdirs AliOTA.__updater_dir
  :: concat (entry_events <$> es)
  ++ (registration_of <$> concat (entry_manifest <$> es))
  ++ [AliOTA.Remove AliOTA.__ota_file].





(** A connecting AliYunIot after the calls [cs] to the client have been
    logged. *)
Definition called {It} (s : @AliYunConnect.session It) (cs : list AliYunConnect.client_call)
    : @AliYunConnect.session It :=
  {| AliYunConnect.core := AliYunConnect.core s; AliYunConnect.pk := AliYunConnect.pk s;
     AliYunConnect.ps := AliYunConnect.ps s; AliYunConnect.dk := AliYunConnect.dk s;
     AliYunConnect.ds := AliYunConnect.ds s; AliYunConnect.server := AliYunConnect.server s;
     AliYunConnect.client_id := AliYunConnect.client_id s;
     AliYunConnect.burning_method := AliYunConnect.burning_method s;
     AliYunConnect.life_time := AliYunConnect.life_time s;
     AliYunConnect.calls := AliYunConnect.calls s ++ cs |}.

(** The secret and the device key handed to the client, by burning
    method: one device secret per device (0) drops the device key, one
    per product (1) drops the product secret. *)
Definition burned {It} (s : @AliYunConnect.session It) : option string * option string :=
  if decide (AliYunConnect.burning_method s = 0) then (AliYunConnect.ps s, None)
  else if decide (AliYunConnect.burning_method s = 1) then (None, AliYunConnect.dk s)
  else (AliYunConnect.ps s, AliYunConnect.dk s).

(** A connecting AliYunIot once [init] has dropped a key, made a new
    client and handed it the keys. *)
Definition with_new_client {It} (s : @AliYunConnect.session It) : @AliYunConnect.session It :=
  called
    (AliYunConnect.set_core
       (AliYunIot.set_ali (Some {| AliYunIot.sent := [] |}) (AliYunConnect.core s))
       (AliYunConnect.set_ps_dk (burned s).1 (burned s).2 s))
    [AliYunConnect.NewClient (AliYunConnect.pk s) (burned s).1 (burned s).2
       (AliYunConnect.ds s) (AliYunConnect.server s)].

(** The topics [__ali_subscribe_topic] subscribes to, in order, for the
    event keys [event_keys] in the order the dict yields them. *)
Definition subscribed_topics (pk dk : string) (event_keys : list string) : list string :=
  [AliYunIot.ica_topic_property_post pk dk;
   AliYunConnect.ica_topic_property_post_reply pk dk;
   AliYunConnect.ica_topic_property_set pk dk]
  ++ flat_map (fun ev => [AliYunIot.ica_topic_event_post pk dk ev;
                          AliYunConnect.ica_topic_event_post_reply pk dk ev])
       event_keys
  ++ [AliYunConnect.ota_topic_device_upgrade pk dk;
      AliYunConnect.ota_topic_firmware_get_reply pk dk;
      AliYunConnect.ota_topic_file_download_reply pk dk;
      AliYunConnect.rrpc_topic_request pk dk].

(** The calls by which a session is set up, connected and disconnected,
    and a sequence of them, one after the other. *)
Inductive connect_op : Type :=
| SetObjectModel (object_model : option (CloudObjectModel string))
| Init (enforce : bool)
| GetStatus
| Close.

Definition run_op {It} (topic_pk topic_dk : string)
    (client : list AliYunConnect.client_call -> AliYunConnect.client_call -> Z)
    (keys : gmap string (om_item string) -> list string)
    (op : connect_op) : M (@AliYunConnect.session It) bool :=
  match op with
  | SetObjectModel m => AliYunConnect.set_object_model m
  | Init enforce => AliYunConnect.init topic_pk topic_dk client keys enforce
  | GetStatus => AliYunConnect.get_status client
  | Close => AliYunConnect.close client
  end.

Definition run_ops {It} (topic_pk topic_dk : string)
    (client : list AliYunConnect.client_call -> AliYunConnect.client_call -> Z)
    (keys : gmap string (om_item string) -> list string)
    (ops : list connect_op) : M (@AliYunConnect.session It) (list bool) :=
  comprehension ops (run_op topic_pk topic_dk client keys).

(** A computation that leaves the AliOTA of the session as it is. *)
Definition keeps_ota {It A} (run : M (@AliYunConnect.session It) A) : Prop :=
  forall s, AliYunIot.ota (AliYunConnect.core (snd (run s)))
            = AliYunIot.ota (AliYunConnect.core s).

(** A connecting AliYunIot with the fields [core], a device secret of its
    own (burning method 0), and no call made yet. *)
Definition connection (core : @AliYunIot.state Z) : @AliYunConnect.session Z :=
  {| AliYunConnect.core := core; AliYunConnect.pk := "pk";
     AliYunConnect.ps := Some "ps"; AliYunConnect.dk := Some "dk";
     AliYunConnect.ds := "ds"; AliYunConnect.server := "iot-as-mqtt.example";
     AliYunConnect.client_id := "tracker"; AliYunConnect.burning_method := 0;
     AliYunConnect.life_time := 120; AliYunConnect.calls := [] |}.

(** The time the calls [cs] of a connecting QuecThing sleep, in
    milliseconds. *)
Definition slept (cs : list QuecThingConnect.quec_call) : Z :=
  foldr (fun c t => match c with
                    | QuecThingConnect.SleepMs ms => ms + t
                    | QuecThingConnect.Sleep seconds => 1000 * seconds + t
                    | _ => t
                    end) 0 cs.

(** A computation that returns from every state, after calls that sleep
    no more than [bound] milliseconds. *)
Definition waits_at_most {A} (run : M QuecThingConnect.session A) (bound : Z) : Prop :=
  forall s, exists a s' cs,
    run s = (Ok a, s')
    /\ QuecThingConnect.calls s' = QuecThingConnect.calls s ++ cs
    /\ 0 <= slept cs <= bound.

(** A QuecThing that connects with the device key [dk] and the device
    secret [ds], no call made yet. *)
Definition quec_connection (dk ds : string) : QuecThingConnect.session :=
  {| QuecThingConnect.pk := "pk"; QuecThingConnect.ps := "ps";
     QuecThingConnect.dk := dk; QuecThingConnect.ds := ds;
     QuecThingConnect.server := "iot-south.example:1883";
     QuecThingConnect.life_time := 120;
     QuecThingConnect.mcu_name := "mcu"; QuecThingConnect.mcu_version := "1.0.0";
     QuecThingConnect.calls := [] |}.

End Notions.
Import Notions.

(** * Part III: the properties *)

(** ** The pending-result buffer of QuecThing *)

Section quec_buffer.
Import QuecThing.

Lemma put_post_res_length {A} (res : A) (q : list A) :
  (length q <= 16)%nat -> (length (__put_post_res res q) <= 16)%nat.
Proof.
  intros Hq. unfold __put_post_res, queue_put, queue_get, maxsize.
  destruct (16 <=? length q)%nat eqn:Hfull.
  - apply Nat.leb_le in Hfull. destruct q as [|x q]; simpl in *; [lia|].
    destruct (length q <? 16)%nat eqn:Hlt.
    + rewrite length_app. simpl. lia.
    + lia.
  - apply Nat.leb_gt in Hfull.
    destruct (length q <? 16)%nat eqn:Hlt.
    + rewrite length_app. simpl. lia.
    + lia.
Qed.

Lemma put_post_res_full {A} (res : A) (q : list A) :
  length q = 16%nat ->
  exists oldest q', q = oldest :: q' /\ __put_post_res res q = q' ++ [res].
Proof.
  intros Hq. destruct q as [|x q]; [discriminate|].
  exists x, q. split; [reflexivity|].
  unfold __put_post_res, queue_put, queue_get, maxsize.
  rewrite Hq. simpl in *.
  replace (length q) with 15%nat by lia. reflexivity.
Qed.

Lemma deliver_length (ev : async) (q : list bool) :
  (length q <= 16)%nat -> (length (deliver ev q) <= 16)%nat.
Proof. destruct ev; apply put_post_res_length. Qed.

Lemma blocking_get_length (f : list async) (q : list bool) :
  (length q <= 16)%nat ->
  (length (snd (fst (blocking_get q f))) <= 16)%nat.
Proof.
  revert q. induction f as [|ev f IH]; intros q Hq.
  - destruct q; simpl in *; lia.
  - destruct q as [|x q]; simpl in *; [|lia].
    apply IH. apply (deliver_length ev []). simpl. lia.
Qed.

(** C2. The pending-result buffer never holds more than 16 entries: the
    bound is kept by [__put_post_res], by the timer callback and the
    inbound results, and by the blocking [get] of [__get_post_res]; and
    [__put_post_res] on a buffer of 16 entries first drops the oldest
    entry and then appends the new one, so the oldest is no longer in
    the buffer. *)
Theorem post_result_buffer_bounded (s : state) (res : bool) (ev : async) :
  (length (post_result_wait_queue s) <= 16)%nat ->
  (length (__put_post_res res (post_result_wait_queue s)) <= 16)%nat
  /\ (length (deliver ev (post_result_wait_queue s)) <= 16)%nat
  /\ (length (post_result_wait_queue (snd (__get_post_res s))) <= 16)%nat
  /\ (length (post_result_wait_queue s) = 16%nat ->
      exists oldest q',
        post_result_wait_queue s = oldest :: q'
        /\ __put_post_res res (post_result_wait_queue s) = q' ++ [res]
        /\ length (__put_post_res res (post_result_wait_queue s)) = 16%nat).
Proof.
  intros Hq. repeat split.
  - by apply put_post_res_length.
  - by apply deliver_length.
  - unfold __get_post_res.
    pose proof (blocking_get_length (future s) _ Hq) as H.
    destruct (blocking_get (post_result_wait_queue s) (future s)) as [[r q] f].
    simpl in *. exact H.
  - intros Hfull.
    destruct (put_post_res_full res _ Hfull) as (oldest & q' & Heq & Hput).
    exists oldest, q'. repeat split; [done..|].
    rewrite Hput, length_app. rewrite Heq in Hfull. simpl in *. lia.
Qed.

End quec_buffer.

Lemma post_result_buffer_bounded_witness :
  let s := quec_thing (replicate 16 true) [] in
  (length (QuecThing.post_result_wait_queue s) <= 16)%nat
  /\ (length (QuecThing.__put_post_res false (QuecThing.post_result_wait_queue s)) <= 16)%nat.
Proof.
  cbv zeta. split; [cbn; lia|].
  apply (post_result_buffer_bounded (quec_thing (replicate 16 true) []) false
           QuecThing.TimerCb).
  cbn. lia.
Defined.

(** ** Message ids of AliYunIot *)

Section message_ids.
Import AliYunIot.
Context {It : Type} (fresh : It) (next : It -> option (Z * It)).

Lemma get_ids_draw (n : nat) (s : state) (vs : list Z) (it : It) :
  draw next n (id_iter s) = Some (vs, it) ->
  get_ids fresh next n s = (Ok (str <$> vs), set_id_iter it s).
Proof.
  revert s vs it. induction n as [|n IH]; intros s vs it Hdraw; simpl in Hdraw.
  - by inversion Hdraw.
  - destruct (next (id_iter s)) as [[v it1]|] eqn:Hnext; [|done].
    destruct (draw next n it1) as [[vs' it2]|] eqn:Hrest; [|done].
    inversion Hdraw; subst; clear Hdraw.
    unfold get_ids in *. simpl. unfold bind at 1.
    unfold __get_id at 1. rewrite Hnext.
    unfold bind at 1. rewrite (IH (set_id_iter it1 s) vs' it); [|done].
    reflexivity.
Qed.

(** Once the iterator is exhausted, [__get_id] starts over with the first
    number of a fresh one. *)
Lemma get_id_restarts (s : state) (v : Z) (it : It) :
  next (id_iter s) = None -> next fresh = Some (v, it) ->
  __get_id fresh next s = (Ok (str v), set_id_iter it s).
Proof. intros H1 H2. unfold __get_id. by rewrite H1, H2. Qed.




End message_ids.




(** ** Waiting for a publish result in AliYunIot *)

Section await.
Import AliYunIot.
Context {It : Type}.
Implicit Types (s : @state It) (evs : list async) (f : list (list async)).

Lemma deliver_flag_kept s evs :
  breack_flag s = true -> breack_flag (fold_left deliver evs s) = true.
Proof.
  revert s. induction evs as [|ev evs IH]; intros s Hs; [done|].
  simpl. apply IH. by destruct ev.
Qed.

Lemma deliver_timer s evs :
  TimerCb ∈ evs -> breack_flag (fold_left deliver evs s) = true.
Proof.
  revert s. induction evs as [|ev evs IH]; intros s Hin.
  - by apply elem_of_nil in Hin.
  - simpl. apply elem_of_cons in Hin as [<-|Hin].
    + by apply deliver_flag_kept.
    + by apply IH.
Qed.

Lemma deliver_other msg_id s evs :
  ~ records msg_id evs ->
  post_res (fold_left deliver evs s) !! msg_id = post_res s !! msg_id.
Proof.
  revert s. induction evs as [|ev evs IH]; intros s Hno; [done|].
  simpl. rewrite IH.
  - destruct ev as [|id res]; [done|]. simpl.
    apply lookup_insert_ne. intros ->. apply Hno. exists res. set_solver.
  - intros [res Hin]. apply Hno. exists res. set_solver.
Qed.

Lemma poll_loop_flag msg_id f s :
  post_res s !! msg_id = None -> breack_flag s = true ->
  poll_loop msg_id f s = (Ok tt, set_future f (__put_post_res msg_id false s)).
Proof. intros Hnone Hflag. destruct f; simpl; by rewrite Hnone, Hflag. Qed.

Lemma poll_loop_timeout msg_id pre fire rest s :
  post_res s !! msg_id = None ->
  TimerCb ∈ fire ->
  ~ records msg_id (concat pre ++ fire) ->
  exists s', poll_loop msg_id (pre ++ fire :: rest) s = (Ok tt, s')
             /\ post_res s' !! msg_id = Some false.
Proof.
  revert s. induction pre as [|p pre IH]; intros s Hnone Hfire Hno.
  - destruct (breack_flag s) eqn:Hflag.
    + rewrite poll_loop_flag by done. eexists; split; [done|].
      simpl. apply lookup_insert_eq.
    + simpl. rewrite Hnone, Hflag.
      rewrite poll_loop_flag.
      * eexists; split; [done|]. simpl. apply lookup_insert_eq.
      * by rewrite deliver_other.
      * by apply deliver_timer.
  - destruct (breack_flag s) eqn:Hflag.
    + rewrite poll_loop_flag by done. eexists; split; [done|].
      simpl. apply lookup_insert_eq.
    + simpl. rewrite Hnone, Hflag. apply IH; [|done|].
      * rewrite deliver_other; [done|].
        intros [res Hin]. apply Hno. exists res. simpl. set_solver.
      * intros [res Hin]. apply Hno. exists res. simpl. set_solver.
Qed.

(** C3 (as amended). If no result is recorded for [msg_id] before the
    call, nor during any sleep of the poll loop up to and including the
    one in which the timer expires, then [__get_post_res] returns [False],
    and afterwards the pending-result map holds no entry for [msg_id] and
    the flag is lowered. *)
Theorem get_post_res_timeout (msg_id : string) pre fire rest s :
  post_res s !! msg_id = None ->
  future s = pre ++ fire :: rest ->
  TimerCb ∈ fire ->
  ~ records msg_id (concat pre ++ fire) ->
  exists s', __get_post_res msg_id s = (Ok false, s')
             /\ post_res s' !! msg_id = None
             /\ breack_flag s' = false.
Proof.
  intros Hnone Hfut Hfire Hno.
  destruct (poll_loop_timeout msg_id pre fire rest s Hnone Hfire Hno)
    as (s1 & Hpoll & Hres).
  unfold __get_post_res, bind, modify. rewrite Hfut, Hpoll. simpl.
  rewrite Hres. eexists; split; [done|]. split; [|done].
  simpl. apply lookup_delete_eq.
Qed.

End await.

Lemma get_post_res_timeout_witness :
  let s := AliYunIot.set_future
             [[AliYunIot.PutPostRes "7" true]; [AliYunIot.TimerCb]; []] fresh_session in
  AliYunIot.post_res s !! "1" = None
  /\ exists s', AliYunIot.__get_post_res "1" s = (Ok false, s')
                /\ AliYunIot.post_res s' !! "1" = None
                /\ AliYunIot.breack_flag s' = false.
Proof.
  cbv zeta. split; [reflexivity|].
  apply (get_post_res_timeout "1" [[AliYunIot.PutPostRes "7" true]]
           [AliYunIot.TimerCb] [[]]).
  - reflexivity.
  - reflexivity.
  - apply list_elem_of_here.
  - intros [res Hin]. cbn in Hin.
    apply elem_of_cons in Hin as [Heq|Hin]; [discriminate|].
    apply elem_of_cons in Hin as [Heq|Hin]; [discriminate|].
    by apply elem_of_nil in Hin.
Defined.

(** C3 as the specification states it fails when the result is recorded
    after the timer has expired, but within the same sleep (here the
    200th): the loop tests for a result before it tests the flag. *)
Lemma get_post_res_late_result :
  let s := AliYunIot.set_future
             (replicate 199 []
              ++ [[AliYunIot.TimerCb; AliYunIot.PutPostRes "1" true]]) fresh_session in
  AliYunIot.post_res s !! "1" = None
  /\ fst (AliYunIot.__get_post_res "1" s) = Ok true.
Proof. split; vm_compute; reflexivity. Qed.

(** ** The object-model codec of QuecThing *)

Section dict_facts.
Context {K V : Type} `{EqDecision K}.
Implicit Types (d : list (K * V)).

Lemma dict_get_set k k' v d :
  dict_get k (dict_set k' v d) = if decide (k' = k) then Some v else dict_get k d.
Proof.
  induction d as [|[k0 v0] d IH]; simpl.
  - by destruct (decide (k' = k)).
  - destruct (decide (k0 = k')) as [->|Hne]; simpl.
    + by destruct (decide (k' = k)).
    + destruct (decide (k0 = k)) as [->|Hne'].
      * destruct (decide (k' = k)); [congruence|done].
      * exact IH.
Qed.

Lemma dict_get_is_Some k d : k ∈ d.*1 -> is_Some (dict_get k d).
Proof.
  induction d as [|[k0 v0] d IH]; cbn; [by intros ?%elem_of_nil|].
  intros Hin. destruct (decide (k0 = k)); [by eexists|].
  apply IH. by apply elem_of_cons in Hin as [?|?].
Qed.

Lemma dict_set_keys k k' v d :
  k ∈ (dict_set k' v d).*1 <-> k = k' \/ k ∈ d.*1.
Proof.
  induction d as [|[k0 v0] d IH]; simpl.
  - set_solver.
  - destruct (decide (k0 = k')) as [->|Hne]; simpl.
    + set_solver.
    + rewrite !elem_of_cons, IH. tauto.
Qed.

Lemma assign_all_keys {K0} (tr : K0 -> K) (l : list (K0 * V)) acc k :
  k ∈ (assign_all tr l acc).*1 <-> k ∈ acc.*1 \/ exists k0 v, (k0, v) ∈ l /\ k = tr k0.
Proof.
  unfold assign_all. revert acc. induction l as [|[k0 v0] l IH]; intros acc; simpl.
  - split; [by left|]. intros [?|(?&?&Hin&_)]; [done|by apply elem_of_nil in Hin].
  - rewrite IH, dict_set_keys. split.
    + intros [[->|?]|(k1&v1&?&?)]; [right|by left|right].
      * exists k0, v0. split; [left|done].
      * exists k1, v1. split; [by right|done].
    + intros [?|(k1&v1&Hin&?)]; [by left; right|].
      apply elem_of_cons in Hin as [Heq|Hin].
      * inversion Heq; subst. by left; left.
      * right. by exists k1, v1.
Qed.

Lemma assign_all_get {K0} (tr : K0 -> K) (l : list (K0 * V)) acc k0 v :
  NoDup l.*1 ->
  (k0, v) ∈ l ->
  (forall k1 v1, (k1, v1) ∈ l -> tr k1 = tr k0 -> k1 = k0) ->
  dict_get (tr k0) (assign_all tr l acc) = Some v.
Proof.
  unfold assign_all. revert acc.
  induction l as [|[k1 v1] l IH]; intros acc Hnd Hin Hinj.
  - by apply elem_of_nil in Hin.
  - simpl in *. apply NoDup_cons in Hnd as [Hnotin Hnd].
    apply elem_of_cons in Hin as [Heq|Hin].
    + inversion Heq; subst. clear IH.
      assert (Hkeep : forall (l' : list (K0 * V)) (acc' : list (K * V)),
                 (forall k2 v2, (k2, v2) ∈ l' -> tr k2 ≠ tr k1) ->
                 dict_get (tr k1) (assign_all tr l' acc') = dict_get (tr k1) acc').
      { unfold assign_all.
        induction l' as [|[k2 v2] l' IH']; intros acc' Hne; [done|].
        simpl. rewrite IH'.
        - rewrite dict_get_set. destruct (decide (tr k2 = tr k1)) as [Heq'|]; [|done].
          exfalso. eapply Hne; [left|done].
        - intros k3 v3 Hin3. apply (Hne k3 v3). by right. }
      unfold assign_all in Hkeep. rewrite Hkeep.
      * rewrite dict_get_set. by destruct (decide (tr k1 = tr k1)).
      * intros k2 v2 Hin2 Heq2.
        assert (k2 = k1) as -> by (eapply Hinj; [by right|done]).
        apply Hnotin. apply list_elem_of_fmap. by exists (k1, v2).
    + apply IH; [done..|].
      intros k2 v2 Hin2. apply (Hinj k2 v2). by right.
Qed.

End dict_facts.

Section quec_codec.
Import QuecThing.

Lemma encode_struct_assign (si : gmap string (om_field Z)) (d : list (string * pyval)) :
  encode_struct si d = assign_all (wire_key_of si) d [].
Proof.
  unfold encode_struct, assign_all. generalize (@nil (wire_key * pyval)).
  induction d as [|[ik iv] d IH]; intros acc; [done|].
  simpl. rewrite <- IH. unfold wire_key_of. by destruct (si !! ik).
Qed.

Lemma data_format_declared (s : state) (m : QuecObjectModel.t) (k : string) (v : pyval) :
  object_model s = Some m ->
  __data_format k v s =
    (Ok (match declared (QuecObjectModel.om m) k with
         | None => None
         | Some it =>
             Some (item_id it,
                   match v with
                   | PyDict d => WireStruct (encode_struct (struct_info it) d)
                   | _ => WireRaw v
                   end)
         end), s).
Proof.
  intros Hm. unfold __data_format, declared. rewrite Hm.
  destruct (items (QuecObjectModel.om m) events !! k) as [it|]; [done|].
  by destruct (items (QuecObjectModel.om m) properties !! k) as [it|].
Qed.

(** C5. [__data_format(k, v)] returns the failure value [False] when [k]
    is declared neither as an event nor as a property.  Otherwise it
    returns the one-entry map from the wire id of [k] (the event of that
    name, else the property).  A value that is not a dict is passed as it
    is.  For a dict [v], the keys of the result are exactly the wire keys
    of the sub-keys: the field id for a sub-key with a registered field
    (the sub-key itself is then no key of the result), the sub-key itself
    otherwise; every unregistered sub-key keeps its value, and so does a
    registered sub-key whose field id no other registered sub-key of [v]
    shares. *)
Theorem data_format_wire_form (s : state) (m : QuecObjectModel.t) (k : string) (v : pyval) :
  object_model s = Some m ->
  let model := QuecObjectModel.om m in
  (declared model k = None <->
     items model events !! k = None /\ items model properties !! k = None)
  /\ match declared model k with
     | None => __data_format k v s = (Ok None, s)
     | Some it =>
         match v with
         | PyDict d =>
             exists nv,
               __data_format k v s = (Ok (Some (item_id it, WireStruct nv)), s)
               /\ (forall wk, wk ∈ nv.*1 <->
                     exists ik iv, (ik, iv) ∈ d /\ wk = wire_key_of (struct_info it) ik)
               /\ (NoDup d.*1 -> forall ik iv, (ik, iv) ∈ d ->
                     match struct_info it !! ik with
                     | None => dict_get (WireName ik) nv = Some iv
                     | Some fld =>
                         WireId (field_id fld) ∈ nv.*1
                         /\ (WireName ik ∉ nv.*1)
                         /\ ((forall jk jv fld',
                                (jk, jv) ∈ d -> struct_info it !! jk = Some fld' ->
                                field_id fld' = field_id fld -> jk = ik) ->
                             dict_get (WireId (field_id fld)) nv = Some iv)
                     end)
         | _ => __data_format k v s = (Ok (Some (item_id it, WireRaw v)), s)
         end
     end.
Proof.
  intros Hm model. split.
  { unfold declared. destruct (items model events !! k); [|tauto].
    split; [done|]. by intros [? _]. }
  rewrite (data_format_declared s m k v Hm). fold model.
  destruct (declared model k) as [it|]; [|done].
  destruct v as [| | | | |d]; try done.
  exists (assign_all (wire_key_of (struct_info it)) d []).
  rewrite encode_struct_assign. split; [done|]. split.
  - intros wk. rewrite assign_all_keys. split.
    + intros [Hin|?]; [by apply elem_of_nil in Hin|done].
    + by right.
  - intros Hnd ik iv Hin.
    pose proof (assign_all_get (wire_key_of (struct_info it)) d [] ik iv Hnd Hin) as Hget.
    unfold wire_key_of at 2 3 in Hget.
    destruct (struct_info it !! ik) as [fld|] eqn:Hfld.
    + split; [|split].
      * apply assign_all_keys. right. exists ik, iv. split; [done|].
        unfold wire_key_of. by rewrite Hfld.
      * intros Hk. apply assign_all_keys in Hk as [Hk|(jk & jv & Hj & Heq)].
        { by apply elem_of_nil in Hk. }
        unfold wire_key_of in Heq. destruct (struct_info it !! jk) eqn:Hjk; [done|].
        inversion Heq; subst. congruence.
      * intros Huniq. apply Hget. intros jk jv Hj Heq.
        unfold wire_key_of in Heq. destruct (struct_info it !! jk) as [fld'|] eqn:Hjk; [|done].
        inversion Heq. by eapply Huniq.
    + apply Hget. intros jk jv Hj Heq.
      unfold wire_key_of in Heq. destruct (struct_info it !! jk); [done|].
      by inversion Heq.
Qed.

End quec_codec.

Lemma data_format_wire_form_witness :
  let s := quec_thing [] [] in
  let v := [("local_time", PyInt 1649995898000)] in
  QuecThing.object_model s = Some quec_model
  /\ exists nv,
       QuecThing.__data_format "sos_alert" (PyDict v) s
         = (Ok (Some (6, QuecThing.WireStruct nv)), s)
       /\ dict_get (QuecThing.WireId 19) nv = Some (PyInt 1649995898000).
Proof.
  cbv zeta. split; [reflexivity|].
  destruct (data_format_wire_form (quec_thing [] []) quec_model "sos_alert"
              (PyDict [("local_time", PyInt 1649995898000)]) eq_refl) as [_ H].
  destruct (declared (QuecObjectModel.om quec_model) "sos_alert") as [it|] eqn:Hit;
    vm_compute in Hit; [|discriminate].
  injection Hit as <-.
  destruct H as (nv & Hrun & _ & Hvals).
  exists nv. split; [exact Hrun|].
  specialize (Hvals (NoDup_singleton _) "local_time" (PyInt 1649995898000)
                (list_elem_of_here _ _)).
  cbn [struct_info] in Hvals.
  destruct (_ !! "local_time") as [fld|] eqn:Hfld; vm_compute in Hfld; [|discriminate].
  injection Hfld as <-.
  destruct Hvals as (_ & _ & Hval). apply Hval.
  intros jk jv fld' Hin _ _.
  apply list_elem_of_singleton in Hin. by injection Hin as -> _.
Defined.

Section quec_round_trip.
Import QuecObjectModel.

(** What a sequence of registrations guarantees about the model built:
    an item was registered with its id, that id is a key of [items_id],
    and [items_id] only holds registered pairs. *)
Lemma registered_sound (rs : list registration) :
  let m := registered rs in
  (forall ty k it, items (om m) ty !! k = Some it ->
     (exists p, SetItem ty k (item_id it) p ∈ rs) /\ is_Some (items_id m !! item_id it))
  /\ (forall i k, items_id m !! i = Some k -> exists ty p, SetItem ty k i p ∈ rs).
Proof.
  induction rs as [|r rs IH] using rev_ind.
  - split; [intros ty k it H|intros i k H]; cbn in H; by rewrite lookup_empty in H.
  - unfold registered in *. rewrite fold_left_app. cbn [fold_left].
    set (m := fold_left register rs new) in *. cbn zeta in IH.
    destruct IH as [IHitems IHids].
    destruct r as [ty0 k0 i0 p0|ty0 k0 sk si ss]; cbn [register].
    + split.
      * intros ty k it. cbn.
        destruct (decide (ty = ty0)) as [->|Hty].
        2:{ intros H. destruct (IHitems _ _ _ H) as [[p Hp] Hsome].
            split; [exists p; set_solver|].
            destruct (decide (i0 = item_id it)) as [->|?].
            - rewrite lookup_insert_eq. by eexists.
            - by rewrite lookup_insert_ne. }
        destruct (decide (k0 = k)) as [->|Hk].
        { rewrite lookup_insert_eq. intros [= <-]. cbn.
          split; [exists p0; set_solver|]. rewrite lookup_insert_eq. by eexists. }
        rewrite lookup_insert_ne by done.
        intros H. destruct (IHitems _ _ _ H) as [[p Hp] Hsome].
        split; [exists p; set_solver|].
        destruct (decide (i0 = item_id it)) as [->|?].
        -- rewrite lookup_insert_eq. by eexists.
        -- by rewrite lookup_insert_ne.
      * intros i k. cbn.
        destruct (decide (i0 = i)) as [->|Hi].
        -- rewrite lookup_insert_eq. intros [= <-]. exists ty0, p0. set_solver.
        -- rewrite lookup_insert_ne by done. intros H.
           destruct (IHids _ _ H) as (ty & p & Hp). exists ty, p. set_solver.
    + unfold set_item_struct, Common.set_item_struct.
      destruct (items (om m) ty0 !! k0) as [it0|] eqn:Hit0; cbn.
      2:{ split.
          - intros ty k it H. destruct (IHitems _ _ _ H) as [[p Hp] Hsome].
            split; [exists p; set_solver|done].
          - intros i k H. destruct (IHids _ _ H) as (ty & p & Hp).
            exists ty, p. set_solver. }
      split.
      * intros ty k it.
        destruct (decide (ty = ty0)) as [->|Hty].
        2:{ intros H. destruct (IHitems _ _ _ H) as [[p Hp] Hsome].
            split; [exists p; set_solver|done]. }
        destruct (decide (k0 = k)) as [->|Hk].
        { rewrite lookup_insert_eq. intros [= <-]. cbn.
          destruct (IHitems _ _ _ Hit0) as [[p Hp] Hsome].
          split; [exists p; set_solver|done]. }
        rewrite lookup_insert_ne by done.
        intros H. destruct (IHitems _ _ _ H) as [[p Hp] Hsome].
        split; [exists p; set_solver|done].
      * intros i k H. destruct (IHids _ _ H) as (ty & p & Hp).
        exists ty, p. set_solver.
Qed.

(** C6 (as amended). In a model built by registrations that give no wire
    id to two different keys, every registered item round-trips: the wire
    id of the item leads back to its key through [items_id], and so does
    the wire id that [QuecThing.__data_format] encodes a key with. *)
Theorem encode_reverse_lookup_round_trip (rs : list registration) :
  ids_unambiguous rs ->
  let m := registered rs in
  (forall ty k it, items (om m) ty !! k = Some it ->
     items_id m !! item_id it = Some k)
  /\ (forall (s : QuecThing.state) k v k_id wv,
        QuecThing.object_model s = Some m ->
        fst (QuecThing.__data_format k v s) = Ok (Some (k_id, wv)) ->
        items_id m !! k_id = Some k).
Proof.
  intros Huniq m.
  destruct (registered_sound rs) as [Hitems Hids]. fold m in Hitems, Hids.
  assert (Hround : forall ty k it, items (om m) ty !! k = Some it ->
                     items_id m !! item_id it = Some k).
  { intros ty k it Hit.
    destruct (Hitems _ _ _ Hit) as [[p Hp] [k' Hk']].
    destruct (Hids _ _ Hk') as (ty' & p' & Hp').
    by rewrite Hk', (Huniq _ _ _ _ _ _ _ Hp' Hp). }
  split; [exact Hround|].
  intros s k v k_id wv Hm Hfmt.
  rewrite (data_format_declared s m k v Hm) in Hfmt. cbn in Hfmt.
  unfold declared in Hfmt.
  destruct (items (om m) events !! k) as [it|] eqn:Hev.
  - inversion Hfmt; subst. by eapply Hround.
  - destruct (items (om m) properties !! k) as [it|] eqn:Hpr; [|done].
    inversion Hfmt; subst. by eapply Hround.
Qed.

End quec_round_trip.

Lemma encode_reverse_lookup_round_trip_witness :
  QuecObjectModel.items_id quec_model !! 4 = Some "energy".
Proof.
  assert (Hu : ids_unambiguous
                 [QuecObjectModel.SetItem properties "energy" 4 "rw";
                  QuecObjectModel.SetItem events "sos_alert" 6 "r";
                  QuecObjectModel.SetItemStruct events "sos_alert" "local_time" 19 []]).
  { intros ty1 ty2 k1 k2 i p1 p2 H1 H2.
    repeat (apply elem_of_cons in H1 as [H1|H1]; [inversion H1; subst; clear H1|]);
      try (by apply elem_of_nil in H1);
      repeat (apply elem_of_cons in H2 as [H2|H2]; [inversion H2; subst; clear H2|]);
      try (by apply elem_of_nil in H2); reflexivity. }
  destruct (encode_reverse_lookup_round_trip _ Hu) as [Hround _].
  apply (Hround properties "energy"
           {| item_name := "energy"; item_id := 4; item_perm := "rw"; struct_info := ∅ |}).
  vm_compute. reflexivity.
Defined.

(** C6 as the specification states it fails when an event and a property
    are registered with the same wire id: [items_id] keeps the key
    registered last. *)
Lemma round_trip_lost_on_shared_id :
  let m := QuecObjectModel.registered
             [QuecObjectModel.SetItem events "e" 1 "r";
              QuecObjectModel.SetItem properties "p" 1 "rw"] in
  let s := {| QuecThing.object_model := Some m; QuecThing.file_size := 0;
              QuecThing.md5_value := ""; QuecThing.post_result_wait_queue := [];
              QuecThing.log := []; QuecThing.future := [] |} in
  (exists it, items (QuecObjectModel.om m) events !! "e" = Some it /\ item_id it = 1)
  /\ fst (QuecThing.__data_format "e" (PyInt 5) s)
       = Ok (Some (1, QuecThing.WireRaw (PyInt 5)))
  /\ QuecObjectModel.items_id m !! 1 = Some "p".
Proof.
  cbv zeta. split; [|split].
  - eexists. split; [vm_compute; reflexivity|reflexivity].
  - vm_compute. reflexivity.
  - vm_compute. reflexivity.
Qed.

(** ** The block transfer of QuecThing *)

Section quec_sota.
Import QuecThing.
Variable platform : list call -> call -> bool.

Lemma ota_action_log (action : Z) (s : state) :
  exists r, ota_action platform action s
            = (Ok r, if decide (action ∈ [0; 1; 2; 3])
                     then add_log (OtaAction action) s else s).
Proof.
  unfold ota_action. destruct (decide (action ∈ [0; 1; 2; 3])); by eexists.
Qed.

Lemma sota_update_start_log (s : state) :
  exists L, sota_update_start platform s
            = (Ok tt, {| object_model := object_model s; file_size := file_size s;
                         md5_value := md5_value s;
                         post_result_wait_queue := post_result_wait_queue s;
                         log := log s ++ OtaAction 3 :: L; future := future s |})
            /\ written_blocks L = [] /\ read_blocks L = [].
Proof.
  unfold sota_update_start, bind, ota_action, invoke, gets, ret.
  destruct (decide (3 ∈ [0; 1; 2; 3])) as [_|Hn]; [|exfalso; apply Hn; set_solver].
  cbn.
  destruct (platform _ (CheckMd5 _)); cbn.
  - destruct (platform _ FileUpdate); unfold add_log; cbn.
    + exists [CheckMd5 (md5_value s); FileUpdate; SotaSetFlag].
      rewrite <- !app_assoc. by cbn.
    + exists [CheckMd5 (md5_value s); FileUpdate].
      rewrite <- !app_assoc. by cbn.
  - unfold add_log; cbn.
    exists [CheckMd5 (md5_value s)]. rewrite <- !app_assoc. by cbn.
Qed.

Lemma sota_loop_unfold (start_addr need d : Z) (s : state) :
  sota_loop platform start_addr need d s =
    if decide (need = 0) then (Ok tt, s)
    else
      let readsize := if 4096 >? need then need else 4096 in
      let s2 := add_log (WriteUpdateData start_addr readsize)
                  (add_log (McuFWDataRead start_addr readsize) s) in
      if decide (d + readsize = file_size s2)
      then sota_update_start platform s2
      else sota_loop platform (start_addr + readsize) (need - readsize)
             (d + readsize) (snd (ota_action platform 2 s2)).
Proof. simp sota_loop. by destruct (decide (need = 0)). Qed.

Lemma sota_loop_blocks (start_addr need d : Z) (s : state) :
  0 <= need ->
  exists L,
    sota_loop platform start_addr need d s
      = (Ok tt, {| object_model := object_model s; file_size := file_size s;
                   md5_value := md5_value s;
                   post_result_wait_queue := post_result_wait_queue s;
                   log := log s ++ L; future := future s |})
    /\ read_blocks L = written_blocks L
    /\ blocks_ok need (written_blocks L)
    /\ Forall (fun b => 0 < b) (written_blocks L)
    /\ (OtaAction 3 ∈ L -> d + total (written_blocks L) = file_size s)
    /\ (OtaAction 3 ∉ L ->
        total (written_blocks L) = need /\ (need ≠ 0 -> d + need ≠ file_size s))
    /\ (OtaAction 3 ∈ L \/ OtaAction 3 ∉ L)
    /\ total (written_blocks L) <= need.
Proof.
  remember (Z.to_nat need) as n eqn:Hn.
  revert start_addr need d s Hn.
  induction n as [n IH] using lt_wf_ind; intros start_addr need d s Hn Hneed.
  rewrite sota_loop_unfold.
  destruct (decide (need = 0)) as [->|Hne].
  { exists []. rewrite app_nil_r.
    do 5 (split; [try done|]); [by intros Hin%elem_of_nil|].
    split; [done|]. split; [|done]. right. by intros Hin%elem_of_nil. }
  cbv zeta.
  set (readsize := if 4096 >? need then need else 4096).
  assert (Hread : readsize = Z.min 4096 need /\ 0 < readsize <= need).
  { subst readsize. destruct (4096 >? need) eqn:E; lia. }
  destruct Hread as (Hmin & Hpos & Hle).
  set (s2 := add_log (WriteUpdateData start_addr readsize)
               (add_log (McuFWDataRead start_addr readsize) s)).
  destruct (decide (d + readsize = file_size s2)) as [Hdone|Hmore].
  - destruct (sota_update_start_log s2) as (L & -> & Hw & Hr).
    exists (McuFWDataRead start_addr readsize :: WriteUpdateData start_addr readsize
              :: OtaAction 3 :: L).
    subst s2. unfold add_log, written_blocks, read_blocks, total in *.
    cbn. rewrite <- !app_assoc. cbn.
    rewrite Hw, Hr. cbn.
    split; [done|]. split; [done|]. split; [done|]. split; [by repeat constructor|].
    split; [intros _; cbn in Hdone; lia|].
    split; [|split; [left; set_solver|lia]].
    intros Hnot. exfalso. apply Hnot. set_solver.
  - destruct (ota_action_log 2 s2) as [r Hact]. rewrite Hact.
    destruct (decide (2 ∈ [0; 1; 2; 3])) as [_|Hno]; [|exfalso; apply Hno; set_solver].
    cbn [snd].
    destruct (IH (Z.to_nat (need - readsize)) ltac:(lia) (start_addr + readsize)
                (need - readsize) (d + readsize) (add_log (OtaAction 2) s2)
                eq_refl ltac:(lia))
      as (L & -> & Hrw & Hok & Hall & Hdone & Hrest & Hdec & Hbound).
    exists (McuFWDataRead start_addr readsize :: WriteUpdateData start_addr readsize
              :: OtaAction 2 :: L).
    subst s2. unfold add_log, written_blocks, read_blocks, total in *.
    cbn in *. rewrite <- !app_assoc. cbn.
    rewrite Hrw.
    split; [done|]. split; [done|]. split; [by rewrite <- Hmin|].
    split; [by constructor|]. split; [|split; [|split; [|lia]]].
    + intros Hin. rewrite Z.add_assoc. apply Hdone. set_solver.
    + intros Hnot. destruct Hrest as [Htot Hneq]; [set_solver|].
      split; [lia|]. intros _.
      destruct (decide (need - readsize = 0)) as [Hz|Hnz]; [lia|].
      specialize (Hneq Hnz). lia.
    + destruct Hdec as [Hyes|Hno]; [left; set_solver|right].
      intros Hin. apply Hno.
      repeat (apply elem_of_cons in Hin as [Heq|Hin]; [discriminate|]). done.
Qed.

Lemma blocks_ok_full (bs : list Z) (remaining : Z) :
  blocks_ok remaining bs -> Forall (fun b => 0 < b) bs ->
  forall i b, bs !! i = Some b -> (S i < length bs)%nat -> b = 4096.
Proof.
  revert remaining. induction bs as [|b0 bs IH]; intros remaining Hok Hpos i b Hi Hlen.
  - done.
  - destruct Hok as [Hb0 Hok]. apply Forall_cons in Hpos as [Hb0pos Hpos].
    destruct i as [|i]; cbn in Hi.
    + inversion Hi; subst b0. destruct bs as [|b1 bs]; [cbn in Hlen; lia|].
      destruct Hok as [Hb1 _]. apply Forall_cons in Hpos as [Hb1pos _]. lia.
    + eapply IH; [done..|]. cbn in Hlen. lia.
Qed.

Lemma total_snoc (pre : list Z) (b : Z) : total (pre ++ [b]) = total pre + b.
Proof. unfold total. induction pre as [|x pre IH]; cbn; lia. Qed.

(** C9 (as amended). For every byte count [need >= 0] handed to
    [__sota_upgrade_start], the call returns, and the blocks it asks of
    [mcuFWDataRead] and hands to [write_update_data] have the sizes
    [min(4096, remaining)]: every block but the last is 4096 bytes, and
    when the sizes add up to [need] the last block is what remained.  When
    the transfer completes (the branch of [download_size ==
    self.__file_size], which reports [ota_action(3)]), the sizes add up to
    the declared file size; they add up to [need] whenever the loop runs
    to its end, and whenever [need] does not exceed the declared file
    size; when [need] is the declared file size, the transfer does
    complete. *)
Theorem sota_upgrade_blocks (start_addr need : Z) (s : state) :
  0 <= need ->
  exists L,
    __sota_upgrade_start platform start_addr need s
      = (Ok tt, {| object_model := object_model s; file_size := file_size s;
                   md5_value := md5_value s;
                   post_result_wait_queue := post_result_wait_queue s;
                   log := log s ++ L; future := future s |})
    /\ read_blocks L = written_blocks L
    /\ blocks_ok need (written_blocks L)
    /\ (forall i b, written_blocks L !! i = Some b ->
          (S i < length (written_blocks L))%nat -> b = 4096)
    /\ (total (written_blocks L) = need ->
          forall pre b, written_blocks L = pre ++ [b] -> b = need - total pre)
    /\ (OtaAction 3 ∈ L -> total (written_blocks L) = file_size s)
    /\ (OtaAction 3 ∉ L -> total (written_blocks L) = need)
    /\ (need <= file_size s -> total (written_blocks L) = need)
    /\ (file_size s = need -> 0 < need -> OtaAction 3 ∈ L).
Proof.
  intros Hneed.
  destruct (sota_loop_blocks start_addr need 0 s Hneed)
    as (L & Hloop & Hrw & Hok & Hpos & Hdone & Hrest & Hdec & Hbound).
  exists (L ++ [NotifyPowerRestart]).
  assert (Hw : written_blocks (L ++ [NotifyPowerRestart]) = written_blocks L).
  { unfold written_blocks. rewrite omap_app. cbn. by rewrite app_nil_r. }
  assert (Hr : read_blocks (L ++ [NotifyPowerRestart]) = read_blocks L).
  { unfold read_blocks. rewrite omap_app. cbn. by rewrite app_nil_r. }
  assert (Hin : OtaAction 3 ∈ L ++ [NotifyPowerRestart] <-> OtaAction 3 ∈ L).
  { rewrite elem_of_app, list_elem_of_singleton. split; [|by left].
    by intros [?|?]. }
  rewrite Hw, Hr, Hin.
  split.
  { unfold __sota_upgrade_start, bind, invoke, ret. rewrite Hloop.
    unfold add_log. cbn. by rewrite app_assoc. }
  split; [done|]. split; [done|].
  split; [by eapply blocks_ok_full|].
  split.
  { intros Htot pre b Heq. rewrite Heq, total_snoc in Htot. lia. }
  split; [intros H; specialize (Hdone H); lia|].
  split; [intros H; by destruct (Hrest H)|].
  split.
  - intros Hsize. destruct Hdec as [Hyes|Hno].
    + specialize (Hdone Hyes). lia.
    + by destruct (Hrest Hno).
  - intros Hsize Hgt. destruct Hdec as [Hyes|Hno]; [done|].
    destruct (Hrest Hno) as [_ Hneq]. exfalso. apply Hneq; lia.
Qed.

End quec_sota.

(** C9 as the specification states it fails when the count handed in
    exceeds the declared file size and that size is a multiple of the
    block size: with 8192 bytes to transfer and a declared file size of
    4096, the transfer completes (step 3 is reported, the image is
    checked, updated and flagged) after one block of 4096 bytes.  The
    last block is not the 8192 bytes that remained when it was read, and
    the blocks do not add up to the count handed in. *)
Lemma sota_stops_at_declared_size :
  let L := QuecThing.log
             (snd (QuecThing.__sota_upgrade_start (fun _ _ => true) 0 8192
                     (QuecThing.__sota_download_info 4096
                        "9e107d9d372bb6826bd81d3542a419d6" (quec_thing [] [])))) in
  L = [QuecThing.McuFWDataRead 0 4096; QuecThing.WriteUpdateData 0 4096;
       QuecThing.OtaAction 3;
       QuecThing.CheckMd5 "9e107d9d372bb6826bd81d3542a419d6";
       QuecThing.FileUpdate; QuecThing.SotaSetFlag;
       QuecThing.NotifyPowerRestart]
  /\ written_blocks L = [4096]
  /\ total (written_blocks L) ≠ 8192.
Proof. cbv zeta. split; [|split]; vm_compute; [reflexivity..|discriminate]. Qed.

Lemma sota_upgrade_blocks_witness :
  exists L,
    QuecThing.__sota_upgrade_start (fun _ _ => true) 0 10000
      (QuecThing.__sota_download_info 10000 "9e107d9d372bb6826bd81d3542a419d6"
         (quec_thing [] []))
      = (Ok tt, {| QuecThing.object_model := Some quec_model;
                   QuecThing.file_size := 10000;
                   QuecThing.md5_value := "9e107d9d372bb6826bd81d3542a419d6";
                   QuecThing.post_result_wait_queue := [];
                   QuecThing.log := [] ++ L; QuecThing.future := [] |})
    /\ written_blocks L = [4096; 4096; 1808].
Proof.
  destruct (sota_upgrade_blocks (fun _ _ => true) 0 10000
              (QuecThing.__sota_download_info 10000 "9e107d9d372bb6826bd81d3542a419d6"
                 (quec_thing [] [])) ltac:(lia)) as (L & Hrun & _).
  exists L. split; [exact Hrun|].
  vm_compute in Hrun. injection Hrun as <-. reflexivity.
Defined.

(** ** Posting with QuecThing *)

(** Whatever happens in the loop, the caller's dictionary comes back with
    exactly its falsy values removed: the loop never writes to it. *)
Lemma post_data_leaves_truthy platform data s res data' s' :
  QuecThing.post_data platform data s = (Ok (res, data'), s') ->
  data' = QuecThing.__rm_empty_data data.
Proof.
  unfold QuecThing.post_data, bind, ret.
  destruct (QuecThing.post_data_loop platform data true s) as [[r| |] s1];
    intros H; by inversion H.
Qed.

(** C10 (the code at the failing input).  [energy] is a declared property,
    the report is accepted and its result arrives as success: [post_data]
    returns [True], and the caller's record still holds [energy] with its
    value. *)
Theorem post_data_keeps_posted_entry :
  let run := QuecThing.post_data (fun _ _ => true) [("energy", PyInt 100)]
               (quec_thing [] [QuecThing.PutPostRes true]) in
  fst run = Ok (true, [("energy", PyInt 100)])
  /\ QuecThing.log (snd run)
     = [QuecThing.PhymodelReport 4 (QuecThing.WireRaw (PyInt 100))].
Proof. split; vm_compute; reflexivity. Qed.

(** ** Verification of a downloaded image in AliOTA *)

Section ali_ota_check.
Import AliOTA.
Context {Cloud : Type}.
Variable fetch : string -> Z * list Byte.byte.
Variable md5_hexdigest : list Byte.byte -> string.
Variable inflate : list Byte.byte -> list Byte.byte.
Variable exn_text : exn -> string.
Variable outcome : list event -> event -> option exn.
Implicit Types (s : @state Cloud).

Lemma download_ok s (url : string) (data : list Byte.byte) :
  fetch url = (0, data) ->
  __download fetch url s
    = (Ok true, logged (stored s data)
                  [AppFotaDownload url __ota_file;
                   Rename ("/usr/.updater" +:+ __ota_file) __ota_file]).
Proof.
  intros Hfetch. unfold __download, bind, emit, store, modify, ret. cbn.
  rewrite Hfetch. destruct (decide (0 = 0)); [|done].
  unfold logged, stored. cbn. by rewrite <- app_assoc.
Qed.

(** With an object to report to, a mismatch is reported with step -3 and
    both checksums in the description. *)
Lemma check_md5_mismatch s (c : Cloud) (hashed : list Byte.byte) (cloud_md5 : string) :
  ali s = Some c -> file_hash s = Some hashed ->
  cloud_md5 ≠ md5_hexdigest hashed ->
  __check_md5 md5_hexdigest cloud_md5 s
    = (Ok false,
       logged s [OtaDeviceProgress (-3)
                   ("MD5 Verification Failed. DMP Calc MD5 Value: " +:+ cloud_md5
                    +:+ ", Device Calc MD5 Value: " +:+ md5_hexdigest hashed)
                   (module s)]).
Proof.
  intros Hali Hhash Hne. unfold __check_md5. rewrite Hhash.
  destruct (decide (cloud_md5 ≠ md5_hexdigest hashed)); [|done].
  unfold bind, ota_device_progress. by rewrite Hali.
Qed.

(** Without one, the attempt to report raises. *)
Lemma check_md5_mismatch_unwired s (hashed : list Byte.byte) (cloud_md5 : string) :
  ali s = None -> file_hash s = Some hashed ->
  cloud_md5 ≠ md5_hexdigest hashed ->
  __check_md5 md5_hexdigest cloud_md5 s = (Raise AttributeError, s).
Proof.
  intros Hali Hhash Hne. unfold __check_md5. rewrite Hhash.
  destruct (decide (cloud_md5 ≠ md5_hexdigest hashed)); [|done].
  unfold bind, ota_device_progress. by rewrite Hali.
Qed.

(** An AliOTA that holds an object to report to: an image whose declared
    checksum differs from the digest of the bytes received is reported
    with step -3, and nothing of the unpack stage is called for it: after
    the report come only the update flag and the restart. *)
Lemma start_sota_md5_mismatch s (c : Cloud) file rest (data : list Byte.byte) :
  ali s = Some c -> files s = file :: rest ->
  fetch (url file) = (0, data) ->
  md5 file ≠ md5_hexdigest data ->
  __start_sota fetch md5_hexdigest inflate exn_text outcome s
    = (Ok tt,
       logged (stored s data)
         [AppFotaDownload (url file) __ota_file;
          Rename ("/usr/.updater" +:+ __ota_file) __ota_file;
          OtaDeviceProgress (-3)
            ("MD5 Verification Failed. DMP Calc MD5 Value: " +:+ md5 file
             +:+ ", Device Calc MD5 Value: " +:+ md5_hexdigest data)
            (module s);
          SetUpdateFlag; PowerRestart]).
Proof.
  intros Hali Hfiles Hfetch Hne.
  unfold __start_sota. unfold bind at 1. unfold gets. rewrite Hfiles.
  unfold bind at 1. cbn [sota_files]. unfold bind at 1.
  rewrite (download_ok s _ _ Hfetch). unfold bind at 1.
  rewrite (check_md5_mismatch _ c data (md5 file)); [|done..].
  unfold ret, bind, emit, modify, logged, stored. cbn.
  by rewrite <- !app_assoc.
Qed.

Lemma start_sota_md5_mismatch_unwired s file rest (data : list Byte.byte) :
  ali s = None -> files s = file :: rest ->
  fetch (url file) = (0, data) ->
  md5 file ≠ md5_hexdigest data ->
  __start_sota fetch md5_hexdigest inflate exn_text outcome s
    = (Raise AttributeError,
       logged (stored s data)
         [AppFotaDownload (url file) __ota_file;
          Rename ("/usr/.updater" +:+ __ota_file) __ota_file]).
Proof.
  intros Hali Hfiles Hfetch Hne.
  unfold __start_sota. unfold bind at 1. unfold gets. rewrite Hfiles.
  unfold bind at 1. cbn [sota_files]. unfold bind at 1.
  rewrite (download_ok s _ _ Hfetch). unfold bind at 1.
  by rewrite (check_md5_mismatch_unwired _ data (md5 file)).
Qed.

End ali_ota_check.

(** C7 (the code at the failing input).  The AliOTA of a session is
    constructed with what [self.__ali] holds at that moment, [None].  For
    the announced image, whose declared checksum differs from the digest
    of the 100 bytes received, [__start_sota] raises [AttributeError] where
    it should report step -3: the log holds the download only, no progress
    report, and nothing of the unpack stage. *)
Theorem start_sota_mismatch_as_wired :
  AliOTA.ali announced_ota = None
  /\ declared_md5 ≠ image_digest
  /\ AliOTA.__start_sota (fun _ => (0, image)) (fun _ => image_digest)
       (fun data => data) (fun _ => "") all_return announced_ota
     = (Raise AttributeError,
        logged (stored announced_ota image)
          [AliOTA.AppFotaDownload "https://ota.example/mcu.bin" AliOTA.__ota_file;
           AliOTA.Rename ("/usr/.updater" +:+ AliOTA.__ota_file) AliOTA.__ota_file]).
Proof.
  split; [reflexivity|]. split; [discriminate|].
  by apply (start_sota_md5_mismatch_unwired _ _ _ _ _ announced_ota
              (List.hd {| AliOTA.size := 0; AliOTA.url := ""; AliOTA.md5 := "" |} plan) []).
Qed.

(** ** Unpacking an archive in AliOTA *)

Section ali_ota_unpack.
Import AliOTA.
Context {Cloud : Type}.
Variable inflate : list Byte.byte -> list Byte.byte.
Variable exn_text : exn -> string.
Variable outcome : list event -> event -> option exn.
Implicit Types (s : @state Cloud) (stream : list Byte.byte).

Lemma logged_nil s : logged s [] = s.
Proof. unfold logged. by rewrite app_nil_r. Qed.

Lemma logged_logged s (es1 es2 : list event) :
  logged (logged s es1) es2 = logged s (es1 ++ es2).
Proof. unfold logged. cbn. by rewrite <- app_assoc. Qed.

Lemma attempt_logged s (e : event) : snd (attempt outcome e s) = logged s [e].
Proof. unfold attempt. by destruct (outcome _ _). Qed.

Lemma attempt_returns s (e : event) :
  outcome (events s) e = None -> attempt outcome e s = (Ok tt, logged s [e]).
Proof. intros H. unfold attempt. by rewrite H. Qed.

Lemma attempt_raises s (e : event) (x : exn) :
  outcome (events s) e = Some x -> attempt outcome e s = (Raise x, logged s [e]).
Proof. intros H. unfold attempt. by rewrite H. Qed.

Lemma attempt_cases s (e : event) :
  attempt outcome e s
    = match outcome (events s) e with
      | None => (Ok tt, logged s [e])
      | Some x => (Raise x, logged s [e])
      end.
Proof. unfold attempt. by destruct (outcome _ _). Qed.

Lemma succeed_app (base l1 l2 : list event) :
  succeed outcome base (l1 ++ l2)
  <-> succeed outcome base l1 /\ succeed outcome (base ++ l1) l2.
Proof.
  revert base. induction l1 as [|e l1 IH]; intros base; cbn [app succeed].
  - rewrite app_nil_r. tauto.
  - rewrite IH, <- app_assoc. cbn [app]. tauto.
Qed.

Lemma copy_loop_unfold path read_size last_size stream s :
  copy_loop outcome path read_size last_size stream s =
    if decide (last_size > 0)
    then
      let read_size' :=
        if Z.pos read_size <=? last_size then read_size else Z.to_pos last_size in
      let piece := firstn (Pos.to_nat read_size') stream in
      let behind := skipn (Pos.to_nat read_size') stream in
      match outcome (events s) (FileWrite path piece) with
      | None =>
          copy_loop outcome path read_size' (last_size - Z.pos read_size') behind
            (logged s [FileWrite path piece])
      | Some x => (Raise x, (behind, logged s [FileWrite path piece]))
      end
    else (Ok tt, (stream, s)).
Proof.
  funelim (copy_loop outcome path read_size last_size stream s);
    match goal with H : decide _ = _ |- _ => rewrite H end; [|reflexivity].
  cbv zeta. unfold read. cbn [fst snd]. rewrite attempt_cases.
  set (o := outcome _ _). clearbody o. by destruct o.
Qed.

Lemma chunked_fuel_nil (fuel n : nat) : chunked_fuel fuel n (@nil Byte.byte) = [].
Proof. by destruct fuel. Qed.

(** When no write raises, the copy loop writes the content in pieces of
    512 bytes and leaves the stream behind the content. *)
Lemma copy_loop_chunks (path : string) (fuel : nat) (content rest : list Byte.byte) s :
  (length content <= fuel)%nat ->
  succeed outcome (events s) (FileWrite path <$> chunked_fuel fuel 512 content) ->
  copy_loop outcome path 512 (Z.of_nat (length content)) (content ++ rest) s
    = (Ok tt, (rest, logged s (FileWrite path <$> chunked_fuel fuel 512 content))).
Proof.
  revert content s. induction fuel as [|fuel IH]; intros content s Hfuel Hok.
  - destruct content; [|cbn in Hfuel; lia].
    rewrite copy_loop_unfold. cbn. by rewrite logged_nil.
  - rewrite copy_loop_unfold.
    destruct (decide (Z.of_nat (length content) > 0)) as [Hpos|Hzero].
    2:{ destruct content; [|cbn in Hzero; lia]. cbn. by rewrite logged_nil. }
    cbv zeta.
    assert (Hchunks : chunked_fuel (S fuel) 512 content
                      = firstn 512 content :: chunked_fuel fuel 512 (skipn 512 content)).
    { destruct content; [cbn in Hpos; lia|done]. }
    rewrite Hchunks in *. clear Hchunks.
    cbn [fmap list_fmap succeed] in Hok. destruct Hok as [Hfirst Hok].
    destruct (Z.pos 512 <=? Z.of_nat (length content)) eqn:Hfull.
    + apply Z.leb_le in Hfull.
      change (Pos.to_nat 512) with 512%nat.
      rewrite take_app_le, drop_app_le by lia. rewrite Hfirst.
      replace (Z.of_nat (length content) - Z.pos 512)
        with (Z.of_nat (length (skipn 512 content))) by (rewrite length_skipn; lia).
      rewrite IH; [|rewrite length_skipn; lia|done].
      by rewrite logged_logged.
    + apply Z.leb_gt in Hfull.
      replace (Pos.to_nat (Z.to_pos (Z.of_nat (length content)))) with (length content) by lia.
      rewrite take_app_length, drop_app_length.
      rewrite (take_ge content 512) in Hfirst by lia. rewrite Hfirst.
      replace (Z.of_nat (length content) - Z.pos (Z.to_pos (Z.of_nat (length content))))
        with 0 by lia.
      rewrite copy_loop_unfold. rewrite decide_False by lia.
      rewrite take_ge, drop_ge by lia. by rewrite chunked_fuel_nil.
Qed.

Lemma chunked_pieces (content : list Byte.byte) :
  concat (chunked 512 content) = content
  /\ Forall (fun piece => (0 < length piece <= 512)%nat) (chunked 512 content).
Proof.
  unfold chunked. generalize (Nat.le_refl (length content)).
  generalize (length content) at 2 3 4 as fuel.
  intros fuel. revert content.
  induction fuel as [|fuel IH]; intros content Hfuel.
  - destruct content; [|cbn in Hfuel; lia]. by split.
  - destruct content as [|b content]; [by split|].
    cbn [chunked_fuel].
    destruct (IH (skipn 512 (b :: content))) as [Hcat Hall].
    { rewrite length_skipn. cbn [length] in *. lia. }
    split.
    + cbn [concat]. rewrite Hcat. apply take_drop.
    + constructor; [|done]. rewrite length_take. cbn [length]. lia.
Qed.

Lemma unpack_loop_unfold (b : Byte.byte) rest (file_list : list manifest_entry) s :
  unpack_loop outcome (b :: rest) file_list s =
    let data := fst (read 512 (b :: rest)) in
    let body := snd (read 512 (b :: rest)) in
    match __get_file_size (slice 124 135 data) with
    | Raise e => (Raise e, s)
    | Blocked => (Blocked, s)
    | Ok size =>
        match __get_file_name (firstn 100 data) with
        | Raise e => (Raise e, s)
        | Blocked => (Blocked, s)
        | Ok name =>
            let path := __updater_dir +:+ name in
            if decide (size = 0)
            then if decide (String.length name ≠ 0%nat)
                 then match outcome (events s) (Mkdirs path) with
                      | None => unpack_loop outcome body file_list (logged s [Mkdirs path])
                      | Some x => (Raise x, logged s [Mkdirs path])
                      end
                 else (Ok file_list, s)
            else
              match outcome (events s) (OpenWb path) with
              | Some x => (Raise x, logged s [OpenWb path])
              | None =>
                  let copied :=
                    copy_loop outcome path 512 size body (logged s [OpenWb path]) in
                  match fst copied with
                  | Ok _ =>
                      unpack_loop outcome (fst (snd copied))
                        (file_list
                         ++ [{| file_name := "/usr/" +:+ name; file_size := size |}])
                        (snd (snd copied))
                  | Raise e => (Raise e, snd (snd copied))
                  | Blocked => (Blocked, snd (snd copied))
                  end
              end
        end
    end.
Proof.
  simp unpack_loop. cbv zeta.
  destruct (__get_file_size _) as [size| |]; simp unpack_loop; [|done..].
  destruct (__get_file_name _) as [name| |]; simp unpack_loop; [|done..].
  destruct (decide (size = 0)).
  - destruct (decide (String.length name ≠ 0%nat)); [|done].
    rewrite attempt_cases. set (o := outcome _ _). clearbody o. by destruct o.
  - rewrite attempt_cases. set (o := outcome _ _). clearbody o.
    destruct o; cbn [fst snd]; [done|].
    by destruct (fst (copy_loop _ _ _ _ _ _)).
Qed.

Lemma unpack_loop_header (h body : list Byte.byte) (file_list : list manifest_entry) s :
  length h = 512%nat ->
  unpack_loop outcome (h ++ body) file_list s =
    match __get_file_size (slice 124 135 h) with
    | Raise e => (Raise e, s)
    | Blocked => (Blocked, s)
    | Ok size =>
        match __get_file_name (firstn 100 h) with
        | Raise e => (Raise e, s)
        | Blocked => (Blocked, s)
        | Ok name =>
            let path := __updater_dir +:+ name in
            if decide (size = 0)
            then if decide (String.length name ≠ 0%nat)
                 then match outcome (events s) (Mkdirs path) with
                      | None => unpack_loop outcome body file_list (logged s [Mkdirs path])
                      | Some x => (Raise x, logged s [Mkdirs path])
                      end
                 else (Ok file_list, s)
            else
              match outcome (events s) (OpenWb path) with
              | Some x => (Raise x, logged s [OpenWb path])
              | None =>
                  let copied :=
                    copy_loop outcome path 512 size body (logged s [OpenWb path]) in
                  match fst copied with
                  | Ok _ =>
                      unpack_loop outcome (fst (snd copied))
                        (file_list
                         ++ [{| file_name := "/usr/" +:+ name; file_size := size |}])
                        (snd (snd copied))
                  | Raise e => (Raise e, snd (snd copied))
                  | Blocked => (Blocked, snd (snd copied))
                  end
              end
        end
    end.
Proof.
  intros Hlen. destruct h as [|b h]; [discriminate|].
  change ((b :: h) ++ body) with (b :: (h ++ body)).
  rewrite unpack_loop_unfold.
  assert (Hread : read 512 (b :: (h ++ body)) = (b :: h, body)).
  { unfold read. change (b :: (h ++ body)) with ((b :: h) ++ body).
    by rewrite (take_app_length' (b :: h) body 512), (drop_app_length' (b :: h) body 512). }
  revert Hread. generalize (read 512 (b :: (h ++ body))). by intros r ->.
Qed.

(** One round of the loop for a well-formed entry whose calls return. *)
Lemma unpack_loop_member (m : member) rest (file_list : list manifest_entry) s :
  well_formed m ->
  succeed outcome (events s) (member_calls m) ->
  unpack_loop outcome (member_bytes m ++ rest) file_list s
    = unpack_loop outcome rest (file_list ++ member_records m)
        (logged s (member_calls m)).
Proof.
  intros (Hlen & Hsize & Hname & Hbody & Hdir) Hok.
  unfold member_bytes, member_calls, member_records in *. rewrite <- app_assoc.
  rewrite unpack_loop_header, Hsize, Hname by done. cbv zeta.
  destruct (decide (member_size m = 0)) as [Hzero|Hpos].
  - destruct (member_body m) as [|? ?]; [|cbn in Hbody; lia].
    cbn [app]. rewrite app_nil_r.
    rewrite decide_True by (specialize (Hdir Hzero); by destruct (member_name m)).
    cbn [succeed] in Hok. destruct Hok as [-> _]. done.
  - cbn [succeed] in Hok. destruct Hok as [-> Hok].
    rewrite <- Hbody.
    rewrite (copy_loop_chunks _ (length (member_body m))) by done.
    cbn [fst snd]. by rewrite logged_logged.
Qed.

(** The loop ends at the end of the stream. *)
Lemma unpack_loop_closes rest (file_list : list manifest_entry) s :
  closes rest -> unpack_loop outcome rest file_list s = (Ok file_list, s).
Proof.
  intros Hend. destruct rest as [|b rest]; [by simp unpack_loop|].
  destruct Hend as [|[Hsize Hname]]; [done|].
  rewrite unpack_loop_unfold. cbv zeta. unfold read. cbn [fst snd].
  by rewrite Hsize, Hname.
Qed.

Lemma unpack_loop_members (ms : list member) rest (file_list : list manifest_entry) s :
  Forall well_formed ms -> closes rest ->
  succeed outcome (events s) (concat (member_calls <$> ms)) ->
  unpack_loop outcome (concat (member_bytes <$> ms) ++ rest) file_list s
    = (Ok (file_list ++ concat (member_records <$> ms)),
       logged s (concat (member_calls <$> ms))).
Proof.
  intros Hms Hend. revert file_list s.
  induction Hms as [|m ms Hm _ IH]; intros file_list s Hok.
  - cbn [fmap list_fmap concat app].
    by rewrite unpack_loop_closes, app_nil_r, logged_nil.
  - cbn [fmap list_fmap concat] in *. apply succeed_app in Hok as [Hm_ok Hok].
    rewrite <- app_assoc, unpack_loop_member by done.
    rewrite IH by done. by rewrite logged_logged, <- app_assoc.
Qed.

Lemma for_each_attempt {A} (l : list A) (f : A -> event) s :
  succeed outcome (events s) (f <$> l) ->
  for_each l (fun x => attempt outcome (f x)) s = (Ok tt, logged s (f <$> l)).
Proof.
  revert s. induction l as [|x l IH]; intros s Hok.
  - cbn. by rewrite logged_nil.
  - cbn [fmap list_fmap succeed] in Hok. destruct Hok as [Hx Hok].
    cbn [for_each]. unfold bind at 1. rewrite (attempt_returns _ _ Hx).
    rewrite IH by done. by rewrite logged_logged.
Qed.

Lemma upgrade_members s (ms : list member) rest :
  Forall well_formed ms -> closes rest ->
  inflate (skipn 10 (ota_content s)) = concat (member_bytes <$> ms) ++ rest ->
  succeed outcome (events s) (unpack_calls ms) ->
  __upgrade inflate exn_text outcome s = (Ok true, logged s (unpack_calls ms)).
Proof.
  intros Hms Hend Hstream Hok. unfold unpack_calls in *.
  cbn [succeed] in Hok. destruct Hok as [Hdir Hok].
  apply succeed_app in Hok as [Hstaged Hok].
  apply succeed_app in Hok as [Hregs Hremove].
  cbn [succeed] in Hremove. destruct Hremove as [Hremove _].
  unfold __upgrade. unfold bind at 1, gets at 1.
  unfold bind at 1. rewrite (attempt_returns _ _ Hdir).
  unfold try_except. unfold bind at 1.
  rewrite Hstream, unpack_loop_members by done. cbn [app].
  unfold bind at 1. rewrite logged_logged.
  rewrite (for_each_attempt _ registration_of).
  2:{ unfold logged. cbn [events]. by rewrite !app_assoc. }
  unfold bind at 1. rewrite logged_logged, attempt_returns.
  2:{ unfold logged. cbn [events]. by rewrite !app_assoc. }
  unfold ret. rewrite logged_logged. by rewrite <- !app_assoc.
Qed.

(** C8 (as amended).  [__upgrade] on a well-formed archive stream, as
    long as its calls to the file system and to the updater return.  The
    stream holds entries one after the other, each a header of 512 bytes
    directly followed by as many bytes as the size field of the header
    says, and ends where nothing is left or where an entry has size zero
    and an empty name.  Then [__upgrade] returns [True] and its calls are
    these, in order: the staging directory is made; for each entry with
    size zero (and a name) the directory [__updater_dir + name] is made
    and the loop goes on; for each entry with size [s > 0] and name [n]
    the file [__updater_dir + n] is opened and written in pieces of at
    most 512 bytes that add up to the [s] bytes behind the header, and one
    record is added to the manifest, pairing the installation path
    [/usr/ + n] with [s]; the loop ends at the end of the stream, reading
    nothing behind it; every record is then registered, from the staging
    path [/usr/.updater + /usr/ + n], and the downloaded archive is
    removed. *)
Theorem upgrade_unpacks_stream s (ms : list member) rest :
  Forall well_formed ms -> closes rest ->
  inflate (skipn 10 (ota_content s)) = concat (member_bytes <$> ms) ++ rest ->
  succeed outcome (events s) (unpack_calls ms) ->
  __upgrade inflate exn_text outcome s = (Ok true, logged s (unpack_calls ms))
  /\ Forall (fun m =>
       concat (chunked 512 (member_body m)) = member_body m
       /\ Z.of_nat (length (member_body m)) = member_size m
       /\ Forall (fun piece => (0 < length piece <= 512)%nat)
            (chunked 512 (member_body m))) ms.
Proof.
  intros Hms Hend Hstream Hok. split; [by apply (upgrade_members s ms rest)|].
  eapply Forall_impl; [exact Hms|].
  intros m (_ & _ & _ & Hbody & _).
  destruct (chunked_pieces (member_body m)) as [Hcat Hpieces]. done.
Qed.

End ali_ota_unpack.

Lemma upgrade_unpacks_stream_witness :
  let dir := {| member_header := archive_header "sub/" "00000000000";
                member_name := "sub/"; member_size := 0; member_body := [] |} in
  let file := {| member_header := archive_header "sub/a.txt" "00000000005";
                 member_name := "sub/a.txt"; member_size := 5;
                 member_body := list_byte_of_string "hello" |} in
  AliOTA.__upgrade (fun data => data) (fun _ => "") all_return downloaded_ota
  = (Ok true,
     logged downloaded_ota
       [AliOTA.Mkdirs "/usr/.updater/usr/";
        AliOTA.Mkdirs "/usr/.updater/usr/sub/";
        AliOTA.OpenWb "/usr/.updater/usr/sub/a.txt";
        AliOTA.FileWrite "/usr/.updater/usr/sub/a.txt" (list_byte_of_string "hello");
        AliOTA.UpdateDownloadStat "/usr/.updater/usr/sub/a.txt" "/usr/sub/a.txt" 5;
        AliOTA.Remove "/usr/sotaFile.tar.gz"])
  /\ Forall well_formed [dir; file].
Proof.
  cbv zeta.
  assert (Hwf : Forall well_formed
            [{| member_header := archive_header "sub/" "00000000000";
                member_name := "sub/"; member_size := 0; member_body := [] |};
             {| member_header := archive_header "sub/a.txt" "00000000005";
                member_name := "sub/a.txt"; member_size := 5;
                member_body := list_byte_of_string "hello" |}]).
  { repeat constructor; try (vm_compute; reflexivity); try discriminate.
    all: cbn; lia. }
  split; [|exact Hwf].
  apply (upgrade_unpacks_stream (fun data => data) (fun _ => "") all_return
           downloaded_ota _ (replicate 512 Byte.x00) Hwf).
  - right. split; vm_compute; reflexivity.
  - vm_compute. reflexivity.
  - cbn. repeat split.
Defined.

(** C8 as the specification states it fails in two ways.  The record that
    the file entry of the specification's archive adds to the manifest
    holds the installation path, [/usr/sub/a.txt], not the staging path
    that was written, [/usr/.updater/usr/sub/a.txt].  And an entry with a
    size but no name has the staging directory itself for its path: where
    that cannot be opened as a file, nothing is written or registered for
    the entry; the error is reported as step -4 and [__upgrade] returns
    [False]. *)
Lemma manifest_records_install_path :
  (let run := AliOTA.unpack_loop all_return sample_archive [] downloaded_ota in
   fst run = Ok [{| AliOTA.file_name := "/usr/sub/a.txt"; AliOTA.file_size := 5 |}]
   /\ AliOTA.events (snd run)
      = [AliOTA.Mkdirs "/usr/.updater/usr/sub/";
         AliOTA.OpenWb "/usr/.updater/usr/sub/a.txt";
         AliOTA.FileWrite "/usr/.updater/usr/sub/a.txt" (list_byte_of_string "hello")]
   /\ "/usr/sub/a.txt" ≠ "/usr/.updater/usr/sub/a.txt")
  /\ AliOTA.__upgrade (fun data => data) (fun _ => "") directory_not_opened unnamed_ota
     = (Ok false,
        logged unnamed_ota
          [AliOTA.Mkdirs "/usr/.updater/usr/";
           AliOTA.OpenWb "/usr/.updater/usr/";
           AliOTA.OtaDeviceProgress (-4) "Unpack Error: " "mcu"]).
Proof.
  split; [cbv zeta; split; [|split]|].
  - vm_compute. reflexivity.
  - vm_compute. reflexivity.
  - discriminate.
  - vm_compute. reflexivity.
Qed.

(** ** Posting with AliYunIot *)

Section ali_post.
Import AliYunIot.
Context {It : Type} (numiter : It) (next : It -> option (Z * It)).
Variables pk dk : string.
Variable utime_now : string -> Z.
Implicit Types (s : @state It) (data : list (string * pyval)).

Lemma dict_set_fresh {V} (k : string) (v : V) (d : list (string * V)) :
  k ∉ d.*1 -> dict_set k v d = d ++ [(k, v)].
Proof.
  induction d as [|[k0 v0] d IH]; intros Hk; [done|].
  simpl. destruct (decide (k0 = k)) as [->|Hne].
  - exfalso. apply Hk. cbn. by left.
  - rewrite IH; [done|]. intros Hin. apply Hk. cbn. by right.
Qed.

Lemma format_params_fields s (m : CloudObjectModel string) data pp ep :
  object_model s = Some m ->
  NoDup data.*1 ->
  (forall k, k ∈ data.*1 -> (k ∉ pp.*1) /\ (k ∉ ep.*1)) ->
  format_params utime_now data pp ep s
    = (Ok (pp ++ (property_param utime_now <$> property_fields m data),
           ep ++ (event_param utime_now <$> event_fields m data)), s).
Proof.
  intros Hm. revert pp ep. induction data as [|[k v] data IH]; intros pp ep Hnd Hfresh.
  - cbn. by rewrite !app_nil_r.
  - cbn in Hnd. apply NoDup_cons in Hnd as [Hk Hnd].
    destruct (Hfresh k) as [Hpp Hep]; [cbn; by left|].
    cbn [format_params]. unfold bind at 1, object_model_items. rewrite Hm.
    unfold property_fields, event_fields. rewrite !filter_cons. cbn [fst].
    destruct (items m properties !! k) as [it|] eqn:Hprop.
    + rewrite decide_True by (by eexists).
      rewrite decide_False by (by intros [? _]).
      rewrite dict_set_fresh by done. rewrite IH; [|done|].
      * cbn. by rewrite <- app_assoc.
      * intros k' Hk'. destruct (Hfresh k') as [Hpp' Hep']; [cbn; by right|].
        split; [|done]. rewrite fmap_app, elem_of_app. intros [?|Hin]; [done|].
        cbn in Hin. apply list_elem_of_singleton in Hin. by subst.
    + rewrite decide_False by (by intros [? ?]).
      destruct (items m events !! k) as [it|] eqn:Hev.
      * rewrite decide_True by (split; [done|by eexists]).
        rewrite dict_set_fresh by done. rewrite IH; [|done|].
        -- cbn. by rewrite <- app_assoc.
        -- intros k' Hk'. destruct (Hfresh k') as [Hpp' Hep']; [cbn; by right|].
           split; [done|]. rewrite fmap_app, elem_of_app. intros [?|Hin]; [done|].
           cbn in Hin. apply list_elem_of_singleton in Hin. by subst.
      * rewrite decide_False by (by intros [_ [? ?]]).
        apply IH; [done|].
        intros k' Hk'. apply Hfresh. cbn. by right.
Qed.

(** [__get_id] touches the id iterator only. *)
Lemma get_id_frame s :
  exists it, snd (__get_id numiter next s) = set_id_iter it s.
Proof.
  unfold __get_id. destruct (next (id_iter s)) as [[v it]|]; [by eexists|].
  destruct (next numiter) as [[v it]|]; by eexists.
Qed.

Lemma get_ids_succ (n : nat) s ids s' :
  get_ids numiter next (S n) s = (Ok ids, s') ->
  exists msg_id ids' s1,
    __get_id numiter next s = (Ok msg_id, s1)
    /\ get_ids numiter next n s1 = (Ok ids', s')
    /\ ids = msg_id :: ids'.
Proof.
  unfold get_ids. cbn [replicate comprehension]. unfold bind at 1.
  destruct (__get_id numiter next s) as [[msg_id| |] s1]; [|done..].
  unfold bind at 1.
  destruct (comprehension (replicate n ()) _ s1) as [[ids'| |] s2] eqn:Hrest;
    [|done..].
  unfold ret. intros [= <- <-]. by exists msg_id, ids', s1.
Qed.

Lemma get_ids_frame (n : nat) s ids s' :
  get_ids numiter next n s = (Ok ids, s') ->
  length ids = n /\ exists it, s' = set_id_iter it s.
Proof.
  revert s ids. induction n as [|n IH]; intros s ids H.
  - cbn in H. inversion H; subst. split; [done|]. by exists (id_iter s').
  - apply get_ids_succ in H as (msg_id & ids' & s1 & Hid & Hrest & ->).
    destruct (IH _ _ Hrest) as [Hlen [it ->]].
    destruct (get_id_frame s) as [it1 Hs1]. rewrite Hid in Hs1. cbn in Hs1. subst s1.
    split; [cbn; lia|]. by exists it.
Qed.

Lemma format_events_messages (event_params : list (string * param)) res s ids s' :
  get_ids numiter next (length event_params) s = (Ok ids, s') ->
  format_events numiter next pk dk event_params res s
    = (Ok (with_events res (zip_with (event_post pk dk) ids event_params)), s').
Proof.
  revert res s ids. induction event_params as [|[ev p] eps IH]; intros res s ids Hids.
  - cbn in Hids. inversion Hids; subst. cbn. unfold ret, with_events. cbn.
    rewrite !app_nil_r. by destruct res.
  - cbn [length] in Hids.
    apply get_ids_succ in Hids as (msg_id & ids' & s1 & Hid & Hrest & ->).
    cbn [format_events]. unfold bind at 1. rewrite Hid.
    rewrite (IH _ _ _ Hrest). f_equal. f_equal.
    unfold with_events, assign_all. cbn. by rewrite <- !app_assoc.
Qed.

Lemma data_format_messages s (m : CloudObjectModel string) data ids s' :
  object_model s = Some m ->
  NoDup data.*1 ->
  property_fields m data ≠ [] ->
  get_ids numiter next (S (length (event_fields m data))) s = (Ok ids, s') ->
  __data_format numiter next pk dk utime_now data s
    = (Ok (with_events
             {| event := [];
                property := [property_post (hd "" ids)
                               (property_param utime_now <$> property_fields m data)];
                msg_ids := [hd "" ids]; event_topic := [] |}
             (zip_with (event_post pk dk) (tl ids)
                (event_param utime_now <$> event_fields m data))), s').
Proof.
  intros Hm Hnd Hprops Hids.
  apply get_ids_succ in Hids as (msg_id & ids' & s1 & Hid & Hrest & ->).
  unfold __data_format. unfold bind at 1.
  rewrite (format_params_fields s m data [] [] Hm Hnd).
  2:{ intros k _. split; by intros ?%elem_of_nil. }
  cbn [app fst snd].
  destruct (property_param utime_now <$> property_fields m data) as [|p0 pp] eqn:Hpp.
  { by apply fmap_nil_inv in Hpp. }
  unfold bind at 1. unfold bind at 1. rewrite Hid. unfold ret.
  rewrite (format_events_messages _ _ s1 ids' s'); [done|].
  by rewrite length_fmap.
Qed.

Lemma for_each_publish_property s (c : aLiYun) (item : publish_data) :
  ali s = Some c ->
  for_each [item] (fun item => publish (ica_topic_property_post pk dk) item) s
    = (Ok tt, set_ali (Some {| sent := sent c ++ [(ica_topic_property_post pk dk, item)] |}) s).
Proof. intros Hali. cbn. unfold bind, publish. by rewrite Hali. Qed.

Lemma for_each_publish_events s (c : aLiYun) (et : list (string * string))
    (msgs : list publish_data) :
  ali s = Some c ->
  (forall msg, msg ∈ msgs -> is_Some (dict_get (pd_id msg) et)) ->
  for_each msgs
    (fun item => match dict_get (pd_id item) et with
                 | Some topic => publish topic item
                 | None => raise KeyError
                 end) s
    = (Ok tt, set_ali (Some {| sent := sent c ++ published_events et msgs |}) s).
Proof.
  revert s c. induction msgs as [|msg msgs IH]; intros s c Hali Het.
  - cbn. unfold ret. rewrite app_nil_r. f_equal.
    destruct c. unfold set_ali. cbn. by rewrite <- Hali.
  - cbn [for_each]. unfold bind at 1.
    destruct (Het msg) as [t Ht]; [by left|]. rewrite Ht.
    unfold publish at 1. rewrite Hali.
    rewrite (IH _ {| sent := sent c ++ [(t, msg)] |}); [|done|].
    + unfold set_ali, published_events. cbn. rewrite Ht. cbn. by rewrite <- app_assoc.
    + intros msg' Hin. apply Het. by right.
Qed.

Lemma get_ids_total (n : nat) s :
  is_Some (next numiter) ->
  exists ids s', get_ids numiter next n s = (Ok ids, s').
Proof.
  intros [[v0 it0] Hfresh]. revert s. induction n as [|n IH]; intros s.
  - by exists [], s.
  - unfold get_ids in *. cbn [replicate comprehension]. unfold bind at 1.
    assert (exists msg_id s1, __get_id numiter next s = (Ok msg_id, s1))
      as (msg_id & s1 & Hid).
    { unfold __get_id. destruct (next (id_iter s)) as [[v it]|]; [by eexists _, _|].
      rewrite Hfresh. by eexists _, _. }
    rewrite Hid. destruct (IH s1) as (ids & s' & Hrest).
    unfold bind at 1. rewrite Hrest. by eexists _, _.
Qed.

Lemma timeouts_cons (evs : list async) (f : list (list async)) :
  timeouts (evs :: f) = if decide (TimerCb ∈ evs) then S (timeouts f) else timeouts f.
Proof. unfold timeouts. rewrite filter_cons. by destruct (decide (TimerCb ∈ evs)). Qed.

(** The poll loop ends when the flag is up or a timer expiry is still to
    come; it uses up at most one expiry, and none when the flag is up. *)
Lemma poll_loop_returns (msg_id : string) (f : list (list async)) s :
  breack_flag s = true \/ (1 <= timeouts f)%nat ->
  exists s', poll_loop msg_id f s = (Ok tt, s')
             /\ is_Some (post_res s' !! msg_id)
             /\ (breack_flag s = true -> future s' = f)
             /\ (timeouts f <= S (timeouts (future s')))%nat.
Proof.
  revert s. induction f as [|evs f IH]; intros s Hend.
  - destruct Hend as [Hflag|Hfire]; [|cbn in Hfire; lia].
    cbn. destruct (post_res s !! msg_id) eqn:Hres.
    + eexists. split; [done|]. cbn. rewrite Hres. split; [by eexists|]. split; [done|lia].
    + rewrite Hflag. eexists. split; [done|]. cbn.
      rewrite lookup_insert_eq. split; [by eexists|]. split; [done|lia].
  - cbn [poll_loop]. destruct (post_res s !! msg_id) eqn:Hres.
    { eexists. split; [done|]. cbn. rewrite Hres. split; [by eexists|]. split; [done|lia]. }
    destruct (breack_flag s) eqn:Hflag.
    { eexists. split; [done|]. cbn. rewrite lookup_insert_eq.
      split; [by eexists|]. split; [done|lia]. }
    destruct Hend as [?|Hfire]; [done|].
    rewrite timeouts_cons in *.
    destruct (decide (TimerCb ∈ evs)) as [Hin|Hnin].
    + destruct (IH (fold_left deliver evs s)) as (s' & Hrun & Hsome & Hfut & _).
      { left. by apply deliver_timer. }
      exists s'. split; [done|]. split; [done|]. split; [done|].
      rewrite Hfut; [lia|]. by apply deliver_timer.
    + destruct (IH (fold_left deliver evs s)) as (s' & Hrun & Hsome & _ & Hle).
      { by right. }
      exists s'. by repeat split.
Qed.

Lemma get_post_res_returns (msg_id : string) s :
  (1 <= timeouts (future s))%nat ->
  exists res s', __get_post_res msg_id s = (Ok res, s')
                 /\ (timeouts (future s) <= S (timeouts (future s')))%nat.
Proof.
  intros Hfire.
  destruct (poll_loop_returns msg_id (future s) s) as (s1 & Hrun & [res Hres] & _ & Hle).
  { by right. }
  unfold __get_post_res, bind, modify. rewrite Hrun. cbn. rewrite Hres.
  by exists res, (set_post_res (delete msg_id (post_res s1)) (set_breack_flag false s1)).
Qed.

Lemma await_all_returns (ids : list string) s :
  (length ids <= timeouts (future s))%nat ->
  exists pub_res s',
    comprehension ids __get_post_res s = (Ok pub_res, s')
    /\ length pub_res = length ids.
Proof.
  revert s. induction ids as [|msg_id ids IH]; intros s Hlen.
  - by exists [], s.
  - cbn in Hlen. destruct (get_post_res_returns msg_id s) as (res & s1 & Hres & Hle); [lia|].
    destruct (IH s1) as (pub_res & s' & Hrest & Hlen'); [lia|].
    exists (res :: pub_res), s'. cbn [comprehension]. unfold bind at 1. rewrite Hres.
    unfold bind at 1. rewrite Hrest. split; [done|]. cbn. lia.
Qed.

Lemma event_post_ids (ids : list string) (ep : list (string * param)) :
  length ids = length ep ->
  pd_id <$> (zip_with (event_post pk dk) ids ep).*2 = ids.
Proof.
  revert ep. induction ids as [|i ids IH]; intros [|e ep] Hlen; try done.
  cbn. f_equal. apply IH. cbn in Hlen. lia.
Qed.

(** C4 (as amended). On a connected session with an object model, for a
    record with at least one declared property key, [post_data] allocates
    one id for the property post and one for every event field (a field
    whose key is a declared event and not a declared property), in this
    order; it publishes exactly one property post, holding all property
    fields, on the property topic, and then exactly one event post per
    event field, each with its own id and, the ids being distinct, on the
    topic of its event; it then awaits all these ids in order; it returns
    when all waits return (which they do when enough timer expiries are to
    come), and it returns [True] exactly when no awaited result is
    [False]. *)
Theorem post_data_messages s (m : CloudObjectModel string) (c : aLiYun) data :
  object_model s = Some m ->
  ali s = Some c ->
  NoDup data.*1 ->
  property_fields m data ≠ [] ->
  is_Some (next numiter) ->
  exists ids s_ids,
    get_ids numiter next (S (length (event_fields m data))) s = (Ok ids, s_ids)
    /\ let pmsg := property_post (hd "" ids)
                     (property_param utime_now <$> property_fields m data) in
       let emsgs := zip_with (event_post pk dk) (tl ids)
                      (event_param utime_now <$> event_fields m data) in
       let et := assign_all (fun msg_id : string => msg_id)
                   ((fun tm => (pd_id tm.2, tm.1)) <$> emsgs) [] in
       let s_pub :=
         set_ali (Some {| sent := sent c
                            ++ (ica_topic_property_post pk dk, pmsg)
                               :: published_events et emsgs.*2 |}) s_ids in
       let awaited := comprehension ids __get_post_res s_pub in
       length emsgs = length (event_fields m data)
       /\ pd_id pmsg :: (pd_id <$> emsgs.*2) = ids
       /\ (NoDup ids -> published_events et emsgs.*2 = emsgs)
       /\ post_data numiter next pk dk utime_now data s
          = (match awaited.1 with
             | Ok pub_res => Ok (if decide (false ∈ pub_res) then false else true)
             | Raise _ => Ok false
             | Blocked => Blocked
             end, awaited.2)
       /\ (forall s',
             post_data numiter next pk dk utime_now data s = (Ok true, s') <->
             exists pub_res, awaited = (Ok pub_res, s')
                             /\ Forall (fun res => res = true) pub_res)
       /\ ((length ids <= timeouts (future s))%nat ->
           exists res s', post_data numiter next pk dk utime_now data s = (Ok res, s')).
Proof.
  intros Hm Hali Hnd Hprops Hfresh.
  destruct (get_ids_total (S (length (event_fields m data))) s Hfresh)
    as (ids & s_ids & Hids).
  exists ids, s_ids. split; [done|]. intros pmsg emsgs et s_pub awaited.
  pose proof Hids as Hids0.
  apply get_ids_succ in Hids0 as (id0 & ids' & s1 & Hid & Hrest & ->).
  destruct (get_ids_frame _ _ _ _ Hids) as [_ [it ->]].
  destruct (get_ids_frame _ _ _ _ Hrest) as [Hlen _].
  cbn [hd tl] in *.
  assert (Hlen' : length ids' = length (event_param utime_now <$> event_fields m data)).
  { by rewrite length_fmap. }
  assert (Hemsgs : length emsgs = length (event_fields m data)).
  { subst emsgs. rewrite length_zip_with, <- Hlen', Hlen. lia. }
  assert (Hmsgids : pd_id <$> emsgs.*2 = ids') by (by apply event_post_ids).
  assert (Hkeys : ((fun tm : string * publish_data => (pd_id tm.2, tm.1)) <$> emsgs).*1
                  = ids').
  { by rewrite <- list_fmap_compose, <- Hmsgids, <- list_fmap_compose. }
  assert (Hrun : post_data numiter next pk dk utime_now data s
                 = (match awaited.1 with
                    | Ok pub_res => Ok (if decide (false ∈ pub_res) then false else true)
                    | Raise _ => Ok false
                    | Blocked => Blocked
                    end, awaited.2)).
  { unfold post_data, try_except. unfold bind at 1. unfold publish_and_await.
    unfold bind at 1. rewrite (data_format_messages s m data _ _ Hm Hnd Hprops Hids).
    cbn [hd tl]. fold pmsg emsgs. unfold with_events.
    cbn [event property msg_ids event_topic app]. fold et.
    unfold bind at 1. rewrite (for_each_publish_property _ c pmsg) by done.
    unfold bind at 1.
    rewrite (for_each_publish_events _
               {| sent := sent c ++ [(ica_topic_property_post pk dk, pmsg)] |}).
    2:{ done. }
    2:{ intros msg Hin. apply dict_get_is_Some. subst et.
        apply assign_all_keys. right.
        apply list_elem_of_fmap in Hin as [[t msg'] [-> Hin]].
        exists (pd_id msg'), t. split; [|done].
        apply list_elem_of_fmap. by exists (t, msg'). }
    rewrite Hmsgids.
    replace (set_ali _ (set_ali _ _)) with s_pub.
    2:{ subst s_pub. unfold set_ali. cbn. by rewrite <- app_assoc. }
    fold awaited. destruct awaited as [[pub_res|e|] s3]; reflexivity. }
  split; [done|]. split; [cbn; by rewrite Hmsgids|]. split; [|split; [done|split]].
  - intros Hnodup. apply NoDup_cons in Hnodup as [_ Hnodup].
    assert (Hown : forall t msg, (t, msg) ∈ emsgs -> dict_get (pd_id msg) et = Some t).
    { intros t msg Hin.
      apply (assign_all_get (fun msg_id : string => msg_id)
               ((fun tm => (pd_id tm.2, tm.1)) <$> emsgs) [] (pd_id msg) t).
      - by rewrite Hkeys.
      - apply list_elem_of_fmap. by exists (t, msg).
      - done. }
    unfold published_events. clear -Hown. generalize dependent et. intros et.
    induction emsgs as [|[t msg] emsgs IH]; intros Hown; [done|].
    cbn. rewrite (Hown t msg) by (by left). cbn. f_equal.
    apply IH. intros t' msg' Hin. apply Hown. by right.
  - intros s'. rewrite Hrun. destruct awaited as [[pub_res|e|] s3]; cbn.
    + split.
      * destruct (decide (false ∈ pub_res)) as [|Hno]; [done|].
        intros [= <-]. exists pub_res. split; [done|].
        apply Forall_forall. intros [] Hin; [done|by destruct Hno].
      * intros (pr & [= <- <-] & Hall).
        destruct (decide (false ∈ pub_res)) as [Hin|]; [|done].
        rewrite Forall_forall in Hall. by specialize (Hall _ Hin).
    + split; [done|]. by intros (? & ? & _).
    + split; [done|]. by intros (? & ? & _).
  - intros Htime. rewrite Hrun.
    destruct (await_all_returns (id0 :: ids') s_pub) as (pub_res & s' & Hawait & _).
    { done. }
    subst awaited. rewrite Hawait. by eexists _, _.
Qed.

End ali_post.

Lemma post_data_messages_witness :
  let s := ali_session ali_model
             [[AliYunIot.PutPostRes "1" true]; [AliYunIot.PutPostRes "2" true]] in
  let data := [("p1", PyInt 10); ("ev1", PyDict [])] in
  AliYunIot.object_model s = Some ali_model
  /\ property_fields ali_model data = [("p1", PyInt 10)]
  /\ event_fields ali_model data = [("ev1", PyDict [])]
  /\ fst (AliYunIot.post_data numiter (numiter_next 99999) "pk" "dk" (fun _ => 1649991780)
            data s) = Ok true.
Proof.
  cbv zeta. split; [reflexivity|]. split; [vm_compute; reflexivity|].
  split; [vm_compute; reflexivity|].
  destruct (post_data_messages numiter (numiter_next 99999) "pk" "dk"
              (fun _ => 1649991780)
              (ali_session ali_model
                 [[AliYunIot.PutPostRes "1" true]; [AliYunIot.PutPostRes "2" true]])
              ali_model {| AliYunIot.sent := [] |}
              [("p1", PyInt 10); ("ev1", PyDict [])])
    as (ids & s_ids & Hids & _ & _ & _ & Hrun & _).
  - reflexivity.
  - reflexivity.
  - apply NoDup_cons. split; [|apply NoDup_singleton].
    intros Hin. apply list_elem_of_singleton in Hin. discriminate.
  - vm_compute. discriminate.
  - by eexists.
  - rewrite Hrun. vm_compute in Hids. injection Hids as <- <-.
    vm_compute. reflexivity.
Defined.

(** C4 as the specification states it fails for a key declared in both
    domains: the record holds the declared property key [p1] and the
    declared event key [x], and the only message published is the
    property post; no event post is made for [x]. *)
Lemma post_data_key_in_both_domains :
  let data := [("p1", PyInt 10); ("x", PyDict [])] in
  let run := AliYunIot.post_data numiter (numiter_next 99999) "pk" "dk"
               (fun _ => 1649991780) data
               (ali_session overlap_model [[AliYunIot.PutPostRes "1" true]]) in
  property_fields overlap_model data = data
  /\ declared_event_fields overlap_model data = [("x", PyDict [])]
  /\ fst run = Ok true
  /\ AliYunIot.ali (snd run)
     = Some {| AliYunIot.sent :=
                 [("/sys/pk/dk/thing/event/property/post",
                   property_post "1"
                     [("p1", {| AliYunIot.value := PyInt 10;
                                AliYunIot.time := 1649991780000 |});
                      ("x", {| AliYunIot.value := PyDict [];
                               AliYunIot.time := 1649991780000 |})])] |}.
Proof. cbv zeta. repeat split; vm_compute; reflexivity. Qed.

(** * Part IV: further properties of the code *)

(** ** Results by message id in AliYunIot *)

Section attribution.
Import AliYunIot.
Context {It : Type}.
Implicit Types (s : @state It) (evs : list async) (f : list (list async)).

Lemma deliver_recorded (k : string) s evs :
  post_res (fold_left deliver evs s) !! k = recorded k (post_res s !! k) evs.
Proof.
  unfold recorded. revert s. induction evs as [|ev evs IH]; intros s; [done|].
  cbn [fold_left]. rewrite IH. f_equal.
  destruct ev as [|id res]; [done|]. cbn.
  destruct (decide (id = k)) as [->|Hne].
  - by rewrite lookup_insert_eq.
  - by rewrite lookup_insert_ne.
Qed.

Lemma recorded_app (k : string) acc evs1 evs2 :
  recorded k acc (evs1 ++ evs2) = recorded k (recorded k acc evs1) evs2.
Proof. unfold recorded. by rewrite fold_left_app. Qed.

Lemma recorded_quiet (k : string) acc evs :
  ~ records k evs -> recorded k acc evs = acc.
Proof.
  unfold recorded. revert acc. induction evs as [|ev evs IH]; intros acc Hno; [done|].
  cbn [fold_left]. rewrite IH.
  - destruct ev as [|id res]; [done|].
    destruct (decide (id = k)) as [->|]; [|done].
    exfalso. apply Hno. exists res. by left.
  - intros [res Hin]. apply Hno. exists res. by right.
Qed.

Lemma recorded_default (k : string) acc evs :
  recorded k acc evs
    = match recorded k None evs with Some r => Some r | None => acc end.
Proof.
  unfold recorded. revert acc. induction evs as [|ev evs IH]; intros acc; [done|].
  cbn [fold_left]. destruct ev as [|id res]; [apply IH|].
  destruct (decide (id = k)); [|apply IH].
  rewrite (IH (Some res)). by destruct (fold_left _ evs None).
Qed.

Lemma recorded_Some (k : string) acc evs r :
  recorded k None evs = Some r -> recorded k acc evs = Some r.
Proof. intros H. by rewrite recorded_default, H. Qed.

Lemma deliver_no_timer s evs :
  TimerCb ∉ evs -> breack_flag (fold_left deliver evs s) = breack_flag s.
Proof.
  revert s. induction evs as [|ev evs IH]; intros s Hno; [done|].
  cbn [fold_left]. rewrite IH.
  - destruct ev; [|done]. exfalso. apply Hno. by left.
  - intros Hin. apply Hno. by right.
Qed.

Lemma poll_loop_found (msg_id : string) f s res :
  post_res s !! msg_id = Some res -> poll_loop msg_id f s = (Ok tt, set_future f s).
Proof. intros H. destruct f; simpl; by rewrite H. Qed.

(** While no result is there and the timer has not expired, the loop
    sleeps on; it ends after the sleep that brings the result. *)
Lemma poll_loop_result (msg_id : string) pre hit rest s r :
  post_res s !! msg_id = None -> breack_flag s = false ->
  Forall (quiet msg_id) pre ->
  recorded msg_id None hit = Some r ->
  poll_loop msg_id (pre ++ hit :: rest) s
    = (Ok tt, set_future rest (fold_left deliver (concat pre ++ hit) s)).
Proof.
  intros Hnone Hflag Hpre Hhit. revert s Hnone Hflag.
  induction Hpre as [|p pre [Htimer Hrec] _ IH]; intros s Hnone Hflag.
  - cbn [app concat poll_loop]. rewrite Hnone, Hflag.
    apply (poll_loop_found _ _ _ r). by rewrite deliver_recorded, Hnone.
  - cbn [app concat poll_loop]. rewrite Hnone, Hflag.
    rewrite <- app_assoc, fold_left_app. apply IH.
    + by rewrite deliver_other.
    + by rewrite deliver_no_timer.
Qed.

Lemma get_post_res_found (msg_id : string) s res :
  post_res s !! msg_id = Some res ->
  __get_post_res msg_id s
    = (Ok res, set_post_res (delete msg_id (post_res s)) (set_breack_flag false s)).
Proof.
  intros H. unfold __get_post_res, bind, modify.
  rewrite (poll_loop_found _ _ _ res H). cbn. by rewrite H.
Qed.

Lemma get_post_res_result (msg_id : string) pre hit rest s r :
  post_res s !! msg_id = None -> breack_flag s = false ->
  future s = pre ++ hit :: rest ->
  Forall (quiet msg_id) pre ->
  recorded msg_id None hit = Some r ->
  let s1 := fold_left deliver (concat pre ++ hit) s in
  __get_post_res msg_id s
    = (Ok r, set_post_res (delete msg_id (post_res s1))
               (set_breack_flag false (set_future rest s1))).
Proof.
  intros Hnone Hflag Hfut Hpre Hhit s1.
  unfold __get_post_res, bind, modify.
  rewrite Hfut, (poll_loop_result msg_id pre hit rest s r) by done.
  fold s1. cbn.
  assert (Hres : post_res s1 !! msg_id = Some r).
  { subst s1. rewrite deliver_recorded, recorded_app.
    by apply recorded_Some. }
  by rewrite Hres.
Qed.

(** X1. A result recorded before the wait begins is returned at once:
    [__get_post_res] after [__put_post_res] for the same id returns the
    result put, without a sleep (the events to come are all still to
    come), removes the entry and leaves the flag lowered. *)
Theorem get_post_res_after_put (msg_id : string) (res : bool) s :
  __get_post_res msg_id (__put_post_res msg_id res s)
    = (Ok res, set_post_res (delete msg_id (post_res s)) (set_breack_flag false s)).
Proof.
  rewrite (get_post_res_found _ _ res).
  - f_equal. unfold set_post_res, set_breack_flag, __put_post_res. cbn.
    by rewrite delete_insert_eq.
  - cbn. apply lookup_insert_eq.
Qed.

(** X2. A result that arrives during the wait is the one returned.  When
    no result for [msg_id] is there at the call, the flag is down, the
    sleeps [pre] bring neither a result for [msg_id] nor the expiry of
    the timer, and the sleep [hit] brings a result for [msg_id], the last
    one being [r], then [__get_post_res] returns [r] after that sleep
    (even when the timer expires during it).  Afterwards no entry is left
    for [msg_id], the flag is down, and the results that arrived for
    other ids meanwhile are all kept. *)
Theorem get_post_res_returns_arrived_result (msg_id : string) pre hit rest s r :
  post_res s !! msg_id = None -> breack_flag s = false ->
  future s = pre ++ hit :: rest ->
  Forall (quiet msg_id) pre ->
  recorded msg_id None hit = Some r ->
  exists s',
    __get_post_res msg_id s = (Ok r, s')
    /\ future s' = rest
    /\ post_res s' !! msg_id = None
    /\ breack_flag s' = false
    /\ forall k, k ≠ msg_id ->
         post_res s' !! k = recorded k (post_res s !! k) (concat pre ++ hit).
Proof.
  intros Hnone Hflag Hfut Hpre Hhit.
  rewrite (get_post_res_result msg_id pre hit rest s r) by done.
  eexists. split; [done|]. cbn. split; [done|]. split; [apply lookup_delete_eq|].
  split; [done|]. intros k Hk.
  rewrite lookup_delete_ne by done. apply deliver_recorded.
Qed.

(** X3. Results are attributed by id, not by order of arrival.  Two
    requests [id1] and [id2] are awaited in this order; the result for
    [id1] arrives during the sleep [hit], the last one being [r1], and
    the last result for [id2] that arrives up to and including that
    sleep is [r2], before or after that of [id1].  Then the first wait
    returns [r1] and the second [r2], the second without a further
    sleep. *)
Theorem results_attributed_by_id (id1 id2 : string) pre hit rest s r1 r2 :
  id1 ≠ id2 ->
  post_res s !! id1 = None -> post_res s !! id2 = None -> breack_flag s = false ->
  future s = pre ++ hit :: rest ->
  Forall (quiet id1) pre ->
  recorded id1 None hit = Some r1 ->
  recorded id2 None (concat pre ++ hit) = Some r2 ->
  exists s',
    comprehension [id1; id2] __get_post_res s = (Ok [r1; r2], s')
    /\ future s' = rest.
Proof.
  intros Hne Hnone1 Hnone2 Hflag Hfut Hpre Hhit1 Hhit2.
  cbn [comprehension]. unfold bind at 1.
  rewrite (get_post_res_result id1 pre hit rest s r1) by done.
  unfold bind at 1. unfold bind at 1.
  rewrite (get_post_res_found id2 _ r2).
  - eexists. split; [done|]. done.
  - cbn. rewrite lookup_delete_ne by done.
    by rewrite deliver_recorded, Hnone2.
Qed.

End attribution.

Lemma get_post_res_returns_arrived_result_witness :
  let s := AliYunIot.set_future
             [[AliYunIot.PutPostRes "7" true];
              [AliYunIot.TimerCb; AliYunIot.PutPostRes "1" true]; []] fresh_session in
  exists s',
    AliYunIot.__get_post_res "1" s = (Ok true, s')
    /\ AliYunIot.future s' = [[]]
    /\ AliYunIot.post_res s' !! "7" = Some true.
Proof.
  cbv zeta.
  destruct (get_post_res_returns_arrived_result "1" [[AliYunIot.PutPostRes "7" true]]
              [AliYunIot.TimerCb; AliYunIot.PutPostRes "1" true] [[]]
              (AliYunIot.set_future
                 [[AliYunIot.PutPostRes "7" true];
                  [AliYunIot.TimerCb; AliYunIot.PutPostRes "1" true]; []] fresh_session)
              true) as (s' & Hrun & Hfut & _ & _ & Hkept).
  - reflexivity.
  - reflexivity.
  - reflexivity.
  - constructor; [|constructor]. split.
    + intros Hin. apply list_elem_of_singleton in Hin. discriminate.
    + intros [res Hin]. apply list_elem_of_singleton in Hin. discriminate.
  - reflexivity.
  - exists s'. split; [exact Hrun|]. split; [exact Hfut|].
    rewrite Hkept by discriminate. reflexivity.
Defined.

Lemma results_attributed_by_id_witness :
  let s := AliYunIot.set_future
             [[AliYunIot.PutPostRes "2" false; AliYunIot.PutPostRes "1" true]]
             fresh_session in
  exists s',
    comprehension ["1"; "2"] AliYunIot.__get_post_res s = (Ok [true; false], s')
    /\ AliYunIot.future s' = [].
Proof.
  cbv zeta.
  apply (results_attributed_by_id "1" "2" []
           [AliYunIot.PutPostRes "2" false; AliYunIot.PutPostRes "1" true] []).
  - discriminate.
  - reflexivity.
  - reflexivity.
  - reflexivity.
  - reflexivity.
  - constructor.
  - reflexivity.
  - reflexivity.
Defined.

(** ** Edge cases of posting with AliYunIot *)

Section ali_post_edges.
Import AliYunIot.
Context {It : Type} (numiter : It) (next : It -> option (Z * It)).
Variables pk dk : string.
Variable utime_now : string -> Z.
Implicit Types (s : @state It) (data : list (string * pyval)).

Lemma format_params_undeclared s (m : CloudObjectModel string) data pp ep :
  object_model s = Some m ->
  (forall k, k ∈ data.*1 ->
     items m properties !! k = None /\ items m events !! k = None) ->
  format_params utime_now data pp ep s = (Ok (pp, ep), s).
Proof.
  intros Hm. induction data as [|[k v] data IH]; intros Hnone; [done|].
  cbn [format_params]. unfold bind at 1, object_model_items. rewrite Hm.
  destruct (Hnone k) as [-> ->]; [cbn; by left|].
  apply IH. intros k' Hk'. apply Hnone. cbn. by right.
Qed.

(** X4. A record without any declared key is posted "successfully"
    without anything being done: on a session with an object model,
    connected or not, [post_data] returns [True] and leaves the session
    as it was; no id is drawn, nothing is published, nothing awaited. *)
Theorem post_data_nothing_declared s (m : CloudObjectModel string) data :
  object_model s = Some m ->
  (forall k, k ∈ data.*1 ->
     items m properties !! k = None /\ items m events !! k = None) ->
  post_data numiter next pk dk utime_now data s = (Ok true, s).
Proof.
  intros Hm Hnone.
  unfold post_data, try_except, publish_and_await, __data_format.
  unfold bind at 1. unfold bind at 1. unfold bind at 1.
  by rewrite (format_params_undeclared s m data [] [] Hm Hnone).
Qed.

(** X5. Without an object model, [post_data] returns [False] for every
    record that holds a key, and [True] for the empty record; the session
    is left as it was. *)
Theorem post_data_without_model s data :
  object_model s = None ->
  post_data numiter next pk dk utime_now data s
    = (Ok (match data with [] => true | _ => false end), s).
Proof.
  intros Hm. destruct data as [|[k v] data]; [done|].
  unfold post_data, try_except, publish_and_await, __data_format.
  unfold bind at 1. unfold bind at 1. unfold bind at 1.
  cbn [format_params]. unfold bind at 1, object_model_items. by rewrite Hm.
Qed.

Lemma data_format_total s (m : CloudObjectModel string) data :
  object_model s = Some m ->
  NoDup data.*1 ->
  is_Some (next numiter) ->
  exists res ids s',
    __data_format numiter next pk dk utime_now data s = (Ok res, s')
    /\ get_ids numiter next
         (match property_fields m data with [] => 0 | _ => 1 end
          + length (event_fields m data))%nat s = (Ok ids, s')
    /\ length (property res)
       = match property_fields m data with [] => 0%nat | _ => 1%nat end
    /\ length (event res) = length (event_fields m data).
Proof.
  intros Hm Hnd Hfresh.
  destruct (property_fields m data) as [|p0 ps] eqn:Hprops.
  - destruct (get_ids_total numiter next (length (event_fields m data)) s Hfresh)
      as (ids & s' & Hids).
    eexists _, ids, s'. split; [|split; [exact Hids|]].
    + unfold __data_format. unfold bind at 1.
      rewrite (format_params_fields utime_now s m data [] [] Hm Hnd).
      2:{ intros k _. split; by intros ?%elem_of_nil. }
      rewrite Hprops. cbn [app fmap list_fmap fst snd].
      unfold bind at 1. unfold ret at 1.
      apply (format_events_messages numiter next pk dk). by rewrite length_fmap.
    + destruct (get_ids_frame _ _ _ _ _ _ Hids) as [Hlen _].
      unfold with_events. cbn. split; [done|].
      rewrite length_fmap, length_zip_with, length_fmap, Hlen. lia.
  - destruct (get_ids_total numiter next (S (length (event_fields m data))) s Hfresh)
      as (ids & s' & Hids).
    eexists _, ids, s'. split; [|split; [exact Hids|]].
    + apply (data_format_messages numiter next pk dk utime_now s m data ids s');
        [done..| |done]. by rewrite Hprops.
    + destruct (get_ids_frame _ _ _ _ _ _ Hids) as [Hlen _].
      unfold with_events. cbn. split; [done|].
      rewrite length_fmap, length_zip_with, length_fmap.
      destruct ids as [|id0 ids]; cbn in *; lia.
Qed.

(** X6. On a session that is not connected, a record with at least one
    declared key is not posted: [post_data] returns [False] without
    waiting.  The ids of the messages it would have sent are drawn all
    the same, one for the property fields and one for each event field;
    nothing else of the session changes. *)
Theorem post_data_not_connected s (m : CloudObjectModel string) data :
  ali s = None ->
  object_model s = Some m ->
  NoDup data.*1 ->
  property_fields m data ≠ [] \/ event_fields m data ≠ [] ->
  is_Some (next numiter) ->
  exists ids it,
    post_data numiter next pk dk utime_now data s = (Ok false, set_id_iter it s)
    /\ get_ids numiter next
         (match property_fields m data with [] => 0 | _ => 1 end
          + length (event_fields m data))%nat s = (Ok ids, set_id_iter it s).
Proof.
  intros Hali Hm Hnd Hsome Hfresh.
  destruct (data_format_total s m data Hm Hnd Hfresh)
    as (res & ids & s' & Hfmt & Hids & Hplen & Helen).
  destruct (get_ids_frame _ _ _ _ _ _ Hids) as [_ [it ->]].
  exists ids, it. split; [|done].
  unfold post_data, try_except, publish_and_await.
  unfold bind at 1. unfold bind at 1. rewrite Hfmt.
  destruct (property res) as [|pmsg pmsgs] eqn:Hp.
  - destruct (event res) as [|emsg emsgs] eqn:He.
    { exfalso. cbn in Hplen, Helen.
      destruct (property_fields m data); [|done].
      destruct (event_fields m data); [|done]. by destruct Hsome. }
    unfold bind at 1. cbn [for_each]. unfold ret at 1.
    unfold bind at 1. unfold bind at 1.
    destruct (dict_get (pd_id emsg) (event_topic res)) as [topic|].
    + unfold publish. cbn. by rewrite Hali.
    + done.
  - unfold bind at 1. cbn [for_each]. unfold bind at 1.
    unfold publish at 1. cbn. by rewrite Hali.
Qed.

End ali_post_edges.

Lemma post_data_nothing_declared_witness :
  AliYunIot.post_data numiter (numiter_next 99999) "pk" "dk" (fun _ => 1649991780)
    [("unknown", PyInt 1)] (ali_session ali_model [])
  = (Ok true, ali_session ali_model []).
Proof.
  apply (post_data_nothing_declared numiter (numiter_next 99999) "pk" "dk"
           (fun _ => 1649991780) (ali_session ali_model []) ali_model).
  - reflexivity.
  - intros k Hin. cbn in Hin. apply list_elem_of_singleton in Hin. subst k.
    split; vm_compute; reflexivity.
Defined.

Lemma post_data_without_model_witness :
  AliYunIot.post_data numiter (numiter_next 99999) "pk" "dk" (fun _ => 1649991780)
    [("p1", PyInt 10)] fresh_session
  = (Ok false, fresh_session).
Proof.
  apply (post_data_without_model numiter (numiter_next 99999) "pk" "dk"
           (fun _ => 1649991780) fresh_session [("p1", PyInt 10)]).
  reflexivity.
Defined.

Lemma post_data_not_connected_witness :
  let s := AliYunIot.set_ali None (ali_session ali_model []) in
  exists ids it,
    AliYunIot.post_data numiter (numiter_next 99999) "pk" "dk" (fun _ => 1649991780)
      [("p1", PyInt 10); ("ev1", PyDict [])] s
    = (Ok false, AliYunIot.set_id_iter it s)
    /\ ids = ["1"; "2"].
Proof.
  cbv zeta.
  destruct (post_data_not_connected numiter (numiter_next 99999) "pk" "dk"
              (fun _ => 1649991780)
              (AliYunIot.set_ali None (ali_session ali_model [])) ali_model
              [("p1", PyInt 10); ("ev1", PyDict [])])
    as (ids & it & Hrun & Hids).
  - reflexivity.
  - reflexivity.
  - apply NoDup_cons. split; [|apply NoDup_singleton].
    intros Hin. apply list_elem_of_singleton in Hin. discriminate.
  - left. vm_compute. discriminate.
  - by eexists.
  - exists ids, it. split; [exact Hrun|].
    vm_compute in Hids. by injection Hids as <- _.
Defined.

(** ** Edge cases of posting with QuecThing *)

Section quec_post_edges.
Import QuecThing.
Variable platform : list call -> call -> bool.
Implicit Types (s : state) (data : list (string * pyval)).

Lemma post_data_loop_skipped s (m : QuecObjectModel.t) skip rest (res : bool) :
  object_model s = Some m ->
  Forall (skipped m) skip ->
  post_data_loop platform (skip ++ rest) res s = post_data_loop platform rest res s.
Proof.
  intros Hm Hskip. induction Hskip as [|[k v] skip Hkv _ IH]; [done|].
  cbn [app post_data_loop]. unfold bind at 1.
  rewrite (data_format_declared s m k v Hm).
  unfold skipped in Hkv. cbn [fst snd] in Hkv.
  destruct (declared (QuecObjectModel.om m) k) as [it|].
  - by subst v.
  - destruct Hkv as [Hgps Hnon].
    by rewrite (decide_False _ _ Hgps), (decide_False _ _ Hnon).
Qed.

Lemma post_data_loop_report s (m : QuecObjectModel.t) k v (it : om_item Z) rest (res : bool) :
  object_model s = Some m ->
  declared (QuecObjectModel.om m) k = Some it ->
  v ≠ PyNone ->
  post_data_loop platform ((k, v) :: rest) res s
    = (let* accepted := invoke platform (PhymodelReport (item_id it) (wire_form it v)) in
       if accepted
       then let* res := __get_post_res in
            if res then post_data_loop platform rest res else ret false
       else ret false) s.
Proof.
  intros Hm Hit Hv. cbn [post_data_loop]. unfold bind at 1.
  rewrite (data_format_declared s m k v Hm), Hit.
  by destruct v.
Qed.

(** X7. A record that holds only entries [post_data] passes over
    (declared keys with the value [None], and keys that are neither
    declared nor [gps] nor [non_gps]) is posted "successfully" without a
    single call to the platform and without a wait: the result is [True]
    and nothing of the object changes. *)
Theorem quec_post_data_skips_entries s (m : QuecObjectModel.t) data :
  object_model s = Some m ->
  Forall (skipped m) data ->
  post_data platform data s = (Ok (true, __rm_empty_data data), s).
Proof.
  intros Hm Hskip. unfold post_data. unfold bind at 1.
  rewrite <- (app_nil_r data) at 1.
  by rewrite (post_data_loop_skipped s m data [] true Hm Hskip).
Qed.

(** X8. [post_data] stops at the first report the platform refuses: when
    the entries before [(k, v)] are passed over, [k] is declared, [v] is
    not [None] and [phymodelReport] returns a false value, the result is
    [False], the refused report is the only call made, no result is
    waited for, and the entries behind [(k, v)] are not looked at. *)
Theorem quec_post_data_stops_at_refusal s (m : QuecObjectModel.t) skip k v
    (it : om_item Z) rest :
  object_model s = Some m ->
  Forall (skipped m) skip ->
  declared (QuecObjectModel.om m) k = Some it ->
  v ≠ PyNone ->
  platform (log s) (PhymodelReport (item_id it) (wire_form it v)) = false ->
  post_data platform (skip ++ (k, v) :: rest) s
    = (Ok (false, __rm_empty_data (skip ++ (k, v) :: rest)),
       add_log (PhymodelReport (item_id it) (wire_form it v)) s).
Proof.
  intros Hm Hskip Hit Hv Hrefused. unfold post_data. unfold bind at 1.
  rewrite (post_data_loop_skipped s m skip _ true Hm Hskip).
  rewrite (post_data_loop_report s m k v it rest true Hm Hit Hv).
  unfold bind at 1, invoke at 1. by rewrite Hrefused.
Qed.

Lemma blocking_get_buffered (r : bool) (q : list bool) (f : list async) :
  blocking_get (r :: q) f = (Ok r, q, f).
Proof. by destruct f. Qed.

(** X9. The wait after a report takes the oldest result in the buffer,
    whatever report it came from: when a result [r] is still buffered at
    the call, [post_data] of one declared entry that the platform accepts
    returns [r], takes it from the buffer, and consumes none of the
    events still to come, so the result of the report just made is
    left for a later wait. *)
Theorem quec_post_data_takes_buffered_result s (m : QuecObjectModel.t) k v
    (it : om_item Z) (r : bool) (q : list bool) :
  object_model s = Some m ->
  declared (QuecObjectModel.om m) k = Some it ->
  v ≠ PyNone ->
  platform (log s) (PhymodelReport (item_id it) (wire_form it v)) = true ->
  post_result_wait_queue s = r :: q ->
  post_data platform [(k, v)] s
    = (Ok (r, __rm_empty_data [(k, v)]),
       set_queue q (add_log (PhymodelReport (item_id it) (wire_form it v)) s)).
Proof.
  intros Hm Hit Hv Haccepted Hq. unfold post_data. unfold bind at 1.
  rewrite (post_data_loop_report s m k v it [] true Hm Hit Hv).
  unfold bind at 1, invoke at 1. rewrite Haccepted.
  unfold bind at 1, __get_post_res at 1. cbn. rewrite Hq, blocking_get_buffered.
  by destruct r.
Qed.

End quec_post_edges.

Lemma quec_post_data_skips_entries_witness :
  QuecThing.post_data (fun _ _ => true) [("energy", PyNone); ("unknown", PyInt 1)]
    (quec_thing [] [])
  = (Ok (true, [("unknown", PyInt 1)]), quec_thing [] []).
Proof.
  apply (quec_post_data_skips_entries (fun _ _ => true) (quec_thing [] []) quec_model).
  - reflexivity.
  - constructor; [vm_compute; reflexivity|].
    constructor; [|constructor].
    unfold skipped. replace (declared _ _) with (@None (om_item Z)) by (vm_compute; reflexivity).
    split; discriminate.
Defined.

Lemma quec_post_data_stops_at_refusal_witness :
  QuecThing.log
    (snd (QuecThing.post_data (fun _ _ => false)
            [("unknown", PyInt 1); ("energy", PyInt 100); ("sos_alert", PyInt 1)]
            (quec_thing [] [])))
  = [QuecThing.PhymodelReport 4 (QuecThing.WireRaw (PyInt 100))].
Proof.
  change [("unknown", PyInt 1); ("energy", PyInt 100); ("sos_alert", PyInt 1)]
    with ([("unknown", PyInt 1)] ++ ("energy", PyInt 100) :: [("sos_alert", PyInt 1)]).
  rewrite (quec_post_data_stops_at_refusal (fun _ _ => false) (quec_thing [] []) quec_model
             [("unknown", PyInt 1)] "energy" (PyInt 100)
             {| item_name := "energy"; item_id := 4; item_perm := "rw"; struct_info := ∅ |}
             [("sos_alert", PyInt 1)]).
  - reflexivity.
  - reflexivity.
  - constructor; [|constructor].
    unfold skipped. replace (declared _ _) with (@None (om_item Z)) by (vm_compute; reflexivity).
    split; discriminate.
  - vm_compute. reflexivity.
  - discriminate.
  - reflexivity.
Defined.

Lemma quec_post_data_takes_buffered_result_witness :
  QuecThing.post_data (fun _ _ => true) [("energy", PyInt 100)]
    (quec_thing [false] [QuecThing.PutPostRes true])
  = (Ok (false, [("energy", PyInt 100)]),
     QuecThing.set_queue []
       (QuecThing.add_log (QuecThing.PhymodelReport 4 (QuecThing.WireRaw (PyInt 100)))
          (quec_thing [false] [QuecThing.PutPostRes true]))).
Proof.
  apply (quec_post_data_takes_buffered_result (fun _ _ => true)
           (quec_thing [false] [QuecThing.PutPostRes true]) quec_model
           "energy" (PyInt 100)
           {| item_name := "energy"; item_id := 4; item_perm := "rw"; struct_info := ∅ |}
           false []).
  - reflexivity.
  - vm_compute. reflexivity.
  - discriminate.
  - reflexivity.
  - reflexivity.
Defined.

(** ** The buffer of QuecThing as a ring *)

Lemma put_post_res_drop {A} (res : A) (q : list A) :
  (length q <= 16)%nat ->
  QuecThing.__put_post_res res q = drop (length (q ++ [res]) - 16) (q ++ [res]).
Proof.
  intros Hq. rewrite length_app. cbn [length].
  destruct (decide (length q = 16%nat)) as [Hfull|Hless].
  - destruct (put_post_res_full res q Hfull) as (oldest & q' & -> & ->).
    rewrite Hfull. by cbn.
  - unfold QuecThing.__put_post_res, QuecThing.queue_put, QuecThing.queue_get,
      QuecThing.maxsize.
    destruct (16 <=? length q)%nat eqn:Hfull; [apply Nat.leb_le in Hfull; lia|].
    destruct (length q <? 16)%nat eqn:Hlt; [|apply Nat.ltb_ge in Hlt; lia].
    replace (length q + 1 - 16)%nat with 0%nat by lia. done.
Qed.

(** X10. The pending-result buffer holds the 16 most recent results, oldest
    first: after the results [rs] have been put into a buffer [q] of at
    most 16 entries, one after the other, the buffer holds the last 16
    entries of [q] followed by [rs] (all of them when there are no more
    than 16). *)
Theorem put_post_res_keeps_most_recent {A} (rs q : list A) :
  (length q <= 16)%nat ->
  put_all rs q = drop (length (q ++ rs) - 16) (q ++ rs).
Proof.
  unfold put_all. revert q. induction rs as [|res rs IH]; intros q Hq.
  - cbn. rewrite app_nil_r. replace (length q - 16)%nat with 0%nat by lia. done.
  - cbn [fold_left]. rewrite IH by (by apply put_post_res_length).
    rewrite put_post_res_drop by done.
    replace (q ++ res :: rs) with ((q ++ [res]) ++ rs) by (by rewrite <- app_assoc).
    remember (q ++ [res]) as q1 eqn:Hq1.
    assert (Hlen : (length q1 <= 17)%nat).
    { subst q1. rewrite length_app. cbn. lia. }
    rewrite <- (drop_app_le q1 rs (length q1 - 16)) by lia.
    rewrite drop_drop. f_equal. rewrite length_drop, !length_app. lia.
Qed.

Lemma put_post_res_keeps_most_recent_witness :
  put_all (true :: replicate 16 false) [true] = replicate 16 false.
Proof.
  rewrite (put_post_res_keeps_most_recent (true :: replicate 16 false) [true]).
  - reflexivity.
  - cbn. lia.
Defined.

(** ** The reverse mapping of QuecObjectModel *)

Section quec_reverse_mapping.
Import QuecObjectModel QuecObjectModelDelete.

(** X11. [set_item] succeeds, gives the key the id, and maps the id back
    to the key; every other entry of [items_id] stays as it is.  So when
    a key is registered again with another id, its old id still leads
    back to it, although the item now carries the new id. *)
Theorem set_item_reverse_mapping (ty : om_type) (k : string) (i : Z) (p : string) (m : t) :
  let m' := (set_item ty k i p m).2 in
  (set_item ty k i p m).1 = true
  /\ (exists it, items (om m') ty !! k = Some it /\ item_id it = i)
  /\ items_id m' !! i = Some k
  /\ (forall j, j ≠ i -> items_id m' !! j = items_id m !! j)
  /\ (forall i0 p0, i0 ≠ i ->
        let m0 := (set_item ty k i0 p0 m).2 in
        let m1 := (set_item ty k i p m0).2 in
        items_id m1 !! i0 = Some k
        /\ exists it, items (om m1) ty !! k = Some it /\ item_id it = i).
Proof.
  cbn. split; [done|]. split; [|split; [|split]].
  - eexists. rewrite decide_True by done. by rewrite lookup_insert_eq.
  - apply lookup_insert_eq.
  - intros j Hj. by rewrite lookup_insert_ne.
  - intros i0 p0 Hne. split.
    + rewrite lookup_insert_ne by done. apply lookup_insert_eq.
    + eexists. rewrite decide_True by done. by rewrite lookup_insert_eq.
Qed.

(** X12. On a model built by registrations, [__del_items_id] does not
    raise: for a declared key it removes the reverse mapping of the id
    the key carries and no other; for a key that is not declared it
    changes nothing.  The items are left as they are. *)
Theorem del_items_id_registered (rs : list registration) (ty : om_type) (k : string) :
  let m := registered rs in
  match items (om m) ty !! k with
  | Some it =>
      exists m',
        __del_items_id ty k m = (Ok true, m')
        /\ om m' = om m
        /\ items_id m' !! item_id it = None
        /\ forall j, j ≠ item_id it -> items_id m' !! j = items_id m !! j
  | None => __del_items_id ty k m = (Ok true, m)
  end.
Proof.
  intros m. destruct (registered_sound rs) as [Hitems _]. fold m in Hitems.
  unfold __del_items_id.
  destruct (items (om m) ty !! k) as [it|] eqn:Hit; [|done].
  destruct (Hitems _ _ _ Hit) as [_ [k' Hk']]. rewrite Hk'.
  eexists. split; [done|]. cbn. split; [done|]. split.
  - apply lookup_delete_eq.
  - intros j Hj. by rewrite lookup_delete_ne.
Qed.

(** X13. [del_item] looks the id up after the inherited [del_item] has
    run.  So whenever the inherited method reports success and has
    removed the item, [del_item] returns [True] and the reverse mapping
    is left exactly as it was: the id of the deleted key still leads
    back to it. *)
Theorem del_item_keeps_reverse_mapping
    (super_del_item : om_type -> string -> CloudObjectModel Z -> bool * CloudObjectModel Z)
    (ty : om_type) (k : string) (m : t) (base : CloudObjectModel Z) :
  super_del_item ty k (om m) = (true, base) ->
  items base ty !! k = None ->
  del_item super_del_item ty k m = (Ok true, {| om := base; items_id := items_id m |}).
Proof.
  intros Hsuper Hgone. unfold del_item. rewrite Hsuper.
  unfold bind, __del_items_id. cbn. by rewrite Hgone.
Qed.

End quec_reverse_mapping.

Lemma del_item_keeps_reverse_mapping_witness :
  let remove := fun (ty : om_type) (k : string) (b : CloudObjectModel Z) =>
    (true, {| items := fun t => if decide (t = ty) then delete k (items b t)
                                 else items b t |}) in
  exists m',
    QuecObjectModelDelete.del_item remove properties "energy" quec_model = (Ok true, m')
    /\ items (QuecObjectModel.om m') properties !! "energy" = None
    /\ QuecObjectModel.items_id m' !! 4 = Some "energy".
Proof.
  cbv zeta. eexists. split; [|split].
  - apply (del_item_keeps_reverse_mapping _ properties "energy" quec_model).
    + reflexivity.
    + vm_compute. reflexivity.
  - vm_compute. reflexivity.
  - vm_compute. reflexivity.
Defined.

(** ** The header fields of an archive entry in AliOTA *)

Section header_fields.

Lemma list_byte_of_string_cons (c : ascii) (s : string) :
  list_byte_of_string (String c s) = byte_of_ascii c :: list_byte_of_string s.
Proof. reflexivity. Qed.

Lemma length_list_byte_of_string (s : string) :
  length (list_byte_of_string s) = String.length s.
Proof.
  induction s as [|c s IH]; [done|].
  rewrite list_byte_of_string_cons. cbn. by rewrite IH.
Qed.

Lemma byte_of_ascii_to_N (c : ascii) : Byte.to_N (byte_of_ascii c) = N_of_ascii c.
Proof. apply Byte.to_of_N. symmetry. apply byte_of_ascii_via_N. Qed.

Lemma decode_ascii_app (l1 l2 : list Byte.byte) (s1 s2 : string) :
  decode_ascii l1 = Ok s1 -> decode_ascii l2 = Ok s2 ->
  decode_ascii (l1 ++ l2) = Ok (s1 +:+ s2).
Proof.
  revert s1. induction l1 as [|b l1 IH]; intros s1 H1 H2.
  - cbn in H1. by injection H1 as <-.
  - cbn [app decode_ascii] in *.
    destruct (128 <=? Z.of_N (Byte.to_N b)); [done|].
    destruct (decode_ascii l1) as [s1'| |] eqn:Hl1; [|done..].
    cbn in H1. injection H1 as <-.
    by rewrite (IH s1' eq_refl H2).
Qed.

Lemma decode_ascii_string (s : string) :
  Forall (fun c => (nat_of_ascii c < 128)%nat) (list_ascii_of_string s) ->
  decode_ascii (list_byte_of_string s) = Ok s.
Proof.
  induction s as [|c s IH]; intros Hs; [done|].
  cbn [list_ascii_of_string] in Hs. apply Forall_cons in Hs as [Hc Hs].
  rewrite list_byte_of_string_cons. cbn [decode_ascii].
  rewrite byte_of_ascii_to_N.
  destruct (128 <=? Z.of_N (N_of_ascii c)) eqn:Hbig.
  - apply Z.leb_le in Hbig. unfold nat_of_ascii in Hc. lia.
  - rewrite (IH Hs). cbn. by rewrite ascii_of_byte_of_ascii.
Qed.

Lemma decode_ascii_nuls (k : nat) : decode_ascii (replicate k Byte.x00) = Ok (nuls k).
Proof. induction k as [|k IH]; [done|]. cbn [replicate decode_ascii nuls]. by rewrite IH. Qed.

Lemma rstrip_nul_nuls (s : string) (k : nat) : rstrip_nul (s +:+ nuls k) = rstrip_nul s.
Proof.
  induction s as [|c s IH].
  - change ("" +:+ nuls k) with (nuls k).
    induction k as [|k IHk]; [done|]. cbn [nuls rstrip_nul]. by rewrite IHk.
  - change (String c s +:+ nuls k) with (String c (s +:+ nuls k)).
    cbn [rstrip_nul]. by rewrite IH.
Qed.

Lemma rstrip_nul_plain (s : string) :
  Forall (fun c => (0 < nat_of_ascii c)%nat) (list_ascii_of_string s) ->
  rstrip_nul s = s.
Proof.
  induction s as [|c s IH]; intros Hs; [done|].
  cbn [list_ascii_of_string] in Hs. apply Forall_cons in Hs as [Hc Hs].
  cbn [rstrip_nul]. rewrite (IH Hs). destruct s as [|c' s]; [|done].
  destruct (Ascii.eqb c zero) eqn:Hz; [|done].
  apply Ascii.eqb_eq in Hz. subst c. compute in Hc. lia.
Qed.

(** The name field of a header decodes to the name it was written from:
    for a name of ASCII characters other than NUL, followed by any number
    of NUL bytes, [__get_file_name] returns the name. *)
Lemma get_file_name_field (name : string) (k : nat) :
  Forall (fun c => (0 < nat_of_ascii c < 128)%nat) (list_ascii_of_string name) ->
  AliOTA.__get_file_name (list_byte_of_string name ++ replicate k Byte.x00) = Ok name.
Proof.
  intros Hname. unfold AliOTA.__get_file_name.
  rewrite (decode_ascii_app _ _ name (nuls k)).
  - cbn. rewrite rstrip_nul_nuls, rstrip_nul_plain; [done|].
    eapply Forall_impl; [exact Hname|]. cbn. lia.
  - apply decode_ascii_string. eapply Forall_impl; [exact Hname|]. cbn. lia.
  - apply decode_ascii_nuls.
Qed.

Ltac octal_cases H :=
  destruct H as [<-|[<-|[<-|[<-|[<-|[<-|[<-|[<-|[]]]]]]]]].

Lemma octal_char_cases (d : Z) :
  0 <= d < 8 ->
  In (octal_char d) ["0"; "1"; "2"; "3"; "4"; "5"; "6"; "7"]%char
  /\ octal_digit (octal_char d) = Some d.
Proof.
  intros Hd.
  assert (Hcases : d = 0 \/ d = 1 \/ d = 2 \/ d = 3 \/ d = 4 \/ d = 5 \/ d = 6 \/ d = 7)
    by lia.
  destruct Hcases as [->|[->|[->|[->|[->|[->|[->| ->]]]]]]];
    (split; [cbn; tauto|reflexivity]).
Qed.

Lemma octal_field_acc_chars (w : nat) (n : Z) (acc : string) :
  octal_chars acc -> octal_chars (octal_field_acc w n acc).
Proof.
  revert n acc. induction w as [|w IH]; intros n acc Hacc; [done|].
  cbn [octal_field_acc]. apply IH. unfold octal_chars in *.
  cbn [list_ascii_of_string]. constructor; [|done].
  apply octal_char_cases. apply Z.mod_pos_bound. lia.
Qed.

Lemma octal_field_acc_length (w : nat) (n : Z) (acc : string) :
  String.length (octal_field_acc w n acc) = (w + String.length acc)%nat.
Proof.
  revert n acc. induction w as [|w IH]; intros n acc; [done|].
  cbn [octal_field_acc]. rewrite IH. cbn. lia.
Qed.

Lemma octal_digits_field (w : nat) (n a : Z) (rest : string) :
  octal_digits a (octal_field_acc w n rest)
    = octal_digits (a * 8 ^ Z.of_nat w + n mod 8 ^ Z.of_nat w) rest.
Proof.
  revert n rest. induction w as [|w IH]; intros n rest.
  - cbn [octal_field_acc]. f_equal. rewrite Z.pow_0_r, Z.mod_1_r. lia.
  - cbn [octal_field_acc]. rewrite IH. cbn [octal_digits].
    destruct (octal_char_cases (n mod 8)) as [_ ->]; [apply Z.mod_pos_bound; lia|].
    f_equal. rewrite Nat2Z.inj_succ, Z.pow_succ_r by lia.
    rewrite (Z.rem_mul_r n 8 (8 ^ Z.of_nat w)) by lia. lia.
Qed.

Lemma rstrip_space_octal (s : string) : octal_chars s -> rstrip_space s = s.
Proof.
  unfold octal_chars. induction s as [|c s IH]; intros Hs; [done|].
  cbn [list_ascii_of_string] in Hs. apply Forall_cons in Hs as [Hc Hs].
  cbn [rstrip_space]. rewrite (IH Hs). destruct s as [|c' s]; [|done].
  octal_cases Hc; reflexivity.
Qed.

Lemma octal_chars_nul_free (s : string) :
  octal_chars s ->
  Forall (fun c => (0 < nat_of_ascii c < 128)%nat) (list_ascii_of_string s).
Proof.
  unfold octal_chars. intros Hs. eapply Forall_impl; [exact Hs|].
  intros c Hc. octal_cases Hc; compute; lia.
Qed.

(** A run of octal digits holds no underscore to take out. *)
Lemma ungroup_octal (s : string) : octal_chars s -> ungroup true s = Some s.
Proof.
  unfold octal_chars. induction s as [|c s IH]; intros Hs; [done|].
  cbn [list_ascii_of_string] in Hs. apply Forall_cons in Hs as [Hc Hs].
  cbn [ungroup]. rewrite (IH Hs). octal_cases Hc; reflexivity.
Qed.

(** [int(s, 8)] of a non-empty run of octal digits is its value. *)
Lemma int_base8_octal (s : string) :
  s ≠ "" -> octal_chars s ->
  int_base8 s = match octal_digits 0 s with
                | Some n => Ok n
                | None => Raise ValueError
                end.
Proof.
  intros Hne Hs. destruct s as [|c r]; [done|].
  pose proof (rstrip_space_octal _ Hs) as Hstrip.
  unfold octal_chars in Hs. cbn [list_ascii_of_string] in Hs.
  apply Forall_cons in Hs as [Hc Hr].
  unfold int_base8.
  assert (Hl : lstrip_space (String c r) = String c r).
  { octal_cases Hc; reflexivity. }
  rewrite Hl, Hstrip. clear Hl Hstrip.
  destruct r as [|c2 r2].
  - octal_cases Hc; reflexivity.
  - cbn [list_ascii_of_string] in Hr. apply Forall_cons in Hr as [Hc2 Hr2].
    pose proof (ungroup_octal r2 Hr2) as Hdigits.
    octal_cases Hc; octal_cases Hc2; cbn [ungroup Ascii.eqb Bool.eqb option_map];
      rewrite Hdigits; reflexivity.
Qed.

(** The size field of a header decodes to the size it was written from:
    for [0 <= n < 8^width], the spelling of [n] in [width] octal digits,
    followed by any number of NUL bytes, is read back as [n] by
    [__get_file_size]; a field of NUL bytes only is read as 0. *)
Lemma get_file_size_field (width : nat) (n : Z) (k : nat) :
  0 <= n < 8 ^ Z.of_nat width ->
  AliOTA.__get_file_size (list_byte_of_string (octal_field width n) ++ replicate k Byte.x00)
    = Ok n.
Proof.
  intros Hn. unfold AliOTA.__get_file_size.
  assert (Hchars : octal_chars (octal_field width n)).
  { apply octal_field_acc_chars. constructor. }
  pose proof (octal_chars_nul_free _ Hchars) as Hplain.
  rewrite (decode_ascii_app _ _ (octal_field width n) (nuls k)).
  2:{ apply decode_ascii_string. eapply Forall_impl; [exact Hplain|]. cbn. lia. }
  2:{ apply decode_ascii_nuls. }
  cbn. rewrite rstrip_nul_nuls, rstrip_nul_plain.
  2:{ eapply Forall_impl; [exact Hplain|]. cbn. lia. }
  unfold octal_field in *. rewrite octal_field_acc_length. cbn [String.length].
  destruct width as [|w].
  - cbn in *. rewrite decide_True by done. f_equal. lia.
  - rewrite decide_False by lia.
    rewrite int_base8_octal; [| |done].
    2:{ intros Hempty. apply (f_equal String.length) in Hempty.
        rewrite octal_field_acc_length in Hempty. cbn in Hempty. lia. }
    rewrite octal_digits_field. cbn [octal_digits].
    rewrite Z.mod_small by lia. f_equal; lia.
Qed.

End header_fields.

(** ** Unpacking a whole archive in AliOTA *)

Section ali_ota_archive.
#[local] Abbreviation unpack_loop_step := unpack_loop_unfold.
#[local] Abbreviation copy_loop_step := copy_loop_unfold.
Import AliOTA.
Context {Cloud : Type}.
Variable inflate : list Byte.byte -> list Byte.byte.
Variable exn_text : exn -> string.
Variable outcome : list event -> event -> option exn.
Implicit Types (s : @state Cloud) (stream : list Byte.byte).

Lemma archive_header_length (name field : string) :
  (String.length name <= 124)%nat -> (String.length field <= 388)%nat ->
  length (archive_header name field) = 512%nat.
Proof.
  intros Hname Hfield. unfold archive_header.
  rewrite !length_app, !length_replicate, !length_list_byte_of_string. lia.
Qed.

Lemma archive_header_name (name field : string) :
  (String.length name <= 100)%nat ->
  firstn 100 (archive_header name field)
    = list_byte_of_string name ++ replicate (100 - String.length name) Byte.x00.
Proof.
  intros Hname. unfold archive_header.
  rewrite take_app, length_list_byte_of_string.
  rewrite take_ge by (rewrite length_list_byte_of_string; lia).
  f_equal. rewrite take_app_le by (rewrite length_replicate; lia).
  rewrite take_replicate. f_equal. lia.
Qed.

Lemma archive_header_size (name field : string) :
  (String.length name <= 124)%nat -> String.length field = 11%nat ->
  slice 124 135 (archive_header name field) = list_byte_of_string field.
Proof.
  intros Hname Hfield. unfold slice, archive_header.
  rewrite app_assoc, drop_app_length'.
  2:{ rewrite length_app, length_replicate, length_list_byte_of_string. lia. }
  apply take_app_length'. rewrite length_list_byte_of_string, Hfield. reflexivity.
Qed.

Lemma octal_field_length (width : nat) (n : Z) :
  String.length (octal_field width n) = width.
Proof. unfold octal_field. rewrite octal_field_acc_length. cbn. lia. Qed.

(** The header written for [name] and [n] is 512 bytes long, and its
    fields are read back as [n] and [name]. *)
Lemma archive_header_decodes (name : string) (n : Z) :
  plain_name name -> 0 <= n < 8 ^ 11 ->
  let h := archive_header name (octal_field 11 n) in
  length h = 512%nat
  /\ __get_file_size (slice 124 135 h) = Ok n
  /\ __get_file_name (firstn 100 h) = Ok name.
Proof.
  intros [Hlen Hchars] Hn h. subst h. split; [|split].
  - apply archive_header_length; rewrite ?octal_field_length; lia.
  - rewrite archive_header_size by (rewrite ?octal_field_length; lia).
    rewrite <- (app_nil_r (list_byte_of_string _)).
    by apply (get_file_size_field 11 n 0).
  - rewrite archive_header_name by done. by apply get_file_name_field.
Qed.

(** X14. The fields of a header are read back as they were written.  A
    name of ASCII characters other than NUL, followed by NUL bytes, is
    read back by [__get_file_name]; the spelling of [n] in [width] octal
    digits, for [0 <= n < 8^width], followed by NUL bytes, is read back as
    [n] by [__get_file_size] (a field of NUL bytes only as 0).  So the
    512-byte header written for a name of at most 100 characters and a
    size in 11 digits yields the name and the size. *)
Theorem header_fields_round_trip (name : string) (n : Z) (width k1 k2 : nat) :
  Forall (fun c => (0 < nat_of_ascii c < 128)%nat) (list_ascii_of_string name) ->
  0 <= n < 8 ^ Z.of_nat width ->
  __get_file_name (list_byte_of_string name ++ replicate k1 Byte.x00) = Ok name
  /\ __get_file_size (list_byte_of_string (octal_field width n) ++ replicate k2 Byte.x00)
     = Ok n
  /\ ((String.length name <= 100)%nat -> width = 11%nat ->
      let h := archive_header name (octal_field 11 n) in
      length h = 512%nat
      /\ __get_file_size (slice 124 135 h) = Ok n
      /\ __get_file_name (firstn 100 h) = Ok name).
Proof.
  intros Hname Hn. split; [by apply get_file_name_field|].
  split; [by apply get_file_size_field|].
  intros Hlen ->. by apply archive_header_decodes.
Qed.

(** An entry written to an archive is met by the unpack loop as a
    well-formed entry, with the calls and the record of the entry. *)
Lemma member_of_well_formed (e : entry) : unpackable e -> well_formed (member_of e).
Proof.
  destruct e as [name|name content]; cbn [unpackable member_of].
  - intros [Hname Hne].
    destruct (archive_header_decodes name 0 Hname ltac:(lia)) as (Hlen & Hsize & Hnm).
    unfold well_formed. cbn. done.
  - intros (Hname & Hne & Hpos & Hsmall).
    destruct (archive_header_decodes name (Z.of_nat (length content)) Hname ltac:(lia))
      as (Hlen & Hsize & Hnm).
    unfold well_formed. cbn. repeat split; [done..|lia].
Qed.

Lemma member_of_bytes (e : entry) : member_bytes (member_of e) = entry_bytes e.
Proof. destruct e; unfold member_bytes; cbn; [by rewrite app_nil_r|done]. Qed.

Lemma member_of_calls (e : entry) :
  unpackable e -> member_calls (member_of e) = entry_events e.
Proof.
  destruct e as [name|name content]; cbn [unpackable member_of]; unfold member_calls; cbn.
  - done.
  - intros (_ & _ & Hpos & _). by rewrite decide_False by lia.
Qed.

Lemma member_of_records (e : entry) :
  unpackable e -> member_records (member_of e) = entry_manifest e.
Proof.
  destruct e as [name|name content]; cbn [unpackable member_of]; unfold member_records; cbn.
  - done.
  - intros (_ & _ & Hpos & _). by rewrite decide_False by lia.
Qed.

Lemma archive_calls_members (es : list entry) :
  Forall unpackable es -> unpack_calls (member_of <$> es) = archive_calls es.
Proof.
  intros Hes. unfold unpack_calls, archive_calls. f_equal.
  assert (Hcalls : member_calls <$> (member_of <$> es) = entry_events <$> es).
  { rewrite <- list_fmap_compose. apply Forall_fmap_ext_1.
    eapply Forall_impl; [exact Hes|]. intros e He. by apply member_of_calls. }
  assert (Hrecords : member_records <$> (member_of <$> es) = entry_manifest <$> es).
  { rewrite <- list_fmap_compose. apply Forall_fmap_ext_1.
    eapply Forall_impl; [exact Hes|]. intros e He. by apply member_of_records. }
  by rewrite Hcalls, Hrecords.
Qed.

Lemma upgrade_archive s (es : list entry) (tail : list Byte.byte) :
  Forall unpackable es ->
  inflate (skipn 10 (ota_content s)) = archive es ++ tail ->
  succeed outcome (events s) (archive_calls es) ->
  __upgrade inflate exn_text outcome s = (Ok true, logged s (archive_calls es)).
Proof.
  intros Hes Hstream Hok.
  rewrite <- (archive_calls_members es Hes) in *.
  apply (upgrade_members inflate exn_text outcome s (member_of <$> es)
           (replicate 512 Byte.x00 ++ tail)); [| | |done].
  - apply Forall_fmap. eapply Forall_impl; [exact Hes|].
    intros e He. by apply member_of_well_formed.
  - right. rewrite (take_app_length' (replicate 512 Byte.x00) tail 512) by done.
    split; vm_compute; reflexivity.
  - rewrite Hstream. unfold archive. rewrite <- app_assoc. f_equal.
    rewrite <- list_fmap_compose. f_equal. apply list_fmap_ext.
    intros ? e _. cbn. by rewrite member_of_bytes.
Qed.

(** X15. An archive of entries written one after the other, each a header
    with the name and the size in 11 octal digits and, for a file, the
    content behind it, and closed by the end marker, is unpacked as it
    was written, as long as the calls to the file system and to the
    updater return: [__upgrade] returns [True]; after the staging
    directory it makes, for each entry in order, the directory, or the
    file, written in pieces of at most 512 bytes that add up to the
    content; it then registers every file with its path and size, in
    order, and removes the downloaded archive.  Bytes behind the end
    marker are not read. *)
Theorem upgrade_unpacks_archive s (es : list entry) (tail : list Byte.byte) :
  Forall unpackable es ->
  inflate (skipn 10 (ota_content s)) = archive es ++ tail ->
  succeed outcome (events s) (archive_calls es) ->
  __upgrade inflate exn_text outcome s = (Ok true, logged s (archive_calls es))
  /\ forall content : list Byte.byte,
       concat (chunked 512 content) = content
       /\ Forall (fun piece => (0 < length piece <= 512)%nat) (chunked 512 content).
Proof.
  intros Hes Hstream Hok. split; [by apply (upgrade_archive s es tail)|].
  apply chunked_pieces.
Qed.







End ali_ota_archive.

(** ** The course of an update in AliOTA *)

Section ali_ota_course.
Import AliOTA.
Context {Cloud : Type}.
Variable fetch : string -> Z * list Byte.byte.
Variable md5_hexdigest : list Byte.byte -> string.
Variable inflate : list Byte.byte -> list Byte.byte.
Variable exn_text : exn -> string.
Variable outcome : list event -> event -> option exn.
Implicit Types (s : @state Cloud).

Lemma check_md5_match s (hashed : list Byte.byte) :
  file_hash s = Some hashed ->
  __check_md5 md5_hexdigest (md5_hexdigest hashed) s = (Ok true, s).
Proof.
  intros Hhash. unfold __check_md5. rewrite Hhash.
  by destruct (decide (md5_hexdigest hashed ≠ md5_hexdigest hashed)).
Qed.

(** X17. A download that fails ends the update at once: with an object
    to report to, [__start_sota] reports step -2 for the first file whose
    download does not return 0, downloads none of the files behind it,
    verifies and unpacks nothing, and then sets the update flag and
    restarts all the same. *)
Theorem start_sota_download_failure s (c : Cloud) file rest (code : Z)
    (data : list Byte.byte) :
  ali s = Some c -> files s = file :: rest ->
  fetch (url file) = (code, data) -> code ≠ 0 ->
  __start_sota fetch md5_hexdigest inflate exn_text outcome s
    = (Ok tt,
       logged s [AppFotaDownload (url file) __ota_file;
                 OtaDeviceProgress (-2) "Download File Failed." (module s);
                 SetUpdateFlag; PowerRestart]).
Proof.
  intros Hali Hfiles Hfetch Hcode.
  unfold __start_sota. unfold bind at 1. unfold gets. rewrite Hfiles.
  unfold bind at 1. cbn [sota_files]. unfold bind at 1.
  unfold __download. unfold bind at 1, emit at 1, modify. rewrite Hfetch.
  rewrite decide_False by done.
  unfold bind at 1, ota_device_progress at 1. cbn [ali]. rewrite Hali.
  unfold ret, bind, emit, modify, logged. cbn.
  by rewrite <- !app_assoc, Hali.
Qed.

(** X18. An image that passes every stage is installed, whether or not
    there is an object to report to: for a plan of one file whose
    download returns 0, whose declared checksum is the digest of the
    bytes received, and which holds, behind its first 10 bytes, an
    archive of well-formed entries, as long as the calls of the unpack
    stage to the file system and to the updater return, [__start_sota]
    downloads and renames the file, unpacks every entry into the staging
    directory, registers every file, removes the archive, sets the update
    flag and restarts, in this order, and reports nothing. *)
Theorem start_sota_installs s file (data : list Byte.byte) (es : list entry)
    (tail : list Byte.byte) :
  let download := [AppFotaDownload (url file) __ota_file;
                   Rename ("/usr/.updater" +:+ __ota_file) __ota_file] in
  files s = [file] ->
  fetch (url file) = (0, data) ->
  md5 file = md5_hexdigest data ->
  Forall unpackable es ->
  inflate (skipn 10 data) = archive es ++ tail ->
  succeed outcome (events s ++ download) (archive_calls es) ->
  __start_sota fetch md5_hexdigest inflate exn_text outcome s
    = (Ok tt,
       logged (stored s data)
         (download ++ archive_calls es ++ [SetUpdateFlag; PowerRestart])).
Proof.
  intros download Hfiles Hfetch Hmd5 Hes Hstream Hok.
  unfold __start_sota. unfold bind at 1. unfold gets. rewrite Hfiles.
  unfold bind at 1. cbn [sota_files]. unfold bind at 1.
  rewrite (download_ok fetch s _ _ Hfetch). unfold bind at 1.
  rewrite Hmd5, (check_md5_match _ data) by done.
  unfold bind at 1.
  rewrite (upgrade_archive inflate exn_text outcome _ es tail) by done.
  subst download. unfold ret, bind, emit, modify, logged, stored.
  cbn [fst snd files module version ali mcu_name firmware_name file_hash
       ota_content events].
  by rewrite <- !app_assoc.
Qed.

(** X19. An image that fails verification is reported and not unpacked:
    with an object to report to, when the first file of the plan is
    downloaded and its declared checksum differs from the digest of the
    bytes received, [__start_sota] reports step -3 with both checksums,
    calls nothing of the unpack stage, downloads no further file, and
    then sets the update flag and restarts all the same. *)
Theorem start_sota_verification_failure s (c : Cloud) file rest (data : list Byte.byte) :
  ali s = Some c -> files s = file :: rest ->
  fetch (url file) = (0, data) ->
  md5 file ≠ md5_hexdigest data ->
  __start_sota fetch md5_hexdigest inflate exn_text outcome s
    = (Ok tt,
       logged (stored s data)
         [AppFotaDownload (url file) __ota_file;
          Rename ("/usr/.updater" +:+ __ota_file) __ota_file;
          OtaDeviceProgress (-3)
            ("MD5 Verification Failed. DMP Calc MD5 Value: " +:+ md5 file
             +:+ ", Device Calc MD5 Value: " +:+ md5_hexdigest data)
            (module s);
          SetUpdateFlag; PowerRestart]).
Proof. apply start_sota_md5_mismatch. Qed.

End ali_ota_course.

Lemma header_fields_round_trip_witness :
  AliOTA.__get_file_name (firstn 100 (archive_header "sub/a.txt" (octal_field 11 5)))
    = Ok "sub/a.txt"
  /\ AliOTA.__get_file_size (AliOTA.slice 124 135 (archive_header "sub/a.txt" (octal_field 11 5)))
    = Ok 5.
Proof.
  destruct (header_fields_round_trip "sub/a.txt" 5 11 0 0) as (_ & _ & Hheader).
  - repeat constructor.
  - lia.
  - destruct Hheader as (_ & Hsize & Hname); [cbn; lia|reflexivity|]. by split.
Defined.

Lemma upgrade_unpacks_archive_witness :
  AliOTA.__upgrade (fun data => data) (fun _ => "") all_return downloaded_ota
  = (Ok true,
     logged downloaded_ota
       [AliOTA.Mkdirs "/usr/.updater/usr/";
        AliOTA.Mkdirs "/usr/.updater/usr/sub/";
        AliOTA.OpenWb "/usr/.updater/usr/sub/a.txt";
        AliOTA.FileWrite "/usr/.updater/usr/sub/a.txt" (list_byte_of_string "hello");
        AliOTA.UpdateDownloadStat "/usr/.updater/usr/sub/a.txt" "/usr/sub/a.txt" 5;
        AliOTA.Remove "/usr/sotaFile.tar.gz"]).
Proof.
  destruct (upgrade_unpacks_archive (fun data => data) (fun _ => "") all_return
              downloaded_ota
              [Dir "sub/"; File "sub/a.txt" (list_byte_of_string "hello")] [])
    as [Hrun _].
  - constructor; [|constructor; [|constructor]].
    + split; [|discriminate]. split; [cbn; lia|repeat constructor].
    + split; [|split; [discriminate|split; [cbn; lia|cbn; lia]]].
      split; [cbn; lia|repeat constructor].
  - vm_compute. reflexivity.
  - cbn. repeat split.
  - exact Hrun.
Defined.

Lemma start_sota_download_failure_witness :
  AliOTA.__start_sota (fun _ => (-1, [])) (fun _ => image_digest)
    (fun data => data) (fun _ => "") all_return
    (announced_ota_with {| AliYunIot.sent := [] |})
  = (Ok tt,
     logged (announced_ota_with {| AliYunIot.sent := [] |})
       [AliOTA.AppFotaDownload "https://ota.example/mcu.bin" AliOTA.__ota_file;
        AliOTA.OtaDeviceProgress (-2) "Download File Failed." "mcu";
        AliOTA.SetUpdateFlag; AliOTA.PowerRestart]).
Proof.
  apply (start_sota_download_failure (fun _ => (-1, [])) (fun _ => image_digest)
           (fun data => data) (fun _ => "") all_return
           (announced_ota_with {| AliYunIot.sent := [] |}) {| AliYunIot.sent := [] |}
           (List.hd {| AliOTA.size := 0; AliOTA.url := ""; AliOTA.md5 := "" |} plan) []
           (-1) []).
  - reflexivity.
  - reflexivity.
  - reflexivity.
  - lia.
Defined.

Lemma start_sota_verification_failure_witness :
  AliOTA.__start_sota (fun _ => (0, image)) (fun _ => image_digest)
    (fun data => data) (fun _ => "") all_return
    (announced_ota_with {| AliYunIot.sent := [] |})
  = (Ok tt,
     logged (stored (announced_ota_with {| AliYunIot.sent := [] |}) image)
       [AliOTA.AppFotaDownload "https://ota.example/mcu.bin" AliOTA.__ota_file;
        AliOTA.Rename ("/usr/.updater" +:+ AliOTA.__ota_file) AliOTA.__ota_file;
        AliOTA.OtaDeviceProgress (-3)
          ("MD5 Verification Failed. DMP Calc MD5 Value: " +:+ declared_md5
           +:+ ", Device Calc MD5 Value: " +:+ image_digest) "mcu";
        AliOTA.SetUpdateFlag; AliOTA.PowerRestart]).
Proof.
  apply (start_sota_verification_failure (fun _ => (0, image)) (fun _ => image_digest)
           (fun data => data) (fun _ => "") all_return
           (announced_ota_with {| AliYunIot.sent := [] |}) {| AliYunIot.sent := [] |}
           (List.hd {| AliOTA.size := 0; AliOTA.url := ""; AliOTA.md5 := "" |} plan) []
           image).
  - reflexivity.
  - reflexivity.
  - reflexivity.
  - discriminate.
Defined.

Lemma start_sota_installs_witness :
  let s := AliOTA.set_ota_info "mcu" "2.1.0"
             [{| AliOTA.size := 1556; AliOTA.url := "https://ota.example/mcu.tar.gz";
                 AliOTA.md5 := image_digest |}]
             (AliOTA.__init__ (@None AliYunIot.aLiYun) "mcu" "fw") in
  let data := replicate 10 Byte.x00 ++ sample_archive in
  AliOTA.events
    (snd (AliOTA.__start_sota (fun _ => (0, data)) (fun _ => image_digest)
            (fun data => data) (fun _ => "") all_return s))
  = [AliOTA.AppFotaDownload "https://ota.example/mcu.tar.gz" AliOTA.__ota_file;
     AliOTA.Rename ("/usr/.updater" +:+ AliOTA.__ota_file) AliOTA.__ota_file;
     AliOTA.Mkdirs "/usr/.updater/usr/";
     AliOTA.Mkdirs "/usr/.updater/usr/sub/";
     AliOTA.OpenWb "/usr/.updater/usr/sub/a.txt";
     AliOTA.FileWrite "/usr/.updater/usr/sub/a.txt" (list_byte_of_string "hello");
     AliOTA.UpdateDownloadStat "/usr/.updater/usr/sub/a.txt" "/usr/sub/a.txt" 5;
     AliOTA.Remove "/usr/sotaFile.tar.gz";
     AliOTA.SetUpdateFlag; AliOTA.PowerRestart].
Proof.
  cbv zeta.
  rewrite (start_sota_installs (fun _ => (0, replicate 10 Byte.x00 ++ sample_archive))
             (fun _ => image_digest) (fun data => data) (fun _ => "") all_return _
             {| AliOTA.size := 1556; AliOTA.url := "https://ota.example/mcu.tar.gz";
                AliOTA.md5 := image_digest |}
             (replicate 10 Byte.x00 ++ sample_archive)
             [Dir "sub/"; File "sub/a.txt" (list_byte_of_string "hello")] []).
  - reflexivity.
  - reflexivity.
  - reflexivity.
  - reflexivity.
  - constructor; [|constructor; [|constructor]].
    + split; [|discriminate]. split; [cbn; lia|repeat constructor].
    + split; [|split; [discriminate|split; [cbn; lia|cbn; lia]]].
      split; [cbn; lia|repeat constructor].
  - vm_compute. reflexivity.
  - cbn. repeat split.
Defined.

(** ** The calls of the block transfer of QuecThing *)

Section quec_sota_calls.
#[local] Abbreviation sota_loop_step := sota_loop_unfold.
Import QuecThing.
Variable platform : list call -> call -> bool.

(** The calls of the branch taken when the transfer is complete: the
    report of step 3, the check, then the update when the check
    succeeds, then the flag when the update succeeds. *)
Lemma sota_update_start_calls (s : state) :
  let md5 := md5_value s in
  let checked := platform (log s ++ [OtaAction 3]) (CheckMd5 md5) in
  let updated := platform (log s ++ [OtaAction 3; CheckMd5 md5]) FileUpdate in
  sota_update_start platform s
    = (Ok tt,
       {| object_model := object_model s; file_size := file_size s;
          md5_value := md5_value s;
          post_result_wait_queue := post_result_wait_queue s;
          log := log s ++ OtaAction 3 :: CheckMd5 md5
                   :: (if checked
                       then FileUpdate :: (if updated then [SotaSetFlag] else [])
                       else []);
          future := future s |}).
Proof.
  cbv zeta. unfold sota_update_start, bind, ota_action, invoke, gets, ret.
  destruct (decide (3 ∈ [0; 1; 2; 3])) as [_|Hn]; [|exfalso; apply Hn; set_solver].
  cbn. destruct (platform _ (CheckMd5 _)); cbn.
  - rewrite <- !app_assoc. cbn.
    destruct (platform _ FileUpdate); unfold add_log; cbn;
      by rewrite <- !app_assoc.
  - unfold add_log. cbn. by rewrite <- !app_assoc.
Qed.

Lemma sota_loop_calls (start_addr need d : Z) (s : state) :
  0 <= need ->
  exists L,
    sota_loop platform start_addr need d s
      = (Ok tt, {| object_model := object_model s; file_size := file_size s;
                   md5_value := md5_value s;
                   post_result_wait_queue := post_result_wait_queue s;
                   log := log s ++ L; future := future s |})
    /\ asked L = written L
    /\ contiguous start_addr (written L)
    /\ (NotifyPowerRestart ∉ L)
    /\ (FileUpdate ∈ L \/ SotaSetFlag ∈ L ->
        exists L1 L2,
          L = L1 ++ OtaAction 3 :: CheckMd5 (md5_value s) :: FileUpdate :: L2
          /\ platform (log s ++ L1 ++ [OtaAction 3]) (CheckMd5 (md5_value s)) = true
          /\ d + total (written_blocks L1) = file_size s
          /\ (SotaSetFlag ∈ L ->
              L2 = [SotaSetFlag]
              /\ platform (log s ++ L1 ++ [OtaAction 3; CheckMd5 (md5_value s)])
                   FileUpdate = true)).
Proof.
  remember (Z.to_nat need) as n eqn:Hn.
  revert start_addr need d s Hn.
  induction n as [n IH] using lt_wf_ind; intros start_addr need d s Hn Hneed.
  rewrite sota_loop_step.
  destruct (decide (need = 0)) as [->|Hne].
  { exists []. rewrite app_nil_r. split; [done|]. split; [done|]. split; [done|].
    split; [by intros Hin%elem_of_nil|].
    intros [Hin|Hin]; by apply elem_of_nil in Hin. }
  cbv zeta.
  set (readsize := if 4096 >? need then need else 4096).
  assert (Hread : 0 < readsize <= need).
  { subst readsize. destruct (4096 >? need) eqn:E; lia. }
  set (s2 := add_log (WriteUpdateData start_addr readsize)
               (add_log (McuFWDataRead start_addr readsize) s)).
  destruct (decide (d + readsize = file_size s2)) as [Hdone|Hmore].
  - rewrite sota_update_start_calls. cbv zeta.
    set (checked := platform (log s2 ++ [OtaAction 3]) (CheckMd5 (md5_value s2))).
    set (updated := platform (log s2 ++ [OtaAction 3; CheckMd5 (md5_value s2)]) FileUpdate).
    exists (McuFWDataRead start_addr readsize :: WriteUpdateData start_addr readsize
              :: OtaAction 3 :: CheckMd5 (md5_value s)
              :: (if checked
                  then FileUpdate :: (if updated then [SotaSetFlag] else [])
                  else [])).
    split.
    { subst s2. unfold add_log. cbn. by rewrite <- !app_assoc. }
    split; [by destruct checked, updated|].
    split; [by destruct checked, updated|].
    split.
    { intros Hin. repeat (apply elem_of_cons in Hin as [Heq|Hin]; [discriminate|]).
      destruct checked; [|by apply elem_of_nil in Hin].
      apply elem_of_cons in Hin as [Heq|Hin]; [discriminate|].
      destruct updated; [|by apply elem_of_nil in Hin].
      apply list_elem_of_singleton in Hin. discriminate. }
    intros Hsome.
    assert (Hchecked : checked = true).
    { destruct checked; [done|]. exfalso.
      destruct Hsome as [Hin|Hin];
        repeat (apply elem_of_cons in Hin as [Heq|Hin]; [discriminate|]);
        by apply elem_of_nil in Hin. }
    exists [McuFWDataRead start_addr readsize; WriteUpdateData start_addr readsize],
      (if updated then [SotaSetFlag] else []).
    rewrite Hchecked. split; [done|]. split.
    { rewrite <- Hchecked. subst checked s2. unfold add_log. cbn.
      by rewrite <- !app_assoc. }
    split.
    { unfold total, written_blocks. cbn. cbn in Hdone. lia. }
    intros Hflag.
    assert (Hupdated : updated = true).
    { destruct updated; [done|]. exfalso.
      repeat (apply elem_of_cons in Hflag as [Heq|Hflag]; [discriminate|]).
      by apply elem_of_nil in Hflag. }
    rewrite Hupdated. split; [done|].
    rewrite <- Hupdated. subst updated s2. unfold add_log. cbn.
    by rewrite <- !app_assoc.
  - destruct (ota_action_log platform 2 s2) as [r Hact]. rewrite Hact.
    destruct (decide (2 ∈ [0; 1; 2; 3])) as [_|Hno]; [|exfalso; apply Hno; set_solver].
    cbn [snd].
    destruct (IH (Z.to_nat (need - readsize)) ltac:(lia) (start_addr + readsize)
                (need - readsize) (d + readsize) (add_log (OtaAction 2) s2)
                eq_refl ltac:(lia))
      as (L & -> & Hrw & Hcont & Hrestart & Hflag).
    exists (McuFWDataRead start_addr readsize :: WriteUpdateData start_addr readsize
              :: OtaAction 2 :: L).
    split.
    { subst s2. unfold add_log. cbn. by rewrite <- !app_assoc. }
    split; [unfold asked, written in *; cbn; by rewrite Hrw|].
    split; [unfold written in *; by cbn|].
    split.
    { intros Hin. repeat (apply elem_of_cons in Hin as [Heq|Hin]; [discriminate|]).
      done. }
    intros Hsome.
    destruct Hflag as (L1 & L2 & -> & Hchecked & Htotal & Hset).
    { destruct Hsome as [Hin|Hin];
        repeat (apply elem_of_cons in Hin as [Heq|Hin]; [discriminate|]);
        [by left|by right]. }
    exists (McuFWDataRead start_addr readsize :: WriteUpdateData start_addr readsize
              :: OtaAction 2 :: L1), L2.
    split; [done|]. split.
    { rewrite <- Hchecked. subst s2. unfold add_log. cbn. by rewrite <- !app_assoc. }
    split.
    { unfold total, written_blocks in *. cbn in *. lia. }
    intros Hin. destruct Hset as [-> Hupdated].
    { repeat (apply elem_of_cons in Hin as [Heq|Hin]; [discriminate|]). done. }
    split; [done|]. rewrite <- Hupdated. subst s2. unfold add_log. cbn.
    by rewrite <- !app_assoc.
Qed.

(** X20. The blocks of a transfer are contiguous: for every byte count
    [need >= 0], each block that [__sota_upgrade_start] asks of
    [mcuFWDataRead] is handed to [write_update_data], the first block
    starts at [start_addr], and each further block starts where the one
    before it ends.  The observers are notified of the pending restart
    exactly once, after all other calls. *)
Theorem sota_blocks_contiguous (start_addr need : Z) (s : state) :
  0 <= need ->
  exists L,
    __sota_upgrade_start platform start_addr need s
      = (Ok tt, {| object_model := object_model s; file_size := file_size s;
                   md5_value := md5_value s;
                   post_result_wait_queue := post_result_wait_queue s;
                   log := log s ++ L ++ [NotifyPowerRestart]; future := future s |})
    /\ asked L = written L
    /\ contiguous start_addr (written L)
    /\ (NotifyPowerRestart ∉ L).
Proof.
  intros Hneed.
  destruct (sota_loop_calls start_addr need 0 s Hneed)
    as (L & Hloop & Hrw & Hcont & Hrestart & _).
  exists L. split; [|done].
  unfold __sota_upgrade_start, bind, invoke, ret. rewrite Hloop.
  unfold add_log. cbn. by rewrite app_assoc.
Qed.

(** X21. The update flag is set only after a successful check and a
    successful update of a complete transfer: when [__sota_upgrade_start]
    calls [file_update], the blocks written before add up to the
    declared file size, step 3 has been reported, and [check_md5], called
    with the declared checksum, has returned a true value; when it calls
    [sota_set_flag], moreover, [file_update] has returned a true value,
    and the flag is the last call before the observers are notified. *)
Theorem sota_flag_after_check_and_update (start_addr need : Z) (s : state) :
  0 <= need ->
  exists L,
    log (snd (__sota_upgrade_start platform start_addr need s))
      = log s ++ L ++ [NotifyPowerRestart]
    /\ (FileUpdate ∈ L \/ SotaSetFlag ∈ L ->
        exists L1 L2,
          L = L1 ++ OtaAction 3 :: CheckMd5 (md5_value s) :: FileUpdate :: L2
          /\ platform (log s ++ L1 ++ [OtaAction 3]) (CheckMd5 (md5_value s)) = true
          /\ total (written_blocks L1) = file_size s
          /\ (SotaSetFlag ∈ L ->
              L2 = [SotaSetFlag]
              /\ platform (log s ++ L1 ++ [OtaAction 3; CheckMd5 (md5_value s)])
                   FileUpdate = true)).
Proof.
  intros Hneed.
  destruct (sota_loop_calls start_addr need 0 s Hneed)
    as (L & Hloop & _ & _ & _ & Hflag).
  exists L. split.
  - unfold __sota_upgrade_start, bind, invoke, ret. rewrite Hloop.
    unfold add_log. cbn. by rewrite app_assoc.
  - intros Hsome. destruct (Hflag Hsome) as (L1 & L2 & HL & Hchecked & Htotal & Hset).
    exists L1, L2. split; [done|]. split; [done|]. split; [lia|done].
Qed.

End quec_sota_calls.

Lemma sota_blocks_contiguous_witness :
  let s := QuecThing.__sota_download_info 10000 "9e107d9d372bb6826bd81d3542a419d6"
             (quec_thing [] []) in
  exists L,
    QuecThing.log (snd (QuecThing.__sota_upgrade_start (fun _ _ => true) 65536 10000 s))
      = L ++ [QuecThing.NotifyPowerRestart]
    /\ asked L = written L
    /\ contiguous 65536 (written L).
Proof.
  cbv zeta.
  destruct (sota_blocks_contiguous (fun _ _ => true) 65536 10000
              (QuecThing.__sota_download_info 10000 "9e107d9d372bb6826bd81d3542a419d6"
                 (quec_thing [] [])) ltac:(lia)) as (L & Hrun & Hasked & Hcont & _).
  exists L. rewrite Hrun. by split.
Defined.

Lemma sota_flag_after_check_and_update_witness :
  let s := QuecThing.__sota_download_info 10000 "9e107d9d372bb6826bd81d3542a419d6"
             (quec_thing [] []) in
  exists L,
    QuecThing.log (snd (QuecThing.__sota_upgrade_start (fun _ _ => true) 65536 10000 s))
      = L ++ [QuecThing.NotifyPowerRestart]
    /\ (QuecThing.SotaSetFlag ∈ L ->
        exists L1, total (written_blocks L1) = 10000
                   /\ L = L1 ++ [QuecThing.OtaAction 3;
                                 QuecThing.CheckMd5 "9e107d9d372bb6826bd81d3542a419d6";
                                 QuecThing.FileUpdate; QuecThing.SotaSetFlag]).
Proof.
  cbv zeta.
  destruct (sota_flag_after_check_and_update (fun _ _ => true) 65536 10000
              (QuecThing.__sota_download_info 10000 "9e107d9d372bb6826bd81d3542a419d6"
                 (quec_thing [] [])) ltac:(lia)) as (L & Hrun & Hflag).
  exists L. split; [exact Hrun|].
  intros Hin. destruct (Hflag (or_intror Hin)) as (L1 & L2 & -> & _ & Htotal & Hset).
  destruct (Hset Hin) as [-> _]. by exists L1.
Defined.

(** ** Connecting an AliYunIot *)

Section ali_connect.
Import AliYunIot AliYunConnect.
Context {It : Type}.
Variables topic_pk topic_dk : string.
Variable client : list client_call -> client_call -> Z.
Variable keys : gmap string (om_item string) -> list string.
Implicit Types (s : @session It) (c : aLiYun).

Lemma called_nil s : called s [] = s.
Proof. unfold called. by rewrite app_nil_r. Qed.

Lemma called_called s (cs1 cs2 : list client_call) :
  called (called s cs1) cs2 = called s (cs1 ++ cs2).
Proof. unfold called. cbn. by rewrite <- app_assoc. Qed.

Lemma on_client_connected s c (call : client_call) :
  ali (core s) = Some c ->
  on_client client call s = (Ok (client (calls s) call), called s [call]).
Proof. intros Hali. unfold on_client. by rewrite Hali. Qed.

Lemma subscribe_connected s c (topic : string) :
  ali (core s) = Some c ->
  subscribe client topic s = (Ok tt, called s [Subscribe topic]).
Proof.
  intros Hali. unfold subscribe, bind.
  by rewrite (on_client_connected s c).
Qed.

Lemma get_status_connected s c :
  ali (core s) = Some c ->
  get_status client s
    = (Ok (client (calls s) GetAliyunSta =? 0), called s [GetAliyunSta]).
Proof.
  intros Hali. unfold get_status, try_except, bind.
  by rewrite (on_client_connected s c).
Qed.

Lemma subscribe_events s c (evs : list string) :
  ali (core s) = Some c ->
  for_each evs
    (fun ev => let* _ := subscribe client (ica_topic_event_post topic_pk topic_dk ev) in
               subscribe client (ica_topic_event_post_reply topic_pk topic_dk ev)) s
    = (Ok tt,
       called s (Subscribe <$> flat_map
                   (fun ev => [ica_topic_event_post topic_pk topic_dk ev;
                               ica_topic_event_post_reply topic_pk topic_dk ev]) evs)).
Proof.
  revert s. induction evs as [|ev evs IH]; intros s Hali.
  - cbn. by rewrite called_nil.
  - cbn [for_each]. unfold bind at 1. unfold bind at 1.
    rewrite (subscribe_connected s c) by done.
    rewrite (subscribe_connected _ c) by done.
    rewrite IH by done. by rewrite !called_called.
Qed.

Lemma subscribe_topic_with_model s c (m : CloudObjectModel string) :
  ali (core s) = Some c -> object_model (core s) = Some m ->
  __ali_subscribe_topic topic_pk topic_dk client keys s
    = (Ok tt,
       called s (Subscribe <$> subscribed_topics topic_pk topic_dk
                                 (keys (items m events)))).
Proof.
  intros Hali Hm. unfold __ali_subscribe_topic.
  do 3 (unfold bind at 1; rewrite (subscribe_connected _ c) by done).
  unfold bind at 1. cbn [core called]. rewrite Hm.
  unfold bind at 1. rewrite (subscribe_events _ c) by done.
  do 3 (unfold bind at 1; rewrite (subscribe_connected _ c) by done).
  rewrite (subscribe_connected _ c) by done.
  rewrite !called_called. unfold subscribed_topics.
  by rewrite !fmap_app.
Qed.

Lemma subscribe_topic_without_model s c :
  ali (core s) = Some c -> object_model (core s) = None ->
  __ali_subscribe_topic topic_pk topic_dk client keys s
    = (Raise AttributeError,
       called s [Subscribe (ica_topic_property_post topic_pk topic_dk);
                 Subscribe (ica_topic_property_post_reply topic_pk topic_dk);
                 Subscribe (ica_topic_property_set topic_pk topic_dk)]).
Proof.
  intros Hali Hm. unfold __ali_subscribe_topic.
  do 3 (unfold bind at 1; rewrite (subscribe_connected _ c) by done).
  unfold bind at 1. cbn [core called]. rewrite Hm.
  by rewrite !called_called.
Qed.

(** What [init] does on a session without a client, whatever [enforce]
    is: it makes a client and goes on by what [setMqtt] returns. *)
Lemma init_without_client (enforce : bool) s :
  ali (core s) = None ->
  init topic_pk topic_dk client keys enforce s
    = let s1 := with_new_client s in
      let set_mqtt := SetMqtt (client_id s) (life_time s) in
      if decide (client (calls s1) set_mqtt ≠ -1)
      then (let* _ := on_client client SetCallback in
            let* _ := __ali_subscribe_topic topic_pk topic_dk client keys in
            let* _ := on_client client Start in
            let* _ := get_status client in
            get_status client) (called s1 [set_mqtt])
      else (Ok false, set_core (set_ali None (core s1)) (called s1 [set_mqtt])).
Proof.
  intros Hali. cbv zeta. unfold init.
  unfold bind at 1. rewrite Hali.
  replace (match enforce with true | false => (Ok false, s) end) with (@Ok bool false, s)
    by (by destruct enforce).
  unfold bind at 1. rewrite Hali.
  unfold bind at 1, modify at 1.
  unfold bind at 1, modify at 1.
  unfold bind at 1, gets at 1. unfold bind at 1, gets at 1.
  assert (Hnew : add_call
                   (NewClient
                      (pk (if decide (burning_method s = 0) then set_ps_dk (ps s) None s
                           else if decide (burning_method s = 1)
                                then set_ps_dk None (dk s) s else s))
                      (ps (if decide (burning_method s = 0) then set_ps_dk (ps s) None s
                           else if decide (burning_method s = 1)
                                then set_ps_dk None (dk s) s else s))
                      (dk (if decide (burning_method s = 0) then set_ps_dk (ps s) None s
                           else if decide (burning_method s = 1)
                                then set_ps_dk None (dk s) s else s))
                      (ds (if decide (burning_method s = 0) then set_ps_dk (ps s) None s
                           else if decide (burning_method s = 1)
                                then set_ps_dk None (dk s) s else s))
                      (server (if decide (burning_method s = 0) then set_ps_dk (ps s) None s
                               else if decide (burning_method s = 1)
                                    then set_ps_dk None (dk s) s else s)))
                   (set_core
                      (set_ali (Some {| sent := [] |})
                         (core (if decide (burning_method s = 0) then set_ps_dk (ps s) None s
                                else if decide (burning_method s = 1)
                                     then set_ps_dk None (dk s) s else s)))
                      (if decide (burning_method s = 0) then set_ps_dk (ps s) None s
                       else if decide (burning_method s = 1)
                            then set_ps_dk None (dk s) s else s))
                 = with_new_client s).
  { unfold with_new_client, burned.
    destruct (decide (burning_method s = 0)); [done|].
    by destruct (decide (burning_method s = 1)). }
  rewrite Hnew. clear Hnew.
  assert (Hid : client_id (with_new_client s) = client_id s) by done.
  assert (Hlt : life_time (with_new_client s) = life_time s) by done.
  rewrite Hid, Hlt. clear Hid Hlt.
  unfold bind at 1.
  rewrite (on_client_connected _ {| sent := [] |}) by done.
  destruct (decide (_ ≠ -1)); [done|].
  unfold bind, modify, ret. done.
Qed.

(** X22. [init] is idempotent on a connected session: called with
    [enforce=False] on a session that holds a client whose status is 0,
    it returns [True] after asking for the status twice (once for the
    log); it makes no new client, subscribes to nothing, and leaves every
    field as it is. *)
Theorem init_idempotent_when_connected s c :
  ali (core s) = Some c ->
  client (calls s ++ [GetAliyunSta]) GetAliyunSta = 0 ->
  init topic_pk topic_dk client keys false s
    = (Ok true, called s [GetAliyunSta; GetAliyunSta]).
Proof.
  intros Hali Hsta. unfold init. unfold bind at 1. rewrite Hali.
  unfold bind at 1. rewrite (get_status_connected s c) by done.
  rewrite (get_status_connected _ c) by done.
  cbn [calls called]. rewrite Hsta. cbn. by rewrite called_called.
Qed.

(** X23. The first connection, or any connection after the client has
    been dropped.  On a session without a client but with an object
    model, when [setMqtt] does not return -1, [init] makes a client with
    the keys left by the burning method, sets the callback, subscribes,
    whatever the subscriptions return, to the three property topics, to
    the post topic and the reply topic of every declared event, in the
    order the dict of events yields its keys, and to the four topics of
    updates, file download and remote calls, starts the client, and
    returns whether the status is then 0.  As a dict yields each of its
    keys once, every declared event is subscribed to, and once. *)
Theorem init_subscribes (enforce : bool) s (m : CloudObjectModel string) :
  keys (items m events) ≡ₚ (map_to_list (items m events)).*1 ->
  ali (core s) = None ->
  object_model (core s) = Some m ->
  let s1 := with_new_client s in
  let set_mqtt := SetMqtt (client_id s) (life_time s) in
  let cs := [set_mqtt; SetCallback]
            ++ (Subscribe <$> subscribed_topics topic_pk topic_dk (keys (items m events)))
            ++ [Start; GetAliyunSta] in
  client (calls s1) set_mqtt ≠ -1 ->
  init topic_pk topic_dk client keys enforce s
    = (Ok (client (calls s1 ++ cs) GetAliyunSta =? 0), called s1 (cs ++ [GetAliyunSta]))
  /\ NoDup (keys (items m events))
  /\ forall ev, ev ∈ keys (items m events) <-> is_Some (items m events !! ev).
Proof.
  intros Hkeys Hali Hm s1 set_mqtt cs Hmqtt. split.
  - rewrite (init_without_client enforce s Hali). cbv zeta. fold s1 set_mqtt.
    rewrite decide_True by done.
    unfold bind at 1. rewrite (on_client_connected _ {| sent := [] |}) by done.
    unfold bind at 1. rewrite (subscribe_topic_with_model _ {| sent := [] |} m) by done.
    unfold bind at 1. rewrite (on_client_connected _ {| sent := [] |}) by done.
    unfold bind at 1. rewrite (get_status_connected _ {| sent := [] |}) by done.
    rewrite (get_status_connected _ {| sent := [] |}) by done.
    rewrite !called_called. subst cs. cbn [calls called].
    by rewrite <- !app_assoc.
  - split.
    + rewrite Hkeys. apply NoDup_fst_map_to_list.
    + intros ev. rewrite Hkeys, list_elem_of_fmap. split.
      * intros [[k it] [-> Hin]]. apply elem_of_map_to_list in Hin. by eexists.
      * intros [it Hit]. exists (ev, it). split; [done|]. by apply elem_of_map_to_list.
Qed.

(** X24. Connecting can fail in two ways.  On a session without a
    client: when [setMqtt] returns -1, [init] returns [False] and the
    session is again without a client; when [setMqtt] succeeds but no
    object model has been set, [init] raises [AttributeError] after the
    three property subscriptions, leaving a client that was never
    started. *)
Theorem init_failures (enforce : bool) s :
  ali (core s) = None ->
  let s1 := with_new_client s in
  let set_mqtt := SetMqtt (client_id s) (life_time s) in
  (client (calls s1) set_mqtt = -1 ->
     init topic_pk topic_dk client keys enforce s
       = (Ok false, set_core (set_ali None (core s1)) (called s1 [set_mqtt])))
  /\ (client (calls s1) set_mqtt ≠ -1 -> object_model (core s) = None ->
        init topic_pk topic_dk client keys enforce s
          = (Raise AttributeError,
             called s1 [set_mqtt; SetCallback;
                        Subscribe (ica_topic_property_post topic_pk topic_dk);
                        Subscribe (ica_topic_property_post_reply topic_pk topic_dk);
                        Subscribe (ica_topic_property_set topic_pk topic_dk)])).
Proof.
  intros Hali s1 set_mqtt. split.
  - intros Hmqtt. rewrite (init_without_client enforce s Hali). cbv zeta.
    fold s1 set_mqtt. by rewrite decide_False by (by intros ?).
  - intros Hmqtt Hm. rewrite (init_without_client enforce s Hali). cbv zeta.
    fold s1 set_mqtt. rewrite decide_True by done.
    unfold bind at 1. rewrite (on_client_connected _ {| sent := [] |}) by done.
    unfold bind at 1.
    rewrite (subscribe_topic_without_model _ {| sent := [] |}) by done.
    by rewrite !called_called.
Qed.

Lemma keeps_ota_ret {A} (a : A) : keeps_ota (@ret (@session It) A a).
Proof. by intros s. Qed.

Lemma keeps_ota_bind {A B} (run : M (@session It) A) (f : A -> M (@session It) B) :
  keeps_ota run -> (forall a, keeps_ota (f a)) -> keeps_ota (let* a := run in f a).
Proof.
  intros Hrun Hf s. unfold bind. specialize (Hrun s).
  destruct (run s) as [[a| |] s1]; cbn [snd] in *; [|done..].
  by rewrite (Hf a s1).
Qed.

Lemma keeps_ota_try_except {A} (run : M (@session It) A) (h : exn -> M (@session It) A) :
  keeps_ota run -> (forall e, keeps_ota (h e)) -> keeps_ota (try_except run h).
Proof.
  intros Hrun Hh s. unfold try_except. specialize (Hrun s).
  destruct (run s) as [[a|e|] s1]; cbn [snd] in *; [done| |done].
  by rewrite (Hh e s1).
Qed.

Lemma keeps_ota_for_each {A} (l : list A) (body : A -> M (@session It) unit) :
  (forall x, keeps_ota (body x)) -> keeps_ota (for_each l body).
Proof.
  intros Hbody. induction l as [|x l IH]; [apply keeps_ota_ret|].
  cbn [for_each]. by apply keeps_ota_bind.
Qed.

Lemma keeps_ota_on_client (call : client_call) : keeps_ota (@on_client It client call).
Proof. intros s. unfold on_client. by destruct (ali (core s)). Qed.

Lemma keeps_ota_get_status : keeps_ota (@get_status It client).
Proof.
  apply keeps_ota_try_except; [|intros e; apply keeps_ota_ret].
  apply keeps_ota_bind; [apply keeps_ota_on_client|intros a; apply keeps_ota_ret].
Qed.

Lemma keeps_ota_close : keeps_ota (@close It client).
Proof.
  apply keeps_ota_bind; [|intros a; apply keeps_ota_ret].
  apply keeps_ota_try_except; [|intros e; apply keeps_ota_ret].
  apply keeps_ota_bind; [apply keeps_ota_on_client|intros a; apply keeps_ota_ret].
Qed.

Lemma keeps_ota_subscribe (topic : string) : keeps_ota (@subscribe It client topic).
Proof.
  apply keeps_ota_bind; [apply keeps_ota_on_client|intros a; apply keeps_ota_ret].
Qed.

Lemma keeps_ota_subscribe_topic :
  keeps_ota (@__ali_subscribe_topic It topic_pk topic_dk client keys).
Proof.
  unfold __ali_subscribe_topic.
  do 3 (apply keeps_ota_bind; [apply keeps_ota_subscribe|intros _]).
  apply keeps_ota_bind.
  { intros s. by destruct (object_model (core s)). }
  intros m. apply keeps_ota_bind.
  { apply keeps_ota_for_each. intros ev.
    apply keeps_ota_bind; [apply keeps_ota_subscribe|intros _; apply keeps_ota_subscribe]. }
  intros _. do 3 (apply keeps_ota_bind; [apply keeps_ota_subscribe|intros _]).
  apply keeps_ota_subscribe.
Qed.

Lemma keeps_ota_init (enforce : bool) :
  keeps_ota (@init It topic_pk topic_dk client keys enforce).
Proof.
  unfold init. apply keeps_ota_bind.
  { intros s. destruct enforce; [done|]. destruct (ali (core s)); [|done].
    apply (keeps_ota_bind _ _ keeps_ota_get_status (fun _ => keeps_ota_get_status)). }
  intros [|]; [apply keeps_ota_ret|].
  apply keeps_ota_bind.
  { intros s. destruct (ali (core s)); [|done].
    apply (keeps_ota_bind _ _ keeps_ota_close (fun _ => keeps_ota_ret tt)). }
  intros _. apply keeps_ota_bind.
  { intros s. unfold modify. cbn [snd].
    destruct (decide (burning_method s = 0)); [done|].
    by destruct (decide (burning_method s = 1)). }
  intros _. apply keeps_ota_bind; [by intros s|].
  intros _. apply keeps_ota_bind; [by intros s|].
  intros cid. apply keeps_ota_bind; [by intros s|].
  intros lt. apply keeps_ota_bind; [apply keeps_ota_on_client|].
  intros res. destruct (decide (res ≠ -1)).
  - apply keeps_ota_bind; [apply keeps_ota_on_client|intros _].
    apply keeps_ota_bind; [apply keeps_ota_subscribe_topic|intros _].
    apply keeps_ota_bind; [apply keeps_ota_on_client|intros _].
    apply keeps_ota_bind; [apply keeps_ota_get_status|intros _].
    apply keeps_ota_get_status.
  - apply keeps_ota_bind; [by intros s|intros _; apply keeps_ota_ret].
Qed.

Lemma keeps_ota_run_op (op : connect_op) :
  keeps_ota (@run_op It topic_pk topic_dk client keys op).
Proof.
  destruct op as [[m|]|enforce| |]; cbn [run_op].
  - apply keeps_ota_bind; [by intros s|intros _; apply keeps_ota_ret].
  - apply keeps_ota_ret.
  - apply keeps_ota_init.
  - apply keeps_ota_get_status.
  - apply keeps_ota_close.
Qed.

(** X25. Connecting never gives the AliOTA an object to report to.  The
    AliOTA of a session is made by [__init__] with the client the
    session holds then, which is none; and no sequence of calls of
    [set_object_model], [init], [get_status] and [close] changes the
    AliOTA, whatever the client returns: [init] stores every new client
    in the session only. *)
Theorem connecting_leaves_ota_unwired (ops : list connect_op) s
    (numiter : It) (mcu_name firmware_name : string) :
  AliOTA.ali (ota (AliYunIot.__init__ numiter mcu_name firmware_name)) = None
  /\ ota (core (snd (run_ops topic_pk topic_dk client keys ops s))) = ota (core s).
Proof.
  split; [done|]. revert s. unfold run_ops.
  induction ops as [|op ops IH]; intros s; [done|].
  cbn [comprehension]. unfold bind at 1.
  pose proof (keeps_ota_run_op op s) as Hop.
  destruct (run_op topic_pk topic_dk client keys op s) as [[r| |] s1]; cbn [snd] in *;
    [|done..].
  unfold bind at 1. specialize (IH s1).
  destruct (comprehension ops _ s1) as [[rs| |] s2]; unfold ret; cbn [snd] in *; congruence.
Qed.

End ali_connect.

Lemma init_idempotent_when_connected_witness :
  AliYunConnect.init "pk" "dk" (fun _ _ => 0) (fun d => (map_to_list d).*1) false
    (connection (ali_session ali_model []))
  = (Ok true,
     called (connection (ali_session ali_model []))
       [AliYunConnect.GetAliyunSta; AliYunConnect.GetAliyunSta]).
Proof.
  apply (init_idempotent_when_connected "pk" "dk" (fun _ _ => 0)
           (fun d => (map_to_list d).*1)
           (connection (ali_session ali_model [])) {| AliYunIot.sent := [] |}).
  - reflexivity.
  - reflexivity.
Defined.

Lemma init_subscribes_witness :
  let s := connection (AliYunIot.set_ali None (ali_session ali_model [])) in
  fst (AliYunConnect.init "pk" "dk" (fun _ _ => 0) (fun d => (map_to_list d).*1) true s)
    = Ok true
  /\ subscribed_topics "pk" "dk" ((map_to_list (items ali_model events)).*1)
     = ["/sys/pk/dk/thing/event/property/post";
        "/sys/pk/dk/thing/event/property/post_reply";
        "/sys/pk/dk/thing/service/property/set";
        "/sys/pk/dk/thing/event/ev1/post";
        "/sys/pk/dk/thing/event/ev1/post_reply";
        "/ota/device/upgrade/pk/dk";
        "/sys/pk/dk/thing/ota/firmware/get_reply";
        "/sys/pk/dk/thing/file/download_reply";
        "/sys/pk/dk/rrpc/request/+"].
Proof.
  cbv zeta.
  destruct (init_subscribes "pk" "dk" (fun _ _ => 0) (fun d => (map_to_list d).*1) true
              (connection (AliYunIot.set_ali None (ali_session ali_model []))) ali_model)
    as (Hrun & _ & _).
  - reflexivity.
  - reflexivity.
  - reflexivity.
  - discriminate.
  - rewrite Hrun. split; [reflexivity|]. vm_compute. reflexivity.
Defined.

Lemma init_failures_witness :
  fst (AliYunConnect.init "pk" "dk" (fun _ _ => -1) (fun d => (map_to_list d).*1) false
         (connection fresh_session))
    = Ok false
  /\ fst (AliYunConnect.init "pk" "dk" (fun _ _ => 0) (fun d => (map_to_list d).*1) false
           (connection fresh_session))
     = Raise AttributeError.
Proof.
  split.
  - destruct (init_failures "pk" "dk" (fun _ _ => -1) (fun d => (map_to_list d).*1) false
                (connection fresh_session))
      as [Hrefused _]; [reflexivity|].
    by rewrite Hrefused.
  - destruct (init_failures "pk" "dk" (fun _ _ => 0) (fun d => (map_to_list d).*1) false
                (connection fresh_session))
      as [_ Hmodel]; [reflexivity|].
    by rewrite Hmodel.
Defined.

(** ** Connecting a QuecThing *)

Section quec_connect.
Import QuecThingConnect.
Variable quecIot : list quec_call -> quec_call -> Z.
Variable getDkDs : list quec_call -> option (string * string).
Implicit Types (s : session).

Lemma slept_app (cs1 cs2 : list quec_call) : slept (cs1 ++ cs2) = slept cs1 + slept cs2.
Proof.
  unfold slept. induction cs1 as [|c cs1 IH]; [done|].
  cbn [app foldr]. rewrite IH. destruct c; lia.
Qed.

Lemma waits_at_most_ret {A} (a : A) : waits_at_most (ret a) 0.
Proof. intros s. exists a, s, []. rewrite app_nil_r. by cbn. Qed.

Lemma waits_at_most_weaken {A} (run : M session A) (b1 b2 : Z) :
  waits_at_most run b1 -> b1 <= b2 -> waits_at_most run b2.
Proof.
  intros Hrun Hle s. destruct (Hrun s) as (a & s' & cs & Hs & Hcs & Hb).
  exists a, s', cs. split; [done|]. split; [done|lia].
Qed.

Lemma waits_at_most_bind {A B} (run : M session A) (f : A -> M session B) (b1 b2 : Z) :
  waits_at_most run b1 -> (forall a, waits_at_most (f a) b2) ->
  waits_at_most (let* a := run in f a) (b1 + b2).
Proof.
  intros Hrun Hf s. destruct (Hrun s) as (a & s1 & cs1 & Hs1 & Hcs1 & Hb1).
  destruct (Hf a s1) as (b & s2 & cs2 & Hs2 & Hcs2 & Hb2).
  exists b, s2, (cs1 ++ cs2). unfold bind. rewrite Hs1, Hs2.
  split; [done|]. split; [by rewrite Hcs2, Hcs1, app_assoc|].
  rewrite slept_app. lia.
Qed.

Lemma call_waits (c : quec_call) :
  0 <= slept [c] -> waits_at_most (call quecIot c) (slept [c]).
Proof.
  intros Hc s. exists (quecIot (calls s) c), (add_call c s), [c].
  split; [done|]. split; [done|lia].
Qed.

Lemma call_waits_not (c : quec_call) :
  slept [c] = 0 -> waits_at_most (call quecIot c) 0.
Proof. intros Hc. rewrite <- Hc. apply call_waits. lia. Qed.

Lemma connected_waits : waits_at_most (connected quecIot) 0.
Proof.
  unfold connected. apply (waits_at_most_bind _ _ 0 0); [by apply call_waits_not|].
  intros state. destruct (decide (state = 8)); [|apply waits_at_most_ret].
  apply (waits_at_most_bind _ _ 0 0); [by apply call_waits_not|].
  intros mode. apply waits_at_most_ret.
Qed.

Lemma wait_loop_waits (left : nat) :
  waits_at_most (wait_loop quecIot left) (200 * Z.of_nat left).
Proof.
  induction left as [|left IH]; cbn [wait_loop].
  - apply (waits_at_most_bind _ _ 0 0); [by apply call_waits_not|].
    intros state. destruct (decide (state ≠ 8)); apply waits_at_most_ret.
  - apply (waits_at_most_weaken _ (0 + (200 + 200 * Z.of_nat left))); [|lia].
    apply waits_at_most_bind; [by apply call_waits_not|].
    intros state. destruct (decide (state ≠ 8)).
    + apply waits_at_most_bind; [|by intros _].
      apply (call_waits (SleepMs 200)). cbn. lia.
    + apply (waits_at_most_weaken _ 0); [apply waits_at_most_ret|lia].
Qed.

Lemma dkds_loop_waits (count : Z) (left : nat) :
  0 <= count ->
  waits_at_most (dkds_loop quecIot getDkDs count left)
    (1000 * (Z.of_nat left * count + Z.of_nat left * (Z.of_nat left + 1) / 2)).
Proof.
  revert count. induction left as [|left IH]; intros count Hcount; cbn [dkds_loop].
  - apply waits_at_most_ret.
  - assert (Hsum : Z.of_nat (S left) * count + Z.of_nat (S left) * (Z.of_nat (S left) + 1) / 2
                   = (count + 1)
                     + (Z.of_nat left * (count + 1) + Z.of_nat left * (Z.of_nat left + 1) / 2)).
    { replace (Z.of_nat (S left) * (Z.of_nat (S left) + 1))
        with (Z.of_nat left * (Z.of_nat left + 1) + (Z.of_nat left + 1) * 2) by lia.
      rewrite Z.div_add by lia. lia. }
    rewrite Hsum. clear Hsum.
    assert (Hrest : 0 <= Z.of_nat left * (count + 1)
                         + Z.of_nat left * (Z.of_nat left + 1) / 2).
    { assert (0 <= Z.of_nat left * (Z.of_nat left + 1) / 2) by (apply Z.div_pos; lia).
      nia. }
    eapply waits_at_most_weaken.
    + apply (waits_at_most_bind _ _ 0).
      * intros s. exists (getDkDs (calls s)), (add_call GetDkDs s), [GetDkDs].
        split; [done|]. split; [done|]. by cbn.
      * intros [[dk ds]|].
        -- eapply waits_at_most_weaken.
           ++ intros s. exists tt, (set_dk_ds dk ds s), [].
              rewrite app_nil_r. split; [done|]. split; [done|]. cbn. split; reflexivity.
           ++ instantiate (1 := 1000 * ((count + 1)
                 + (Z.of_nat left * (count + 1) + Z.of_nat left * (Z.of_nat left + 1) / 2))).
              lia.
        -- eapply waits_at_most_weaken.
           ++ apply waits_at_most_bind.
              ** apply (call_waits (Sleep (count + 1))). cbn. lia.
              ** intros _. apply IH. lia.
           ++ cbn [slept foldr]. lia.
    + lia.
Qed.

(** X26. [init] returns, and without waiting long: whatever the platform
    answers, [init] never raises and the calls it makes sleep no more
    than 8 seconds in all, at most 10 times 200 ms waiting for the
    connection and at most 1, 2 and 3 seconds waiting for the device
    secret. *)
Theorem quec_init_waits_at_most_8s (enforce : bool) :
  waits_at_most (init quecIot getDkDs enforce) 8000.
Proof.
  unfold init.
  apply (waits_at_most_bind _ _ 0 8000); [by apply call_waits_not|intros _].
  apply (waits_at_most_bind _ _ 0 8000); [by apply call_waits_not|intros _].
  apply (waits_at_most_bind _ _ 0 8000).
  { destruct enforce; [apply waits_at_most_ret|apply connected_waits]. }
  intros [|]; [apply (waits_at_most_weaken _ 0); [apply waits_at_most_ret|lia]|].
  apply (waits_at_most_bind _ _ 0 8000); [by apply call_waits_not|intros _].
  apply (waits_at_most_bind _ _ 0 8000); [by apply call_waits_not|intros _].
  apply (waits_at_most_bind _ _ 0 8000).
  { intros s. by apply call_waits_not. }
  intros _. apply (waits_at_most_bind _ _ 0 8000).
  { intros s. destruct (negb _ || negb _).
    - by apply call_waits_not.
    - exists 0, s, []. rewrite app_nil_r. by cbn. }
  intros _. apply (waits_at_most_bind _ _ 0 8000).
  { intros s. by apply call_waits_not. }
  intros _. apply (waits_at_most_bind _ _ 0 8000).
  { intros s. by apply call_waits_not. }
  intros _. apply (waits_at_most_bind _ _ 0 8000).
  { intros s. by apply call_waits_not. }
  intros _. apply (waits_at_most_bind _ _ 0 8000); [by apply call_waits_not|intros _].
  apply (waits_at_most_bind _ _ 2000 6000).
  { apply (wait_loop_waits 10). }
  intros _. apply (waits_at_most_bind _ _ 6000 0).
  { intros s. destruct (String.eqb _ _ && negb _).
    - apply (waits_at_most_weaken _ _ 6000 (dkds_loop_waits 0 3 ltac:(lia))).
      vm_compute. discriminate.
    - exists tt, s, []. rewrite app_nil_r. by cbn. }
  intros _. apply (waits_at_most_bind _ _ 0 0); [by apply call_waits_not|intros _].
  apply (waits_at_most_bind _ _ 0 0); [by apply call_waits_not|intros _].
  apply connected_waits.
Qed.

(** X27. [init] is idempotent on a connected device: called with
    [enforce=False] when the work state is 8 and the connection mode 1,
    it returns [True] after asking for both twice (once for the log); it
    configures nothing and sleeps not at all. *)
Theorem quec_init_idempotent_when_connected s :
  quecIot (calls s ++ [GetWorkState; GetConnmode]) GetWorkState = 8 ->
  quecIot (calls s ++ [GetWorkState; GetConnmode; GetWorkState]) GetConnmode = 1 ->
  init quecIot getDkDs false s
    = (Ok true,
       {| pk := pk s; ps := ps s; dk := dk s; ds := ds s; server := server s;
          life_time := life_time s; mcu_name := mcu_name s;
          mcu_version := mcu_version s;
          calls := calls s ++ [GetWorkState; GetConnmode; GetWorkState; GetConnmode] |}).
Proof.
  intros Hstate Hmode. unfold init.
  unfold bind at 1, call at 1. unfold bind at 1, call at 1.
  unfold bind at 1, connected. unfold bind at 1, call at 1.
  cbn [calls add_call]. rewrite <- app_assoc. cbn [app].
  rewrite Hstate, decide_True by done.
  unfold bind at 1, call at 1. cbn [calls add_call].
  rewrite <- !app_assoc. cbn [app]. rewrite Hmode.
  unfold ret, add_call. cbn. by rewrite <- !app_assoc.
Qed.

End quec_connect.

Lemma quec_init_idempotent_when_connected_witness :
  let platform := fun (_ : list QuecThingConnect.quec_call) c =>
    match c with QuecThingConnect.GetWorkState => 8 | _ => 1 end in
  fst (QuecThingConnect.init platform (fun _ => None) false (quec_connection "dk" "ds"))
  = Ok true.
Proof.
  cbv zeta.
  rewrite (quec_init_idempotent_when_connected
             (fun _ c => match c with QuecThingConnect.GetWorkState => 8 | _ => 1 end)
             (fun _ => None) (quec_connection "dk" "ds")); reflexivity.
Defined.

(** ** Ids and the iterator of AliYunIot *)

Section id_iterator.
Import AliYunIot.
Context {It : Type} (fresh : It) (next : It -> option (Z * It)).

(** X28. [__get_id] follows the iterator.  As long as the iterator
    yields, the ids are the decimal spellings of the numbers it yields,
    pairwise distinct exactly when the numbers are.  When the iterator is
    exhausted, [__get_id] takes a fresh one and returns the first id of
    that; a session that began with a fresh iterator then returns once
    more the first id it had returned. *)
Theorem get_id_follows_iterator (n : nat) (s : state) (vs : list Z) (it : It) :
  draw next n (id_iter s) = Some (vs, it) ->
  get_ids fresh next n s = (Ok (str <$> vs), set_id_iter it s)
  /\ (NoDup (str <$> vs) <-> NoDup vs)
  /\ (next it = None ->
      forall v it', next fresh = Some (v, it') ->
        __get_id fresh next (set_id_iter it s) = (Ok (str v), set_id_iter it' s)
        /\ (id_iter s = fresh -> (0 < n)%nat -> head vs = Some v)).
Proof.
  intros Hdraw. split; [by apply get_ids_draw|]. split.
  - split; [apply NoDup_fmap_1|].
    intros Hvs. apply NoDup_fmap_2_strong; [|done].
    intros v1 v2 _ _ Heq. by apply (inj pretty) in Heq.
  - intros Hend v it' Hfresh. split.
    + by rewrite (get_id_restarts fresh next _ v it').
    + intros Hstart Hn. destruct n as [|n]; [lia|].
      cbn [draw] in Hdraw. rewrite Hstart, Hfresh in Hdraw.
      destruct (draw next n it') as [[vs' it'']|]; [|done].
      by injection Hdraw as <- _.
Qed.

End id_iterator.

Lemma get_id_follows_iterator_witness :
  get_ids numiter (numiter_next 2) 2 fresh_session
    = (Ok ["1"; "2"], AliYunIot.set_id_iter 2 fresh_session)
  /\ AliYunIot.__get_id numiter (numiter_next 2) (AliYunIot.set_id_iter 2 fresh_session)
     = (Ok "1", AliYunIot.set_id_iter 1 fresh_session).
Proof.
  destruct (get_id_follows_iterator numiter (numiter_next 2) 2 fresh_session [1; 2] 2
              eq_refl) as (Hids & _ & Hrestart).
  destruct (Hrestart eq_refl 1 1 eq_refl) as [Hnext _].
  split; [exact Hids|exact Hnext].
Defined.
